(** * cloudflaremon: the client scripts and the wire contract they exercise

    A shallow embedding of the Python scripts of the repository

    - [heartbeat-clients/heartbeat-client.py] and [slim/agent/heartbeat-client.py]
    - [examples/heartbeat-client.py]
    - [heartbeat-clients/test-external-alert.py]
    - [heartbeat-clients/test-notification.py]
    - [scripts/generate-api-keys.py]

    Effects are explicit: a script is a computation in a state-and-exception
    monad whose state records the requests posted, the lines printed and the
    files written; the network, the clock and the [openssl] subprocess are
    oracles the computation consults. *)

From Stdlib Require Import List String Ascii ZArith NArith Bool Lia.
Import ListNotations.
Open Scope string_scope.
Open Scope list_scope.
Open Scope Z_scope.

(* ================================================================= *)
(** ** Python values *)

Module Py.

(** A Python [str] is a sequence of code points. *)
Definition pystr := list N.

(** Source literals that are pure ASCII: one code point per character. *)
Definition py (s : string) : pystr :=
  map (fun a => N_of_ascii a) (list_ascii_of_string s).

Coercion py : string >-> pystr.

Fixpoint str_eqb (a b : pystr) : bool :=
  match a, b with
  | [], [] => true
  | x :: a', y :: b' => N.eqb x y && str_eqb a' b'
  | _, _ => false
  end.

(** What [json.load] / [response.json()] hand back, and what the scripts
    pass as [json=]: [None], [bool], [int], [float] (a decimal literal
    [num/den]), [str], [list] and [dict] (insertion ordered). *)
Unset Elimination Schemes.
Inductive JSON :=
| JNull
| JBool (b : bool)
| JInt (z : Z)
| JFloat (num : Z) (den : positive)
| JStr (s : pystr)
| JArr (l : list JSON)
| JObj (o : list (pystr * JSON)).
Set Elimination Schemes.

(** [dict] as an insertion-ordered association list. *)
Fixpoint dict_get {V} (k : pystr) (d : list (pystr * V)) : option V :=
  match d with
  | [] => None
  | (k', v) :: d' => if str_eqb k k' then Some v else dict_get k d'
  end.

(** [d[k] = v]: an existing key keeps its position. *)
Fixpoint dict_set {V} (k : pystr) (v : V) (d : list (pystr * V))
  : list (pystr * V) :=
  match d with
  | [] => [(k, v)]
  | (k', v') :: d' =>
      if str_eqb k k' then (k', v) :: d' else (k', v') :: dict_set k v d'
  end.

Definition dict_keys {V} (d : list (pystr * V)) : list pystr := map fst d.

(** Truth value testing ([if x:], [not x], [a and b]). *)
Definition truthy (j : JSON) : bool :=
  match j with
  | JNull => false
  | JBool b => b
  | JInt z => negb (z =? 0)
  | JFloat n _ => negb (n =? 0)
  | JStr s => match s with [] => false | _ => true end
  | JArr l => match l with [] => false | _ => true end
  | JObj o => match o with [] => false | _ => true end
  end.

(** Exceptions the scripts can meet. [RequestsJSONDecodeError] is
    [requests.exceptions.JSONDecodeError], which derives from both
    [RequestException] and [json.JSONDecodeError]; [JSONDecodeError] is the
    plain [json.JSONDecodeError]. *)
Inductive exn :=
| Timeout
| ConnectionError
| RequestException
| RequestsJSONDecodeError
| JSONDecodeError
| AttributeError
| KeyError
| TypeError
| UnboundLocalError
| FileNotFoundError
| UnicodeEncodeError
| UnicodeDecodeError
| BinasciiError
| SystemExit (code : Z).

(** The classes named in [except] clauses. *)
Inductive pyclass :=
| C_Timeout
| C_RequestException
| C_JSONDecodeError
| C_FileNotFoundError.

Definition isinstance (e : exn) (c : pyclass) : bool :=
  match c, e with
  | C_Timeout, Timeout => true
  | C_RequestException,
    (Timeout | ConnectionError | RequestException | RequestsJSONDecodeError) =>
      true
  | C_JSONDecodeError, (RequestsJSONDecodeError | JSONDecodeError) => true
  | C_FileNotFoundError, FileNotFoundError => true
  | _, _ => false
  end.

Inductive res (A : Type) :=
| Ret (a : A)
| Raise (e : exn).
Arguments Ret {A} a.
Arguments Raise {A} e.

(** State [S] threaded through, exceptions propagated. *)
Definition M (S A : Type) := S -> res A * S.

Definition ret {S A} (a : A) : M S A := fun s => (Ret a, s).

Definition raise {S A} (e : exn) : M S A := fun s => (Raise e, s).

Definition bind {S A B} (m : M S A) (k : A -> M S B) : M S B :=
  fun s =>
    match m s with
    | (Ret a, s') => k a s'
    | (Raise e, s') => (Raise e, s')
    end.

Definition gets {S A} (f : S -> A) : M S A := fun s => (Ret (f s), s).

Definition modify {S} (f : S -> S) : M S unit := fun s => (Ret tt, f s).

(** The first [except] clause whose class the exception is an instance of. *)
Fixpoint select_handler {B} (e : exn) (hs : list (pyclass * B)) : option B :=
  match hs with
  | [] => None
  | (c, h) :: hs' => if isinstance e c then Some h else select_handler e hs'
  end.

(** [try: body except C1 as e: h1 except C2: h2 ...]; state changes made by
    the body before it raised are kept. *)
Definition try_except {S A} (body : M S A)
    (handlers : list (pyclass * (exn -> M S A))) : M S A :=
  fun s =>
    match body s with
    | (Ret a, s') => (Ret a, s')
    | (Raise e, s') =>
        match select_handler e handlers with
        | Some h => h e s'
        | None => (Raise e, s')
        end
    end.

(** [for x in l: body x] *)
Fixpoint for_each {S A} (l : list A) (body : A -> M S unit) : M S unit :=
  match l with
  | [] => ret tt
  | x :: l' => bind (body x) (fun _ => for_each l' body)
  end.

(** [obj.get(k, default)]: only a [dict] has the method. *)
Definition get_method {S} (obj : JSON) (k : pystr) (default : JSON)
  : M S JSON :=
  match obj with
  | JObj o => ret (match dict_get k o with Some v => v | None => default end)
  | _ => raise AttributeError
  end.

(** [obj[k]] with a string key. *)
Definition getitem {S} (obj : JSON) (k : pystr) : M S JSON :=
  match obj with
  | JObj o =>
      match dict_get k o with Some v => ret v | None => raise KeyError end
  | _ => raise TypeError
  end.

(** The items a [for] loop over [obj] visits. *)
Definition iter {S} (obj : JSON) : M S (list JSON) :=
  match obj with
  | JArr l => ret l
  | JStr s => ret (map (fun c => JStr [c]) s)
  | JObj o => ret (map (fun kv => JStr (fst kv)) o)
  | _ => raise TypeError
  end.

(** What the interpreter reports to the shell: [sys.exit(n)] and a script
    that runs to its end give their code, a traceback gives 1. *)
Definition exit_status_of {A} (code : A -> Z) (r : res A) : Z :=
  match r with
  | Ret a => code a
  | Raise (SystemExit n) => n
  | Raise _ => 1
  end.

(** A fragment of a printed line: literal text of the source, or a run-time
    value interpolated by an f-string. *)
Inductive piece :=
| Lit (s : string)
| Str (s : pystr)
| Val (j : JSON)
| Num (z : Z)
| Now
| Err (e : exn)
| Dumps (j : JSON).

Definition line := list piece.

(** Text the UTF-8 codec encodes. The standard output and a file opened in
    text mode encode what is written to them, in a UTF-8 locale with the
    strict error handler; a surrogate code point (U+D800 to U+DFFF) then
    makes the codec raise [UnicodeEncodeError]. *)
Definition encodable (s : pystr) : bool :=
  forallb (fun c => negb ((55296 <=? c) && (c <=? 57343))%N) s.

(** [str(j)] can be encoded. A [str] is printed as it is; the other values
    print as ASCII words and numbers, and a [list] or [dict] prints the
    [repr] of its strings, which escapes surrogates. *)
Definition encodable_value (j : JSON) : bool :=
  match j with
  | JStr s => encodable s
  | _ => true
  end.

(** Whether [print] can encode a line. A [Val] piece is a value taken out
    of a JSON document, where an escape such as [\ud800] decodes to a lone
    surrogate. The other pieces are text of the script's own making or of
    its operator (literals, module constants, words of the command line,
    the output of [json.dumps] and of a codec of the libraries), taken to
    be encodable. *)
Definition piece_encodable (p : piece) : bool :=
  match p with
  | Val j => encodable_value j
  | _ => true
  end.

Definition line_encodable (l : line) : bool := forallb piece_encodable l.

(** The one-character strings ["\n"] and ["\033"], and [s * n]. *)
Definition nl : string := String (ascii_of_nat 10) EmptyString.
Definition esc : string := String (ascii_of_nat 27) EmptyString.

Fixpoint times (s : string) (n : nat) : string :=
  match n with
  | O => EmptyString
  | S n' => String.append s (times s n')
  end.

End Py.
Import Py.

Declare Scope py_scope.
Notation "x <- m ;; k" := (bind m (fun x => k))
  (at level 61, m at next level, right associativity) : py_scope.
Notation "m ;; k" := (bind m (fun _ => k))
  (at level 61, right associativity) : py_scope.
Open Scope py_scope.

(* ================================================================= *)
(** ** The [requests] library, as far as the scripts use it *)

Module Http.

Record Request := {
  url : pystr;
  headers : list (pystr * pystr);
  json_body : JSON;
  timeout : Z
}.

(** [response.json()]: the decoded body, or a decode error; the flag tells
    whether the error raised derives from [RequestException]
    (requests 2.27 and later) or is the plain [json.JSONDecodeError]. *)
Inductive json_outcome :=
| Parsed (j : JSON)
| Undecodable (is_request_exception : bool).

Record Response := {
  status_code : Z;
  text : pystr;
  body : json_outcome
}.

Inductive net_error := NetTimeout | NetConnectionError | NetOther.

Definition exn_of_net_error (e : net_error) : exn :=
  match e with
  | NetTimeout => Timeout
  | NetConnectionError => ConnectionError
  | NetOther => RequestException
  end.

Inductive post_outcome :=
| NetFail (e : net_error)
| Responded (r : Response).

(** The outcome of the n-th post of a run. *)
Definition Network := nat -> post_outcome.

(** What a run of a client has done so far, and the local variable
    [response] of the function being executed (unbound when [None]). *)
Record State := {
  sent : list Request;
  out : list line;
  response_var : option Response
}.

Definition initial : State :=
  {| sent := []; out := []; response_var := None |}.

(** [print(f"...")]: the line is encoded as a whole before any of it is
    written. *)
Definition print (l : line) : M State unit :=
  if line_encodable l
  then modify (fun s => {| sent := sent s; out := out s ++ [l];
                           response_var := response_var s |})
  else raise UnicodeEncodeError.

Definition requests_post (net : Network) (rq : Request) : M State Response :=
  fun s =>
    let s' := {| sent := sent s ++ [rq]; out := out s;
                 response_var := response_var s |} in
    match net (List.length (sent s)) with
    | NetFail e => (Raise (exn_of_net_error e), s')
    | Responded r => (Ret r, s')
    end.

Definition json (r : Response) : M State JSON :=
  match body r with
  | Parsed j => ret j
  | Undecodable true => raise RequestsJSONDecodeError
  | Undecodable false => raise JSONDecodeError
  end.

(** [response = v] *)
Definition assign_response (r : Response) : M State unit :=
  modify (fun s => {| sent := sent s; out := out s;
                      response_var := Some r |}).

(** Reading [response] in a handler. *)
Definition read_response : M State Response :=
  fun s =>
    match response_var s with
    | Some r => (Ret r, s)
    | None => (Raise UnboundLocalError, s)
    end.

(** A call runs in a fresh frame: [response] starts unbound and the
    caller's own binding is back when the call returns. *)
Definition call {A} (f : M State A) : M State A :=
  fun s =>
    let '(r, s') := f {| sent := sent s; out := out s;
                         response_var := None |} in
    (r, {| sent := sent s'; out := out s';
           response_var := response_var s |}).

End Http.
Import Http.

(* ================================================================= *)
(** ** heartbeat-clients/heartbeat-client.py and slim/agent/heartbeat-client.py

    The two files differ in [WORKER_URL] only; the module-level constants are
    the fields of [Config]. *)

Module HeartbeatClient.

Record ServiceWithKey := { serviceId : pystr; token : pystr }.

Record Config := {
  WORKER_URL : pystr;
  SERVICE_ID : pystr;
  API_KEY : pystr;
  BATCH_MODE : bool;
  BATCH_SHARED_KEY : bool;
  SERVICE_IDS : list pystr;
  SERVICES_WITH_KEYS : list ServiceWithKey
}.

Definition service_with_key_json (x : ServiceWithKey) : JSON :=
  JObj [(py "serviceId", JStr (serviceId x)); (py "token", JStr (token x))].

Definition default_services_with_keys : list ServiceWithKey :=
  [ {| serviceId := "service-1"; token := "key-for-service-1" |};
    {| serviceId := "service-2"; token := "key-for-service-2" |};
    {| serviceId := "service-3"; token := "key-for-service-3" |} ].

(** heartbeat-clients/heartbeat-client.py as shipped. *)
Definition heartbeat_clients_config : Config := {|
  WORKER_URL :=
    "https://heartbeat-monitor.your-subdomain.workers.dev/api/heartbeat";
  SERVICE_ID := "service-1";
  API_KEY := "your-secret-key-1";
  BATCH_MODE := false;
  BATCH_SHARED_KEY := true;
  SERVICE_IDS := [py "service-1"; py "service-2"; py "service-3"];
  SERVICES_WITH_KEYS := default_services_with_keys
|}.

(** slim/agent/heartbeat-client.py as shipped. *)
Definition slim_agent_config : Config := {|
  WORKER_URL := "http://worker.url/here";
  SERVICE_ID := "service-1";
  API_KEY := "your-secret-key-1";
  BATCH_MODE := false;
  BATCH_SHARED_KEY := true;
  SERVICE_IDS := [py "service-1"; py "service-2"; py "service-3"];
  SERVICES_WITH_KEYS := default_services_with_keys
|}.

Section Client.
Variable cfg : Config.
Variable net : Network.

Definition single_payload : JSON :=
  JObj [(py "serviceId", JStr (SERVICE_ID cfg))].

Definition single_headers : list (pystr * pystr) :=
  [(py "Content-Type", py "application/json");
   (py "Authorization", py "Bearer " ++ API_KEY cfg)].

Definition send_heartbeat_single : M State Z :=
  let payload := single_payload in
  let headers := single_headers in
  try_except
    (response <- requests_post net
        {| url := WORKER_URL cfg; headers := headers;
           json_body := payload; timeout := 10 |} ;;
     if status_code response =? 200 then
       result <- json response ;;
       message <- get_method result "message" JNull ;;
       print [Lit "["; Now; Lit "] ✓ Heartbeat sent: "; Val message] ;;
       ret 0
     else
       print [Lit "["; Now; Lit "] ✗ Failed: ";
              Num (status_code response); Lit " - ";
              Str (text response)] ;;
       ret 1)
    [(C_RequestException,
      fun e => print [Lit "["; Now; Lit "] ✗ Error: "; Err e] ;; ret 1)].

(** The payload and headers [send_heartbeat_batch] builds before the
    [try]. *)
Definition batch_payload : JSON :=
  if BATCH_SHARED_KEY cfg
  then JObj [(py "services", JArr (map JStr (SERVICE_IDS cfg)))]
  else JObj [(py "services",
              JArr (map service_with_key_json (SERVICES_WITH_KEYS cfg)))].

Definition batch_headers : list (pystr * pystr) :=
  let headers := [(py "Content-Type", py "application/json")] in
  if BATCH_SHARED_KEY cfg
  then dict_set "Authorization" (py "Bearer " ++ API_KEY cfg) headers
  else headers.

Definition batch_announce : line :=
  if BATCH_SHARED_KEY cfg
  then [Lit "Using shared API key for ";
        Num (Z.of_nat (List.length (SERVICE_IDS cfg))); Lit " services..."]
  else [Lit "Using per-service API keys for ";
        Num (Z.of_nat (List.length (SERVICES_WITH_KEYS cfg)));
        Lit " services..."].

(** The body of the loop over [result['results']] after a 200. *)
Definition report_result (service_result : JSON) : M State unit :=
  success <- getitem service_result "success" ;;
  let status := if truthy success then Lit "✓" else Lit "✗" in
  sid <- getitem service_result "serviceId" ;;
  print [Lit "  "; status; Lit " "; Val sid].

(** The body of the loop over [result.get('results', [])] after a 207. *)
Definition report_partial_result (service_result : JSON) : M State unit :=
  success <- getitem service_result "success" ;;
  if truthy success then
    sid <- getitem service_result "serviceId" ;;
    print [Lit "  ✓ "; Val sid]
  else
    sid <- getitem service_result "serviceId" ;;
    error <- get_method service_result "error" JNull ;;
    print [Lit "  ✗ "; Val sid; Lit ": "; Val error].

Definition send_heartbeat_batch : M State Z :=
  let headers := batch_headers in
  let payload := batch_payload in
  print batch_announce ;;
  try_except
    (response <- requests_post net
        {| url := WORKER_URL cfg; headers := headers;
           json_body := payload; timeout := 10 |} ;;
     if status_code response =? 200 then
       result <- json response ;;
       message <- get_method result "message" JNull ;;
       print [Lit "["; Now; Lit "] ✓ Batch heartbeat sent: "; Val message] ;;
       results <- get_method result "results" JNull ;;
       (if truthy results then
          results <- getitem result "results" ;;
          items <- iter results ;;
          for_each items report_result
        else ret tt) ;;
       ret 0
     else if status_code response =? 207 then
       result <- json response ;;
       message <- get_method result "message" JNull ;;
       print [Lit "["; Now; Lit "] ⚠ Partial success: "; Val message] ;;
       results <- get_method result "results" (JArr []) ;;
       items <- iter results ;;
       for_each items report_partial_result ;;
       ret 0
     else
       print [Lit "["; Now; Lit "] ✗ Batch failed: ";
              Num (status_code response); Lit " - ";
              Str (text response)] ;;
       ret 1)
    [(C_RequestException,
      fun e => print [Lit "["; Now; Lit "] ✗ Error: "; Err e] ;; ret 1)].

Definition main : M State Z :=
  if BATCH_MODE cfg then
    let count :=
      if BATCH_SHARED_KEY cfg then List.length (SERVICE_IDS cfg)
      else List.length (SERVICES_WITH_KEYS cfg) in
    let mode :=
      if BATCH_SHARED_KEY cfg then "shared key" else "per-service keys" in
    print [Lit "Sending batch heartbeat for "; Num (Z.of_nat count);
           Lit " services ("; Lit mode; Lit ")..."] ;;
    send_heartbeat_batch
  else
    print [Lit "Sending heartbeat for service: "; Str (SERVICE_ID cfg);
           Lit "..."] ;;
    send_heartbeat_single.

(** [sys.exit(main())] *)
Definition exit_status (run : M State Z) : Z :=
  exit_status_of (fun n => n) (fst (run initial)).

End Client.

End HeartbeatClient.

(* ================================================================= *)
(** ** examples/heartbeat-client.py *)

Module ExampleClient.

Record Config := {
  WORKER_URL : pystr;
  SERVICE_ID : pystr;
  API_KEY : pystr
}.

Definition default_config : Config := {|
  WORKER_URL :=
    "https://heartbeat-monitor.your-subdomain.workers.dev/api/heartbeat";
  SERVICE_ID := "service-1";
  API_KEY := "your-secret-key-1"
|}.

Section Client.
Variable cfg : Config.
Variable net : Network.
(** [socket.gethostname()] and [datetime.utcnow().isoformat()] *)
Variable hostname : pystr.
Variable utcnow_isoformat : pystr.

Definition payload : JSON :=
  let timestamp := utcnow_isoformat ++ py "Z" in
  JObj [(py "serviceId", JStr (SERVICE_ID cfg));
        (py "status", JStr "up");
        (py "metadata",
         JObj [(py "hostname", JStr hostname);
               (py "timestamp", JStr timestamp)]);
        (py "message", JStr (py "Heartbeat from " ++ hostname))].

Definition request_headers : list (pystr * pystr) :=
  [(py "Content-Type", py "application/json");
   (py "Authorization", py "Bearer " ++ API_KEY cfg)].

Definition send_heartbeat : M State Z :=
  let payload := payload in
  let headers := request_headers in
  try_except
    (response <- requests_post net
        {| url := WORKER_URL cfg; headers := headers;
           json_body := payload; timeout := 10 |} ;;
     if status_code response =? 200 then
       result <- json response ;;
       message <- get_method result "message" JNull ;;
       print [Lit "["; Now; Lit "] Heartbeat sent successfully: ";
              Val message] ;;
       ret 0
     else
       print [Lit "["; Now; Lit "] Failed to send heartbeat: ";
              Num (status_code response); Lit " - ";
              Str (text response)] ;;
       ret 1)
    [(C_RequestException,
      fun e =>
        print [Lit "["; Now; Lit "] Error sending heartbeat: "; Err e] ;;
        ret 1)].

End Client.

End ExampleClient.

(* ================================================================= *)
(** ** heartbeat-clients/test-notification.py *)

Module TestNotification.

Record Config := {
  WORKER_URL : pystr;
  CHANNEL_TYPE : pystr;
  EVENT_TYPE : pystr
}.

Definition default_config : Config := {|
  WORKER_URL := "https://your-worker.workers.dev";
  CHANNEL_TYPE := "discord";
  EVENT_TYPE := "down"
|}.

Definition RED : string := String.append esc "[0;31m".
Definition GREEN : string := String.append esc "[0;32m".
Definition YELLOW : string := String.append esc "[1;33m".
Definition NC : string := String.append esc "[0m".

Section Script.
Variable cfg : Config.
Variable net : Network.

Definition request_body : JSON :=
  JObj [(py "channelType", JStr (CHANNEL_TYPE cfg));
        (py "eventType", JStr (EVENT_TYPE cfg))].

Definition test_notification : M State Z :=
  call
   (print [Lit "🔔 Testing Notification System"] ;;
    print [Lit (times "=" 40)] ;;
    print [Lit "Worker URL: "; Str (WORKER_URL cfg)] ;;
    print [Lit "Channel Type: "; Str (CHANNEL_TYPE cfg)] ;;
    print [Lit "Event Type: "; Str (EVENT_TYPE cfg)] ;;
    print [] ;;
    try_except
      (response <- requests_post net
          {| url := WORKER_URL cfg ++ py "/api/test-notification";
             headers := [(py "Content-Type", py "application/json")];
             json_body := request_body;
             timeout := 10 |} ;;
       assign_response response ;;
       data <- json response ;;
       ok <- (if status_code response =? 200
              then success <- get_method data "success" JNull ;;
                   ret (truthy success)
              else ret false) ;;
       if (ok : bool) then
         print [Lit GREEN; Lit "✅ Success!"; Lit NC] ;;
         message <- get_method data "message" JNull ;;
         print [Lit "Message: "; Val message] ;;
         print [] ;;
         print [Lit "Check your notification channel to confirm receipt!"] ;;
         ret 0
       else
         print [Lit RED; Lit "❌ Failed"; Lit NC] ;;
         print [Lit "HTTP Status: "; Num (status_code response)] ;;
         message <- get_method data "message" (JStr "Unknown error") ;;
         print [Lit "Message: "; Val message] ;;
         print [] ;;
         print [Lit "Troubleshooting:"] ;;
         print [Lit "1. Check notifications.json - is the channel enabled?"] ;;
         print [Lit "2. Verify your webhook URL / API credentials"] ;;
         print [Lit "3. Check worker logs: npm run tail"] ;;
         ret 1)
      [(C_Timeout,
        fun _ =>
          print [Lit RED; Lit "❌ Request timed out"; Lit NC] ;;
          print [Lit "The worker did not respond in time."] ;;
          ret 1);
       (C_RequestException,
        fun e =>
          print [Lit RED; Lit "❌ Connection error"; Lit NC] ;;
          print [Lit "Error: "; Err e] ;;
          ret 1);
       (C_JSONDecodeError,
        fun _ =>
          print [Lit RED; Lit "❌ Invalid JSON response"; Lit NC] ;;
          response <- read_response ;;
          print [Lit "Response: "; Str (text response)] ;;
          ret 1)]).

(** [sys.exit(test_notification())] *)
Definition exit_status : Z :=
  exit_status_of (fun n => n) (fst (test_notification initial)).

End Script.

End TestNotification.

(* ================================================================= *)
(** ** heartbeat-clients/test-external-alert.py *)

Module TestExternalAlert.

(** Dict and string literals of the source. *)
Definition obj (o : list (string * JSON)) : JSON :=
  JObj (map (fun kv => (py (fst kv), snd kv)) o).

Definition str (s : string) : JSON := JStr (py s).

Definition test1_payload : JSON :=
  obj [("title", str "Test Generic Alert");
       ("message", str "This is a test alert using the generic format");
       ("severity", str "warning");
       ("source", str "test-script");
       ("labels", obj [("environment", str "test");
                       ("script", str "test-external-alert.py")])].

Definition test2_payload : JSON :=
  obj [("title", str "Critical System Alert");
       ("message", str "A critical issue has been detected");
       ("severity", str "critical");
       ("source", str "test-script")].

Definition test3_payload : JSON :=
  obj [("receiver", str "cloudflare-monitor");
       ("status", str "firing");
       ("alerts",
        JArr [obj [("status", str "firing");
                   ("labels", obj [("alertname", str "HighCPU");
                                   ("severity", str "warning");
                                   ("instance", str "server-01");
                                   ("job", str "node-exporter")]);
                   ("annotations",
                    obj [("summary", str "High CPU usage detected");
                         ("description",
                          str "CPU usage is above 80% on server-01")]);
                   ("startsAt", str "2025-11-06T10:30:00Z");
                   ("generatorURL", str "http://prometheus:9090/graph")]]);
       ("groupLabels", obj [("alertname", str "HighCPU")])].

Definition test4_payload : JSON :=
  obj [("receiver", str "cloudflare-monitor");
       ("status", str "resolved");
       ("alerts",
        JArr [obj [("status", str "resolved");
                   ("labels", obj [("alertname", str "HighCPU");
                                   ("severity", str "warning");
                                   ("instance", str "server-01")]);
                   ("annotations",
                    obj [("summary", str "High CPU usage detected");
                         ("description",
                          str "CPU usage has returned to normal")]);
                   ("startsAt", str "2025-11-06T10:30:00Z");
                   ("endsAt", str "2025-11-06T10:45:00Z")]])].

Definition high_memory (status instance description : string) : JSON :=
  obj [("status", str status);
       ("labels", obj [("alertname", str "HighMemory");
                       ("severity", str "critical");
                       ("instance", str instance)]);
       ("annotations", obj [("summary", str "Memory usage critical");
                            ("description", str description)])].

Definition test5_payload : JSON :=
  obj [("receiver", str "cloudflare-monitor");
       ("status", str "firing");
       ("alerts",
        JArr [high_memory "firing" "server-01" "Memory usage is above 95%";
              high_memory "firing" "server-02" "Memory usage is above 95%";
              high_memory "resolved" "server-03"
                "Memory usage returned to normal"])].

Definition test6_payload : JSON :=
  obj [("dashboardId", JInt 1);
       ("evalMatches",
        JArr [obj [("value", JFloat 955 10);
                   ("metric", str "memory_usage_percent");
                   ("tags", obj [("host", str "web-server-01")])]]);
       ("message", str "Memory usage is critically high");
       ("orgId", JInt 1);
       ("panelId", JInt 2);
       ("ruleId", JInt 1);
       ("ruleName", str "High Memory Alert");
       ("ruleUrl", str "https://grafana.example.com/alerting/1");
       ("state", str "alerting");
       ("tags", obj [("severity", str "critical")]);
       ("title", str "High Memory Usage on web-server-01")].

Definition test7_payload : JSON :=
  obj [("title", str "Deployment Completed");
       ("message", str "New version v2.5.0 deployed successfully");
       ("severity", str "info");
       ("source", str "ci-cd");
       ("labels", obj [("version", str "v2.5.0");
                       ("environment", str "production")])].

Definition test8_payload : JSON :=
  obj [("title", str "Channel Routing Test");
       ("message", str "This alert should only go to Discord and Slack");
       ("severity", str "warning");
       ("source", str "test-script");
       ("channels", JArr [str "discord"; str "slack"])].

Definition test9_payload : JSON :=
  obj [("title", str "Critical Production Issue");
       ("message", str "This alert should only trigger PagerDuty");
       ("severity", str "critical");
       ("source", str "test-script");
       ("channels", JArr [str "pagerduty"])].

(** The nine tests of [main], in order. *)
Definition tests : list (pystr * JSON) :=
  [(py "Test 1: Generic Format (Warning)", test1_payload);
   (py "Test 2: Critical Severity", test2_payload);
   (py "Test 3: Alertmanager Format (Firing)", test3_payload);
   (py "Test 4: Alertmanager Format (Resolved)", test4_payload);
   (py "Test 5: Alertmanager Format (Multiple Alerts)", test5_payload);
   (py "Test 6: Grafana Format", test6_payload);
   (py "Test 7: Info Severity", test7_payload);
   (py "Test 8: Specific Channels (Discord + Slack only)", test8_payload);
   (py "Test 9: Single Channel (PagerDuty only)", test9_payload)].

Section Script.
(** [sys.argv] *)
Variable argv : list pystr.
Variable net : Network.

Definition WORKER_URL : pystr :=
  if (1 <? List.length argv)%nat then nth 1 argv []
  else py "https://your-worker.workers.dev".

(** [None] when the command line has no third word. *)
Definition API_KEY : option pystr :=
  if (2 <? List.length argv)%nat then Some (nth 2 argv []) else None.

Definition ENDPOINT : pystr := WORKER_URL ++ py "/api/alert".

(** [if API_KEY:] *)
Definition API_KEY_truthy : bool :=
  match API_KEY with
  | Some (_ :: _) => true
  | _ => false
  end.

(** [f"Bearer {API_KEY}"] *)
Definition bearer (key : option pystr) : pystr :=
  py "Bearer " ++ match key with Some k => k | None => py "None" end.

Definition request_headers : list (pystr * pystr) :=
  let headers := [(py "Content-Type", py "application/json")] in
  if API_KEY_truthy
  then dict_set "Authorization" (bearer API_KEY) headers
  else headers.

Definition send_alert (name : pystr) (payload : JSON) : M State unit :=
  call
   (print [Lit nl; Lit "📝 "; Str name] ;;
    print [Lit (times "-" 40)] ;;
    try_except
      (let headers := request_headers in
       response <- requests_post net
          {| url := ENDPOINT; headers := headers;
             json_body := payload; timeout := 10 |} ;;
       assign_response response ;;
       result <- json response ;;
       print [Dumps result] ;;
       if status_code response =? 200 then
         print [Lit "✅ Success"]
       else
         print [Lit "❌ Failed with status "; Num (status_code response)])
      [(C_RequestException,
        fun e => print [Lit "❌ Request failed: "; Err e]);
       (C_JSONDecodeError,
        fun _ =>
          response <- read_response ;;
          print [Lit "❌ Invalid JSON response: "; Str (text response)])]).

Definition main : M State unit :=
  (if API_KEY_truthy
   then print [Lit "🔐 Using API Key authentication"]
   else print [Lit "⚠️  No API Key provided (endpoint must be public)"]) ;;
  print [Lit "🧪 Testing External Alert Integration"] ;;
  print [Lit "Endpoint: "; Str ENDPOINT; Lit nl] ;;
  send_alert "Test 1: Generic Format (Warning)" test1_payload ;;
  send_alert "Test 2: Critical Severity" test2_payload ;;
  send_alert "Test 3: Alertmanager Format (Firing)" test3_payload ;;
  send_alert "Test 4: Alertmanager Format (Resolved)" test4_payload ;;
  send_alert "Test 5: Alertmanager Format (Multiple Alerts)"
    test5_payload ;;
  send_alert "Test 6: Grafana Format" test6_payload ;;
  send_alert "Test 7: Info Severity" test7_payload ;;
  send_alert "Test 8: Specific Channels (Discord + Slack only)"
    test8_payload ;;
  send_alert "Test 9: Single Channel (PagerDuty only)" test9_payload ;;
  print [Lit nl; Lit nl; Lit "✅ All tests completed!"; Lit nl] ;;
  print [Lit "📌 Check your notification channels (Discord, Slack, etc.) to verify alerts were received."] ;;
  print [Lit "📌 Tests 8 and 9 demonstrate channel-specific routing."].

(** The script ends with a bare [main()]: status 0 unless a traceback. *)
Definition exit_status : Z :=
  exit_status_of (fun _ : unit => 0) (fst (main initial)).

End Script.

End TestExternalAlert.

(* ================================================================= *)
(** ** The standard-library codecs [scripts/generate-api-keys.py] calls

    [json.dumps(d, separators=(',', ':'))] and [json.loads] on a [dict] from
    [str] to [str], [str.encode] / [bytes.decode] (UTF-8), [base64.b64encode]
    / [base64.b64decode], and [str.strip], following CPython's
    [json.encoder], [json.decoder], [binascii] and [unicodeobject]. *)

Module JsonText.

(** One lower-case hexadecimal digit. *)
Definition hex_digit (d : N) : N :=
  (if d <? 10 then 48 + d else 87 + d)%N.

(** ['{0:04x}'.format(n)] for [n < 0x10000] *)
Definition hex4 (n : N) : pystr :=
  [hex_digit (n / 4096 mod 16); hex_digit (n / 256 mod 16);
   hex_digit (n / 16 mod 16); hex_digit (n mod 16)]%N.

Definition u_escape (n : N) : pystr := (92 :: 117 :: hex4 n)%N.

(** The replacement [py_encode_basestring_ascii] makes for one code point:
    [ESCAPE_DCT] first, printable ASCII unchanged, [\uXXXX] otherwise, with
    a surrogate pair above the basic plane. *)
Definition escape_char (c : N) : pystr :=
  (if c =? 34 then [92; 34]
   else if c =? 92 then [92; 92]
   else if c =? 10 then [92; 110]
   else if c =? 13 then [92; 114]
   else if c =? 9 then [92; 116]
   else if c =? 8 then [92; 98]
   else if c =? 12 then [92; 102]
   else if (32 <=? c) && (c <=? 126) then [c]
   else if c <? 65536 then u_escape c
   else
     let n := c - 65536 in
     let s1 := N.lor 55296 (N.land (N.shiftr n 10) 1023) in
     let s2 := N.lor 56320 (N.land n 1023) in
     u_escape s1 ++ u_escape s2)%N.

Definition encode_basestring_ascii (s : pystr) : pystr :=
  (34 :: flat_map escape_char s ++ [34])%N.

Fixpoint join (sep : pystr) (l : list pystr) : pystr :=
  match l with
  | [] => []
  | [x] => x
  | x :: l' => x ++ sep ++ join sep l'
  end.

Definition dumps_item (kv : pystr * pystr) : pystr :=
  (encode_basestring_ascii (fst kv) ++ 58 :: encode_basestring_ascii (snd kv))%N.

(** [json.dumps(d, separators=(',', ':'))] for [d : dict[str, str]] *)
Definition dumps_compact (d : list (pystr * pystr)) : pystr :=
  (123 :: join [44] (map dumps_item d) ++ [125])%N.

(** *** Decoding *)

Definition hex_val (c : N) : option N :=
  (if (48 <=? c) && (c <=? 57) then Some (c - 48)
   else if (97 <=? c) && (c <=? 102) then Some (c - 87)
   else if (65 <=? c) && (c <=? 70) then Some (c - 55)
   else None)%N.

Definition decode_hex4 (h1 h2 h3 h4 : N) : option N :=
  match hex_val h1, hex_val h2, hex_val h3, hex_val h4 with
  | Some a, Some b, Some c, Some d => Some (((a * 16 + b) * 16 + c) * 16 + d)%N
  | _, _, _, _ => None
  end.

Definition is_high_surrogate (u : N) : bool := ((55296 <=? u) && (u <=? 56319))%N.
Definition is_low_surrogate (u : N) : bool := ((56320 <=? u) && (u <=? 57343))%N.

Definition join_surrogates (uni uni2 : N) : N :=
  (65536 + N.lor (N.shiftl (uni - 55296) 10) (uni2 - 56320))%N.

(** The [BACKSLASH] table of the decoder. *)
Definition unescape (e : N) : option N :=
  (if e =? 34 then Some 34
   else if e =? 92 then Some 92
   else if e =? 47 then Some 47
   else if e =? 98 then Some 8
   else if e =? 102 then Some 12
   else if e =? 110 then Some 10
   else if e =? 114 then Some 13
   else if e =? 116 then Some 9
   else None)%N.

Definition push {A B} (c : A) (r : option (list A * B)) : option (list A * B) :=
  match r with
  | Some (s, rest) => Some (c :: s, rest)
  | None => None
  end.

(** [scanstring] in strict mode, started just after the opening quote:
    the decoded string and the text after the closing quote. *)
Fixpoint scanstring (s : pystr) : option (pystr * pystr) :=
  match s with
  | [] => None
  | c :: r =>
    if (c =? 34)%N then Some ([], r)
    else if (c =? 92)%N then
      match r with
      | [] => None
      | e :: r1 =>
        if (e =? 117)%N then
          match r1 with
          | h1 :: h2 :: h3 :: h4 :: r2 =>
            match decode_hex4 h1 h2 h3 h4 with
            | None => None
            | Some uni =>
              if is_high_surrogate uni then
                match r2 with
                | b :: u :: l1 :: l2 :: l3 :: l4 :: r3 =>
                  if ((b =? 92) && (u =? 117))%N then
                    match decode_hex4 l1 l2 l3 l4 with
                    | None => None
                    | Some uni2 =>
                      if is_low_surrogate uni2
                      then push (join_surrogates uni uni2) (scanstring r3)
                      else push uni (scanstring r2)
                    end
                  else push uni (scanstring r2)
                | _ => push uni (scanstring r2)
                end
              else push uni (scanstring r2)
            end
          | _ => None
          end
        else
          match unescape e with
          | Some c' => push c' (scanstring r1)
          | None => None
          end
      end
    else if (c <? 32)%N then None
    else push c (scanstring r)
  end.

Definition is_ws (c : N) : bool :=
  ((c =? 32) || (c =? 9) || (c =? 10) || (c =? 13))%N.

Fixpoint skip_ws (s : pystr) : pystr :=
  match s with
  | c :: r => if is_ws c then skip_ws r else s
  | [] => []
  end.

(** The members of an object, from the opening quote of a key on; a value
    that is not a string leaves the fragment modelled. A repeated key keeps
    its place and takes the later value. *)
Fixpoint members (fuel : nat) (s : pystr) (acc : list (pystr * pystr))
  : option (list (pystr * pystr) * pystr) :=
  match fuel with
  | O => None
  | S fuel' =>
    match s with
    | q :: r =>
      if (q =? 34)%N then
        match scanstring r with
        | None => None
        | Some (k, r1) =>
          match skip_ws r1 with
          | colon :: r2 =>
            if (colon =? 58)%N then
              match skip_ws r2 with
              | q' :: r3 =>
                if (q' =? 34)%N then
                  match scanstring r3 with
                  | None => None
                  | Some (v, r4) =>
                    let acc' := dict_set k v acc in
                    match skip_ws r4 with
                    | d :: r5 =>
                      if (d =? 125)%N then Some (acc', r5)
                      else if (d =? 44)%N
                           then members fuel' (skip_ws r5) acc'
                           else None
                    | [] => None
                    end
                  end
                else None
              | [] => None
              end
            else None
          | [] => None
          end
        end
      else None
    | [] => None
    end
  end.

(** [json.loads] on documents that are objects with string values; [None]
    is [JSONDecodeError] (or a document outside that fragment). *)
Definition loads (s : pystr) : option (list (pystr * pystr)) :=
  match skip_ws s with
  | b :: r =>
    if (b =? 123)%N then
      match skip_ws r with
      | e :: r' =>
        if (e =? 125)%N then
          match skip_ws r' with [] => Some [] | _ => None end
        else
          match members (List.length s) (e :: r') [] with
          | Some (d, rest) =>
              match skip_ws rest with [] => Some d | _ => None end
          | None => None
          end
      | [] => None
      end
    else None
  | [] => None
  end.

End JsonText.

Module Utf8.

Definition is_surrogate (c : N) : bool := ((55296 <=? c) && (c <=? 57343))%N.

(** The bytes of one code point; [None] is [UnicodeEncodeError]. *)
Definition encode_char (c : N) : option (list N) :=
  (if c <? 128 then Some [c]
   else if c <? 2048 then Some [192 + c / 64; 128 + c mod 64]
   else if c <? 65536 then
     if is_surrogate c then None
     else Some [224 + c / 4096; 128 + c / 64 mod 64; 128 + c mod 64]
   else if c <? 1114112 then
     Some [240 + c / 262144; 128 + c / 4096 mod 64;
           128 + c / 64 mod 64; 128 + c mod 64]
   else None)%N.

(** [s.encode()] *)
Fixpoint encode (s : pystr) : option (list N) :=
  match s with
  | [] => Some []
  | c :: s' =>
    match encode_char c, encode s' with
    | Some b, Some bs => Some (b ++ bs)
    | _, _ => None
    end
  end.

Definition is_cont (b : N) : bool := ((128 <=? b) && (b <? 192))%N.

Definition cons_opt (c : N) (r : option pystr) : option pystr :=
  match r with Some s => Some (c :: s) | None => None end.

(** [b.decode()]; [None] is [UnicodeDecodeError]. *)
Fixpoint decode (b : list N) : option pystr :=
  match b with
  | [] => Some []
  | b0 :: r =>
    if (b0 <? 128)%N then cons_opt b0 (decode r)
    else if (b0 <? 194)%N then None
    else if (b0 <? 224)%N then
      match r with
      | b1 :: r' =>
        if is_cont b1
        then cons_opt ((b0 - 192) * 64 + (b1 - 128))%N (decode r')
        else None
      | _ => None
      end
    else if (b0 <? 240)%N then
      match r with
      | b1 :: b2 :: r' =>
        let c := ((b0 - 224) * 4096 + (b1 - 128) * 64 + (b2 - 128))%N in
        if is_cont b1 && is_cont b2 && negb (c <? 2048)%N
           && negb (is_surrogate c)
        then cons_opt c (decode r')
        else None
      | _ => None
      end
    else if (b0 <? 245)%N then
      match r with
      | b1 :: b2 :: b3 :: r' =>
        let c := ((b0 - 240) * 262144 + (b1 - 128) * 4096
                  + (b2 - 128) * 64 + (b3 - 128))%N in
        if is_cont b1 && is_cont b2 && is_cont b3
           && negb (c <? 65536)%N && (c <? 1114112)%N
        then cons_opt c (decode r')
        else None
      | _ => None
      end
    else None
  end.

End Utf8.

Module Base64.

(** The alphabet [A-Za-z0-9+/]. *)
Definition table (i : N) : N :=
  (if i <? 26 then 65 + i
   else if i <? 52 then 71 + i
   else if i <? 62 then i - 4
   else if i =? 62 then 43
   else 47)%N.

(** [base64.b64encode]: three bytes give four characters, a tail of one or
    two bytes is padded with [=]. *)
Fixpoint b64encode (b : list N) : list N :=
  match b with
  | [] => []
  | [x] => [table (x / 4); table (x mod 4 * 16); 61; 61]%N
  | [x; y] =>
      [table (x / 4); table (x mod 4 * 16 + y / 16);
       table (y mod 16 * 4); 61]%N
  | x :: y :: z :: r =>
      (table (x / 4) :: table (x mod 4 * 16 + y / 16)
        :: table (y mod 16 * 4 + z / 64) :: table (z mod 64)
        :: b64encode r)%N
  end.

Definition table_inv (c : N) : option N :=
  (if (65 <=? c) && (c <=? 90) then Some (c - 65)
   else if (97 <=? c) && (c <=? 122) then Some (c - 71)
   else if (48 <=? c) && (c <=? 57) then Some (c + 4)
   else if c =? 43 then Some 62
   else if c =? 47 then Some 63
   else None)%N.

Definition cons_opt (c : N) (r : option (list N)) : option (list N) :=
  match r with Some s => Some (c :: s) | None => None end.

(** [binascii.a2b_base64] without [strict_mode]: characters outside the
    alphabet are skipped, a complete pad sequence ends the data, and data
    that stops inside a quad is [binascii.Error] ([None]). *)
Fixpoint a2b_base64 (s : list N) (quad_pos leftchar pads : N)
  : option (list N) :=
  match s with
  | [] => if (quad_pos =? 0)%N then Some [] else None
  | this_ch :: r =>
    if (this_ch =? 61)%N then
      if (2 <=? quad_pos)%N then
        if (4 <=? quad_pos + (pads + 1))%N then Some []
        else a2b_base64 r quad_pos leftchar (pads + 1)%N
      else a2b_base64 r quad_pos leftchar pads
    else
      match table_inv this_ch with
      | None => a2b_base64 r quad_pos leftchar pads
      | Some v =>
        if (quad_pos =? 0)%N then a2b_base64 r 1%N v 0%N
        else if (quad_pos =? 1)%N then
          cons_opt (leftchar * 4 + v / 16)%N
            (a2b_base64 r 2%N (v mod 16)%N 0%N)
        else if (quad_pos =? 2)%N then
          cons_opt (leftchar * 16 + v / 4)%N
            (a2b_base64 r 3%N (v mod 4)%N 0%N)
        else
          cons_opt (leftchar * 64 + v)%N (a2b_base64 r 0%N 0%N 0%N)
      end
  end.

(** [base64.b64decode(s)] for a [str] argument: it must be ASCII. *)
Definition b64decode (s : pystr) : option (list N) :=
  if forallb (fun c => c <? 128)%N s then a2b_base64 s 0%N 0%N 0%N else None.

End Base64.

Module Str.

(** [str.isspace] for one code point. *)
Definition isspace (c : N) : bool :=
  (((9 <=? c) && (c <=? 13)) || ((28 <=? c) && (c <=? 32))
   || (c =? 133) || (c =? 160) || (c =? 5760)
   || ((8192 <=? c) && (c <=? 8202))
   || (c =? 8232) || (c =? 8233) || (c =? 8239) || (c =? 8287)
   || (c =? 12288))%N.

Fixpoint lstrip (s : pystr) : pystr :=
  match s with
  | c :: r => if isspace c then lstrip r else s
  | [] => []
  end.

Definition rstrip (s : pystr) : pystr := rev (lstrip (rev s)).

(** [s.strip()] *)
Definition strip (s : pystr) : pystr := rstrip (lstrip s).

End Str.

(* ================================================================= *)
(** ** scripts/generate-api-keys.py *)

Module GenerateApiKeys.

(** An entry of the [services] list; the script reads its [id] only. *)
Record Service := { id : pystr }.

(** [services.json] as [open] and [json.load] find it: missing, not JSON,
    or an object whose [services] member, when present, lists services. *)
Inductive ServicesJson :=
| Missing
| Unparsable
| Document (services : option (list Service)).

Record State := {
  out : list line;
  openssl_runs : nat;
  api_keys_generated_txt : option pystr
}.

Definition print (l : line) : M State unit :=
  if line_encodable l
  then modify (fun s => {| out := out s ++ [l];
                           openssl_runs := openssl_runs s;
                           api_keys_generated_txt :=
                             api_keys_generated_txt s |})
  else raise UnicodeEncodeError.

(** [open('.api_keys_generated.txt', 'w')] truncates, [f.write] appends
    text that the file's codec encodes and raises on any other. *)
Definition open_w : M State unit :=
  modify (fun s => {| out := out s; openssl_runs := openssl_runs s;
                      api_keys_generated_txt := Some [] |}).

Definition f_write (t : pystr) : M State unit :=
  if encodable t
  then modify (fun s =>
         {| out := out s; openssl_runs := openssl_runs s;
            api_keys_generated_txt :=
              Some (match api_keys_generated_txt s with
                    | Some c => c ++ t
                    | None => t
                    end) |})
  else raise UnicodeEncodeError.

Definition sys_exit {A} (code : Z) : M State A := raise (SystemExit code).

(** [json.dumps(api_keys, separators=(',', ':'))] *)
Definition json_string_of (api_keys : list (pystr * pystr)) : pystr :=
  JsonText.dumps_compact api_keys.

(** [base64.b64encode(json_string.encode()).decode()] *)
Definition base64_string_of (json_string : pystr) : M State pystr :=
  match Utf8.encode json_string with
  | None => raise UnicodeEncodeError
  | Some bytes =>
    match Utf8.decode (Base64.b64encode bytes) with
    | None => raise UnicodeDecodeError
    | Some s => ret s
    end
  end.

Section Script.
Variable services_json : ServicesJson.
(** What the n-th [openssl rand -base64 32] of the run writes to its
    standard output. *)
Variable openssl_stdout : nat -> pystr.

Definition generate_key : M State pystr :=
  fun s =>
    (Ret (Str.strip (openssl_stdout (openssl_runs s))),
     {| out := out s; openssl_runs := S (openssl_runs s);
        api_keys_generated_txt := api_keys_generated_txt s |}).

(** [with open('services.json') as f: config = json.load(f)] *)
Definition load_services_json : M State (option (list Service)) :=
  match services_json with
  | Missing => raise FileNotFoundError
  | Unparsable => raise JSONDecodeError
  | Document services => ret services
  end.

(** The loop [for service in services:] with [api_keys] threaded. *)
Fixpoint generate_keys (services : list Service)
    (api_keys : list (pystr * pystr)) : M State (list (pystr * pystr)) :=
  match services with
  | [] => ret api_keys
  | service :: rest =>
      let service_id := id service in
      key <- generate_key ;;
      let api_keys := dict_set service_id key api_keys in
      print [Lit "✅ Generated key for: "; Val (JStr service_id)] ;;
      generate_keys rest api_keys
  end.

Definition main : M State unit :=
  print [Lit "🔑 Generating API Keys for GitHub Secrets"] ;;
  print [Lit (times "=" 50)] ;;
  print [] ;;
  config <- try_except load_services_json
    [(C_FileNotFoundError,
      fun _ =>
        print [Lit "❌ Error: services.json not found!"] ;;
        print [Lit "   Make sure you're running this from the project root"] ;;
        sys_exit 1)] ;;
  let services := match config with Some l => l | None => [] end in
  (match services with
   | [] => print [Lit "❌ No services found in services.json!"] ;;
           sys_exit 1
   | _ => ret tt
   end) ;;
  print [Lit "Generating keys for services:"] ;;
  api_keys <- generate_keys services [] ;;
  print [] ;;
  print [Lit (times "=" 50)] ;;
  print [Lit "📋 JSON Format (for GitHub Secret):"] ;;
  print [Lit (times "=" 50)] ;;
  let json_string := json_string_of api_keys in
  print [Str json_string] ;;
  print [] ;;
  print [Lit "Verifying JSON..."] ;;
  try_except
    (match JsonText.loads json_string with
     | Some _ => print [Lit "✅ JSON is valid!"]
     | None => raise JSONDecodeError
     end)
    [(C_JSONDecodeError,
      fun e => print [Lit "❌ JSON is invalid: "; Err e] ;; sys_exit 1)] ;;
  print [] ;;
  print [Lit (times "=" 50)] ;;
  print [Lit "📋 Base64 Encoded (alternative):"] ;;
  print [Lit (times "=" 50)] ;;
  base64_string <- base64_string_of json_string ;;
  print [Str base64_string] ;;
  print [] ;;
  print [] ;;
  print [Lit (times "=" 50)] ;;
  print [Lit "🚀 Next Steps:"] ;;
  print [Lit (times "=" 50)] ;;
  print [Lit "1. Copy the JSON format above (single line)"] ;;
  print [Lit "2. Go to GitHub → Settings → Secrets → Actions"] ;;
  print [Lit "3. Update or create 'API_KEYS' secret"] ;;
  print [Lit "4. Paste the JSON"] ;;
  print [Lit "   OR use base64 version (workflow will auto-decode)"] ;;
  print [Lit "5. Commit and push to deploy"] ;;
  print [] ;;
  print [Lit (times "=" 50)] ;;
  print [Lit "🔐 Update Heartbeat Clients:"] ;;
  print [Lit (times "=" 50)] ;;
  for_each api_keys (fun item =>
    print [Val (JStr (fst item)); Lit ": "; Str (snd item)]) ;;
  print [Lit (times "=" 50)] ;;
  open_w ;;
  f_write (py "JSON Format:" ++ py nl) ;;
  f_write (json_string ++ py nl ++ py nl) ;;
  f_write (py "Base64 Format:" ++ py nl) ;;
  f_write (base64_string ++ py nl ++ py nl) ;;
  f_write (py "Individual Keys:" ++ py nl) ;;
  for_each api_keys (fun item =>
    f_write (fst item ++ py ": " ++ snd item ++ py nl)) ;;
  print [] ;;
  print [Lit "💾 Keys also saved to: .api_keys_generated.txt"] ;;
  print [Lit "   (This file is git-ignored)"].

(** The script ends with a bare [main()]. *)
Definition exit_status (s : State) : Z :=
  exit_status_of (fun _ : unit => 0) (fst (main s)).

End Script.

End GenerateApiKeys.

(* ================================================================= *)
(** ** The alert normalizer the harness posts its payloads to *)

Module AlertNormalizer.

Inductive Severity := info | warning | critical.

(** Modelled from the spec: the canonical Alert of the data model; the
    service behind [/api/alert] is not among the source files.
    [timestamp] is left out, no statement here depends on it. *)
Record Alert := {
  title : pystr;
  message : pystr;
  severity : Severity;
  source : pystr;
  labels : list (pystr * pystr);
  channels : option (list pystr)
}.

Inductive result := Ok (alerts : list Alert) | ValidationError.

Definition member (k : string) (j : JSON) : option JSON :=
  match j with
  | JObj o => dict_get (py k) o
  | _ => None
  end.

Definition string_member (k : string) (j : JSON) : option pystr :=
  match member k j with
  | Some (JStr s) => Some s
  | _ => None
  end.

Definition has (k : string) (j : JSON) : bool :=
  match member k j with Some _ => true | None => false end.

(** The string-valued entries of an object. *)
Fixpoint string_entries (o : list (pystr * JSON)) : list (pystr * pystr) :=
  match o with
  | [] => []
  | (k, JStr v) :: o' => (k, v) :: string_entries o'
  | _ :: o' => string_entries o'
  end.

Definition labels_of (j : JSON) : list (pystr * pystr) :=
  match member "labels" j with
  | Some (JObj o) => string_entries o
  | _ => []
  end.

(** Modelled from the spec: the Alertmanager mapping of [labels.severity],
    "critical→critical, warning→warning, anything else/absent→info". *)
Definition alertmanager_severity (l : list (pystr * pystr)) : Severity :=
  match dict_get (py "severity") l with
  | Some s =>
      if str_eqb s (py "critical") then critical
      else if str_eqb s (py "warning") then warning
      else info
  | None => info
  end.

(** Modelled from the spec: a severity named by the input, "rejected, not
    silently coerced" when unrecognised. *)
Definition parse_severity (s : pystr) : option Severity :=
  if str_eqb s (py "info") then Some info
  else if str_eqb s (py "warning") then Some warning
  else if str_eqb s (py "critical") then Some critical
  else None.

(** Modelled from the spec: one element of [alerts] becomes one Alert;
    [title = labels.alertname], [message] is [annotations.summary]
    concatenated with [annotations.description] when both are present,
    [source = "alertmanager"], the element's [status] is kept in
    [labels]. An element without [labels.alertname] misses a required
    field. *)
Definition alertmanager_alert (element : JSON) : option Alert :=
  let l := labels_of element in
  match dict_get (py "alertname") l with
  | None => None
  | Some name =>
      let annotations :=
        match member "annotations" element with
        | Some a => a
        | None => JNull
        end in
      let text :=
        match string_member "summary" annotations,
              string_member "description" annotations with
        | Some s, Some d => s ++ d
        | Some s, None => s
        | None, Some d => d
        | None, None => []
        end in
      let l' :=
        match string_member "status" element with
        | Some st => dict_set (py "status") st l
        | None => l
        end in
      Some {| title := name; message := text;
              severity := alertmanager_severity l;
              source := py "alertmanager";
              labels := l'; channels := None |}
  end.

Fixpoint traverse {A B} (f : A -> option B) (l : list A) : option (list B) :=
  match l with
  | [] => Some []
  | x :: l' =>
      match f x, traverse f l' with
      | Some y, Some ys => Some (y :: ys)
      | _, _ => None
      end
  end.

(** Modelled from the spec: "Presence of an [alerts] array with
    [status]/[receiver] fields at top level ⇒ Alertmanager-style
    webhook". *)
Definition is_alertmanager (j : JSON) : bool :=
  match member "alerts" j with
  | Some (JArr _) => has "status" j || has "receiver" j
  | _ => false
  end.

(** Modelled from the spec: "Presence of
    [dashboardId]/[ruleId]/[evalMatches] ⇒ Grafana-style webhook". *)
Definition is_grafana (j : JSON) : bool :=
  has "dashboardId" j || has "ruleId" j || has "evalMatches" j.

Definition normalize_alertmanager (j : JSON) : result :=
  match member "alerts" j with
  | Some (JArr (e :: es)) =>
      match traverse alertmanager_alert (e :: es) with
      | Some alerts => Ok alerts
      | None => ValidationError
      end
  | _ => ValidationError
  end.

(** Modelled from the spec: [title] from [title], [message] from
    [message], severity from [state] ("alerting→warning unless an explicit
    [tags.severity] overrides it, ok→info"), [source = "grafana"]. *)
Definition normalize_grafana (j : JSON) : result :=
  match string_member "title" j, string_member "message" j,
        string_member "state" j with
  | Some (c :: t), Some m, Some st =>
      let tags :=
        match member "tags" j with Some t' => t' | None => JNull end in
      let sev :=
        if str_eqb st (py "alerting") then
          match string_member "severity" tags with
          | Some s => parse_severity s
          | None => Some warning
          end
        else if str_eqb st (py "ok") then Some info
        else None in
      match sev with
      | Some sv =>
          Ok [{| title := c :: t; message := m; severity := sv;
                 source := py "grafana"; labels := [];
                 channels := None |}]
      | None => ValidationError
      end
  | _, _, _ => ValidationError
  end.

Fixpoint strings (l : list JSON) : option (list pystr) :=
  match l with
  | [] => Some []
  | JStr s :: l' =>
      match strings l' with Some ss => Some (s :: ss) | None => None end
  | _ :: _ => None
  end.

(** Modelled from the spec: the generic schema, its members read
    directly; [severity] defaults to [info] when absent and is rejected
    when present but unknown; [title] and [message] are required. *)
Definition normalize_generic (j : JSON) : result :=
  match string_member "title" j, string_member "message" j with
  | Some (c :: t), Some m =>
      let sev :=
        match member "severity" j with
        | None => Some info
        | Some (JStr s) => parse_severity s
        | Some _ => None
        end in
      let chans :=
        match member "channels" j with
        | None => Some None
        | Some (JArr l) =>
            match strings l with
            | Some ss => Some (Some ss)
            | None => None
            end
        | Some _ => None
        end in
      match sev, chans with
      | Some sv, Some ch =>
          Ok [{| title := c :: t; message := m; severity := sv;
                 source :=
                   match string_member "source" j with
                   | Some s => s
                   | None => py "generic"
                   end;
                 labels := labels_of j; channels := ch |}]
      | _, _ => ValidationError
      end
  | _, _ => ValidationError
  end.

(** Modelled from the spec: the decoders are tried in the order
    Alertmanager, Grafana, generic; the first structural match wins. *)
Definition normalize (j : JSON) : result :=
  if is_alertmanager j then normalize_alertmanager j
  else if is_grafana j then normalize_grafana j
  else normalize_generic j.

End AlertNormalizer.

(* ================================================================= *)
(** * Vocabulary of the statements *)

(** ** Effects of a client *)

(** [posts l m]: whatever its result, [m] posts exactly the requests [l]. *)
Definition posts {A} (l : list Request) (m : M State A) : Prop :=
  forall s, sent (snd (m s)) = sent s ++ l.

(** [total m]: [m] returns, it does not raise. *)
Definition total {A} (m : M State A) : Prop :=
  forall s, exists a, fst (m s) = Ret a.

(** A state with more lines printed. *)
Definition with_out (s : State) (o : list line) : State :=
  {| sent := sent s; out := out s ++ o; response_var := response_var s |}.

(** ** Heartbeat bodies and responses *)

(** The members of a request body. *)
Definition body_fields (j : JSON) : list pystr :=
  match j with
  | JObj o => dict_keys o
  | _ => []
  end.

(** The fields of a HeartbeatRecord a client may supply. *)
Definition heartbeat_record_fields : list pystr :=
  [py "serviceId"; py "metadata"; py "message"].

(** [j.get(k, d)] on a value known to be a [dict]. *)
Definition member_or (k : string) (d : JSON) (j : JSON) : JSON :=
  match j with
  | JObj o => match dict_get (py k) o with Some v => v | None => d end
  | _ => d
  end.

(** An entry of [results] as the service documents it: an object with
    [serviceId] and [success]. *)
Definition result_item_ok (j : JSON) : bool :=
  match j with
  | JObj o =>
      match dict_get (py "success") o, dict_get (py "serviceId") o with
      | Some _, Some _ => true
      | _, _ => false
      end
  | _ => false
  end.



(** The line printed for one entry after a 200, and after a 207. *)
Definition full_success_line (item : JSON) : line :=
  [Lit "  ";
   (if truthy (member_or "success" JNull item) then Lit "✓" else Lit "✗");
   Lit " "; Val (member_or "serviceId" JNull item)].

Definition partial_success_line (item : JSON) : line :=
  if truthy (member_or "success" JNull item)
  then [Lit "  ✓ "; Val (member_or "serviceId" JNull item)]
  else [Lit "  ✗ "; Val (member_or "serviceId" JNull item); Lit ": ";
        Val (member_or "error" JNull item)].

(** The strings a client prints from an entry of [results], its
    [serviceId] and its [error], can be encoded. *)
Definition result_item_printable (item : JSON) : bool :=
  encodable_value (member_or "serviceId" JNull item)
  && encodable_value (member_or "error" JNull item).


(** ** Alert requests *)

(** The request [send_alert] posts for a payload. *)
Definition alert_request (argv : list pystr) (payload : JSON) : Request :=
  {| url := TestExternalAlert.ENDPOINT argv;
     headers := TestExternalAlert.request_headers argv;
     json_body := payload; timeout := 10 |}.

(** An API key was supplied on the command line: [sys.argv] has a third
    word. *)
Definition key_supplied (argv : list pystr) : Prop :=
  (2 < List.length argv)%nat.

(** A non-empty API key was supplied on the command line. *)
Definition nonempty_key_supplied (argv : list pystr) : Prop :=
  exists key, nth_error argv 2 = Some key /\ key <> [].

Definition has_authorization (rq : Request) : Prop :=
  dict_get "Authorization" (headers rq) <> None.

(** ** Strings and bytes *)

(** A [str] whose code points are below 0x110000 and in which no high
    surrogate is directly followed by a low one: every string that
    [json.load] or a text-mode pipe can deliver. *)
Fixpoint well_formed (s : pystr) : bool :=
  match s with
  | [] => true
  | c :: r =>
      (c <? 1114112)%N
      && negb (JsonText.is_high_surrogate c
               && match r with
                  | c' :: _ => JsonText.is_low_surrogate c'
                  | [] => false
                  end)
      && well_formed r
  end.

Definition is_ascii (s : pystr) : bool := forallb (fun c => (c <? 128)%N) s.

Definition is_byte (x : N) : Prop := (x < 256)%N.

(** The text does not open with the escape of a low surrogate. *)
Definition not_low_escape (r2 : pystr) : Prop :=
  forall b u l1 l2 l3 l4 r3,
    r2 = b :: u :: l1 :: l2 :: l3 :: l4 :: r3 ->
    ((b =? 92) && (u =? 117))%N = true ->
    exists uni2, JsonText.decode_hex4 l1 l2 l3 l4 = Some uni2
                 /\ JsonText.is_low_surrogate uni2 = false.

(** The shapes [escape_char] produces. *)
Inductive esc_shape (c : N) : pystr -> Prop :=
| esc_short e :
    JsonText.unescape e = Some c -> e <> 117%N -> esc_shape c [92%N; e]
| esc_plain :
    c <> 34%N -> c <> 92%N -> (32 <= c)%N -> esc_shape c [c]
| esc_u :
    (c < 65536)%N -> esc_shape c (JsonText.u_escape c)
| esc_pair s1 s2 :
    (s1 < 65536)%N -> (s2 < 65536)%N ->
    JsonText.is_high_surrogate s1 = true ->
    JsonText.is_low_surrogate s2 = true ->
    JsonText.join_surrogates s1 s2 = c ->
    esc_shape c (JsonText.u_escape s1 ++ JsonText.u_escape s2).

(** ** Generated keys *)

(** [api_keys] after the loop of [main], the first key being the n-th that
    [openssl] generated. *)
Fixpoint keys_after (openssl_stdout : nat -> pystr) (n : nat)
    (services : list GenerateApiKeys.Service)
    (api_keys : list (pystr * pystr)) : list (pystr * pystr) :=
  match services with
  | [] => api_keys
  | service :: rest =>
      keys_after openssl_stdout (S n) rest
        (dict_set (GenerateApiKeys.id service)
           (Str.strip (openssl_stdout n)) api_keys)
  end.

(** The text [main] writes to [.api_keys_generated.txt]. *)
Definition report (api_keys : list (pystr * pystr))
    (json_string base64_string : pystr) : pystr :=
  (py "JSON Format:" ++ py nl)
  ++ (json_string ++ py nl ++ py nl)
  ++ (py "Base64 Format:" ++ py nl)
  ++ (base64_string ++ py nl ++ py nl)
  ++ (py "Individual Keys:" ++ py nl)
  ++ List.concat (map (fun item => fst item ++ py ": " ++ snd item ++ py nl)
                    api_keys).

(** [services.json] is missing, or lists no service. *)
Definition no_services (doc : GenerateApiKeys.ServicesJson) : Prop :=
  doc = GenerateApiKeys.Missing
  \/ doc = GenerateApiKeys.Document None
  \/ doc = GenerateApiKeys.Document (Some []).

(** ** What printing cannot influence *)

(** Two states that differ at most in the lines printed. *)
Definition same_world (s1 s2 : State) : Prop :=
  sent s1 = sent s2 /\ response_var s1 = response_var s2.

(** [out_blind m]: what [m] returns and posts does not depend on what has
    been printed. *)
Definition out_blind {A} (m : M State A) : Prop :=
  forall s1 s2,
    same_world s1 s2 ->
    fst (m s1) = fst (m s2) /\ same_world (snd (m s1)) (snd (m s2)).

(** A value a [for] loop can iterate over. *)
Definition iterable (j : JSON) : bool :=
  match j with
  | JArr _ | JStr _ | JObj _ => true
  | _ => false
  end.

(** ** Reports of the alert test harness *)




(** ** Characters of the emitted text *)

(** Printable ASCII: what fits on one line of a terminal. *)
Definition is_printable (c : N) : bool := ((32 <=? c) && (c <=? 126))%N.

Definition has_space (s : pystr) : bool := existsb (N.eqb 32) s.

(* ================================================================= *)
(** * Properties *)

Lemma str_eqb_refl (s : pystr) : str_eqb s s = true.
Proof.
  induction s as [|c s IH]; simpl; [reflexivity|].
  now rewrite N.eqb_refl, IH.
Qed.

Lemma str_eqb_eq (a b : pystr) : str_eqb a b = true <-> a = b.
Proof.
  split; [|intros ->; apply str_eqb_refl].
  revert b; induction a as [|x a IH]; intros [|y b]; simpl; try easy.
  intros H; apply andb_prop in H as [H1 H2].
  apply N.eqb_eq in H1; apply IH in H2; now subst.
Qed.

Lemma str_eqb_neq (a b : pystr) : str_eqb a b = false <-> a <> b.
Proof.
  destruct (str_eqb a b) eqn:E.
  - apply str_eqb_eq in E; split; congruence.
  - split; [intros _ H; apply str_eqb_eq in H; congruence|reflexivity].
Qed.

(** ** What a computation adds to the list of requests posted *)

Section Effects.

Lemma posts_ret {A} (a : A) : posts [] (ret a).
Proof. intros s; simpl; now rewrite app_nil_r. Qed.

Lemma posts_raise {A} (e : exn) : posts [] (@raise State A e).
Proof. intros s; simpl; now rewrite app_nil_r. Qed.

Lemma posts_print (l : line) : posts [] (print l).
Proof.
  intros s; unfold print; destruct (line_encodable l); simpl;
    now rewrite app_nil_r.
Qed.

Lemma posts_assign (r : Response) : posts [] (assign_response r).
Proof. intros s; simpl; now rewrite app_nil_r. Qed.

Lemma posts_read_response : posts [] read_response.
Proof.
  intros s; unfold read_response; destruct (response_var s); simpl;
    now rewrite app_nil_r.
Qed.

Lemma posts_json (r : Response) : posts [] (json r).
Proof.
  unfold json; destruct (body r) as [j|[|]];
    auto using @posts_ret, @posts_raise.
Qed.

Lemma posts_get_method obj k d : posts [] (@get_method State obj k d).
Proof. destruct obj; simpl; auto using @posts_ret, @posts_raise. Qed.

Lemma posts_getitem obj k : posts [] (@getitem State obj k).
Proof.
  destruct obj; simpl; auto using @posts_raise.
  destruct (dict_get k o); auto using @posts_ret, @posts_raise.
Qed.

Lemma posts_iter obj : posts [] (@iter State obj).
Proof. destruct obj; simpl; auto using @posts_ret, @posts_raise. Qed.

Lemma posts_requests_post net rq : posts [rq] (requests_post net rq).
Proof.
  intros s; unfold requests_post; destruct (net _); reflexivity.
Qed.

(** A continuation that posts nothing may or may not run. *)
Lemma posts_bind {A B} l (m : M State A) (k : A -> M State B) :
  posts l m -> (forall a, posts [] (k a)) -> posts l (bind m k).
Proof.
  intros Hm Hk s; unfold bind; specialize (Hm s).
  destruct (m s) as [[a|e] s']; simpl in *; [|assumption].
  rewrite (Hk a s'), app_nil_r; assumption.
Qed.

(** A continuation that posts runs when what precedes it is total. *)
Lemma posts_bind_total {A B} l1 l2 (m : M State A) (k : A -> M State B) :
  posts l1 m -> total m -> (forall a, posts l2 (k a)) ->
  posts (l1 ++ l2) (bind m k).
Proof.
  intros Hm Ht Hk s; unfold bind; specialize (Hm s).
  destruct (Ht s) as [a Ha].
  destruct (m s) as [[a'|e] s']; simpl in *; [|discriminate].
  rewrite (Hk a' s'), Hm, app_assoc; reflexivity.
Qed.

Lemma posts_try {A} l (m : M State A) hs :
  posts l m -> Forall (fun h => forall e, posts [] (snd h e)) hs ->
  posts l (try_except m hs).
Proof.
  intros Hm Hh s; unfold try_except; specialize (Hm s).
  destruct (m s) as [[a|e] s']; simpl in *; [assumption|].
  destruct (select_handler e hs) as [h|] eqn:E; [|assumption].
  assert (Hin : forall e', posts [] (h e')).
  { revert E; induction Hh as [|[c h'] hs' H1 H2 IH]; simpl; [easy|].
    destruct (isinstance e c); [intros [= <-]; exact H1|exact IH]. }
  rewrite (Hin e s'), app_nil_r; assumption.
Qed.

Lemma posts_for_each {A} (l : list A) (f : A -> M State unit) :
  (forall x, posts [] (f x)) -> posts [] (for_each l f).
Proof.
  intros Hf; induction l as [|x l IH]; simpl.
  - apply posts_ret.
  - apply posts_bind; auto.
Qed.

Lemma posts_call {A} l (m : M State A) : posts l m -> posts l (call m).
Proof.
  intros Hm s; unfold call.
  specialize (Hm {| sent := sent s; out := out s; response_var := None |}).
  destruct (m _) as [r s']; simpl in *; assumption.
Qed.

Lemma posts_if {A} l (b : bool) (m1 m2 : M State A) :
  posts l m1 -> posts l m2 -> posts l (if b then m1 else m2).
Proof. destruct b; auto. Qed.

End Effects.

Create HintDb posts.

#[local] Hint Resolve @posts_ret @posts_raise posts_print posts_assign
  posts_read_response posts_json posts_get_method posts_getitem posts_iter
  posts_requests_post @posts_for_each @posts_call @posts_if : posts.

(** Splits a goal [posts l m] along the structure of [m] when only the first
    step posts. *)
Ltac posts_step :=
  match goal with
  | |- posts _ (bind _ _) => apply posts_bind; [|intros ?]
  | |- posts _ (try_except _ _) => apply posts_try; [|repeat constructor; intros ?]
  | |- posts _ (if _ then _ else _) => apply posts_if
  | |- posts _ (for_each _ _) => apply posts_for_each; intros ?
  | |- posts _ (call _) => apply posts_call
  | |- posts _ _ => solve [auto with posts]
  end.

Ltac posts_auto := repeat (simpl; posts_step).

(* ================================================================= *)
(** ** The batch heartbeat request *)

Section BatchRequest.
Import HeartbeatClient.

Lemma posts_report_result x : posts [] (report_result x).
Proof. unfold report_result. posts_auto. Qed.

Lemma posts_report_partial_result x : posts [] (report_partial_result x).
Proof. unfold report_partial_result. posts_auto. Qed.

#[local] Hint Resolve posts_report_result posts_report_partial_result : posts.

Lemma send_heartbeat_batch_posts cfg net :
  posts [{| url := WORKER_URL cfg; headers := batch_headers cfg;
            json_body := batch_payload cfg; timeout := 10 |}]
        (send_heartbeat_batch cfg net).
Proof.
  unfold send_heartbeat_batch.
  apply (posts_bind_total []
           [{| url := WORKER_URL cfg; headers := batch_headers cfg;
               json_body := batch_payload cfg; timeout := 10 |}]).
  - apply posts_print.
  - intros s; unfold batch_announce;
      destruct (BATCH_SHARED_KEY cfg); eexists; reflexivity.
  - intros _. posts_auto.
Qed.

End BatchRequest.

(** C1. Every invocation of the batch heartbeat client posts one request to
    [WORKER_URL]. In shared-key mode its body is [{"services": SERVICE_IDS}]
    and it carries [Authorization: Bearer <API_KEY>]; in per-service-key mode
    its body is [{"services": [{serviceId, token}, ...]}] and it carries no
    [Authorization] header. *)
Theorem batch_request_by_mode
    (cfg : HeartbeatClient.Config) (net : Network) (s : State) :
  (HeartbeatClient.BATCH_SHARED_KEY cfg = true ->
   exists rq,
     sent (snd (HeartbeatClient.send_heartbeat_batch cfg net s))
       = sent s ++ [rq]
     /\ url rq = HeartbeatClient.WORKER_URL cfg
     /\ json_body rq
        = JObj [(py "services",
                 JArr (map JStr (HeartbeatClient.SERVICE_IDS cfg)))]
     /\ dict_get "Authorization" (headers rq)
        = Some (py "Bearer " ++ HeartbeatClient.API_KEY cfg))
  /\
  (HeartbeatClient.BATCH_SHARED_KEY cfg = false ->
   exists rq,
     sent (snd (HeartbeatClient.send_heartbeat_batch cfg net s))
       = sent s ++ [rq]
     /\ url rq = HeartbeatClient.WORKER_URL cfg
     /\ json_body rq
        = JObj [(py "services",
                 JArr (map (fun x =>
                         JObj [(py "serviceId",
                                JStr (HeartbeatClient.serviceId x));
                               (py "token", JStr (HeartbeatClient.token x))])
                       (HeartbeatClient.SERVICES_WITH_KEYS cfg)))]
     /\ dict_get "Authorization" (headers rq) = None).
Proof.
  split; intros Hmode; eexists;
    (split; [apply send_heartbeat_batch_posts|]);
    unfold HeartbeatClient.batch_payload, HeartbeatClient.batch_headers;
    rewrite Hmode; repeat split.
Qed.

Lemma batch_request_by_mode_witness :
  (exists rq,
     sent (snd (HeartbeatClient.send_heartbeat_batch
                  HeartbeatClient.heartbeat_clients_config
                  (fun _ => NetFail NetTimeout) initial)) = [] ++ [rq]
     /\ url rq
        = py "https://heartbeat-monitor.your-subdomain.workers.dev/api/heartbeat"
     /\ json_body rq
        = JObj [(py "services",
                 JArr [JStr "service-1"; JStr "service-2"; JStr "service-3"])]
     /\ dict_get "Authorization" (headers rq)
        = Some (py "Bearer your-secret-key-1"))
  /\
  (exists rq,
     sent (snd (HeartbeatClient.send_heartbeat_batch
                  {| HeartbeatClient.WORKER_URL := "http://worker.url/here";
                     HeartbeatClient.SERVICE_ID := "service-1";
                     HeartbeatClient.API_KEY := "your-secret-key-1";
                     HeartbeatClient.BATCH_MODE := true;
                     HeartbeatClient.BATCH_SHARED_KEY := false;
                     HeartbeatClient.SERVICE_IDS := [];
                     HeartbeatClient.SERVICES_WITH_KEYS :=
                       HeartbeatClient.default_services_with_keys |}
                  (fun _ => NetFail NetTimeout) initial)) = [] ++ [rq]
     /\ url rq = py "http://worker.url/here"
     /\ json_body rq
        = JObj [(py "services",
                 JArr (map HeartbeatClient.service_with_key_json
                         HeartbeatClient.default_services_with_keys))]
     /\ dict_get "Authorization" (headers rq) = None).
Proof.
  split.
  - exact (proj1 (batch_request_by_mode
                    HeartbeatClient.heartbeat_clients_config
                    (fun _ => NetFail NetTimeout) initial) eq_refl).
  - exact (proj2 (batch_request_by_mode
                    {| HeartbeatClient.WORKER_URL := "http://worker.url/here";
                       HeartbeatClient.SERVICE_ID := "service-1";
                       HeartbeatClient.API_KEY := "your-secret-key-1";
                       HeartbeatClient.BATCH_MODE := true;
                       HeartbeatClient.BATCH_SHARED_KEY := false;
                       HeartbeatClient.SERVICE_IDS := [];
                       HeartbeatClient.SERVICES_WITH_KEYS :=
                         HeartbeatClient.default_services_with_keys |}
                    (fun _ => NetFail NetTimeout) initial) eq_refl).
Defined.

(* ================================================================= *)
(** ** The fields of a heartbeat body *)

Lemma send_heartbeat_single_posts cfg net :
  posts [{| url := HeartbeatClient.WORKER_URL cfg;
            headers := HeartbeatClient.single_headers cfg;
            json_body := HeartbeatClient.single_payload cfg;
            timeout := 10 |}]
        (HeartbeatClient.send_heartbeat_single cfg net).
Proof. unfold HeartbeatClient.send_heartbeat_single. posts_auto. Qed.

Lemma example_send_heartbeat_posts cfg net hostname now :
  posts [{| url := ExampleClient.WORKER_URL cfg;
            headers := ExampleClient.request_headers cfg;
            json_body := ExampleClient.payload cfg hostname now;
            timeout := 10 |}]
        (ExampleClient.send_heartbeat cfg net hostname now).
Proof. unfold ExampleClient.send_heartbeat. posts_auto. Qed.

(** Against C3 as stated: the body examples/heartbeat-client.py posts
    carries a [status] member, which is not a HeartbeatRecord input field. *)
Lemma example_client_supplies_status :
  ~ (forall cfg net hostname now rq,
       In rq (sent (snd (ExampleClient.send_heartbeat cfg net hostname now
                           initial))) ->
       incl (body_fields (json_body rq)) heartbeat_record_fields).
Proof.
  intros H.
  specialize (H ExampleClient.default_config (fun _ => NetFail NetTimeout)
                (py "host") (py "2025-11-06T10:30:00")
                {| url := ExampleClient.WORKER_URL ExampleClient.default_config;
                   headers :=
                     ExampleClient.request_headers ExampleClient.default_config;
                   json_body :=
                     ExampleClient.payload ExampleClient.default_config
                       (py "host") (py "2025-11-06T10:30:00");
                   timeout := 10 |}).
  rewrite example_send_heartbeat_posts in H.
  specialize (H (or_introl eq_refl) (py "status")).
  simpl in H.
  assert (Hin : In (py "status")
                  [py "serviceId"; py "status"; py "metadata"; py "message"])
    by (right; left; reflexivity).
  destruct (H Hin) as [E|[E|[E|[]]]]; discriminate E.
Qed.

(** C3, as the code has it. The single-service clients
    (heartbeat-clients/heartbeat-client.py, slim/agent/heartbeat-client.py)
    post a body made of [serviceId] alone and their batch body is made of
    [services] alone, so neither supplies [status]; the body
    examples/heartbeat-client.py posts is made of [serviceId], [status]
    (always ["up"]), [metadata] and [message]. *)
Theorem heartbeat_body_fields
    (cfg : HeartbeatClient.Config) (ecfg : ExampleClient.Config)
    (net : Network) (hostname now : pystr) (s : State) :
  (exists rq,
     sent (snd (HeartbeatClient.send_heartbeat_single cfg net s))
       = sent s ++ [rq]
     /\ body_fields (json_body rq) = [py "serviceId"])
  /\ (exists rq,
        sent (snd (HeartbeatClient.send_heartbeat_batch cfg net s))
          = sent s ++ [rq]
        /\ body_fields (json_body rq) = [py "services"])
  /\ (exists rq o,
        sent (snd (ExampleClient.send_heartbeat ecfg net hostname now s))
          = sent s ++ [rq]
        /\ json_body rq = JObj o
        /\ dict_keys o
           = [py "serviceId"; py "status"; py "metadata"; py "message"]
        /\ dict_get "status" o = Some (JStr "up")).
Proof.
  split; [|split].
  - eexists; split; [apply send_heartbeat_single_posts|reflexivity].
  - eexists; split; [apply send_heartbeat_batch_posts|].
    unfold HeartbeatClient.batch_payload.
    destruct (HeartbeatClient.BATCH_SHARED_KEY cfg); reflexivity.
  - do 2 eexists; split; [apply example_send_heartbeat_posts|].
    repeat split.
Qed.

(* ================================================================= *)
(** ** The Alertmanager test payload *)

(** C4. The payload of test 3 has exactly one element in [alerts], with
    [status = "firing"], [labels.alertname = "HighCPU"] and
    [labels.severity = "warning"]; it is the body of the third test of the
    harness, and the normalizer turns it into one canonical Alert with
    [title = "HighCPU"], [severity = warning], [source = "alertmanager"]. *)
Theorem alertmanager_firing_payload :
  nth_error TestExternalAlert.tests 2
    = Some (py "Test 3: Alertmanager Format (Firing)",
            TestExternalAlert.test3_payload)
  /\ (exists element labels,
        AlertNormalizer.member "alerts" TestExternalAlert.test3_payload
          = Some (JArr [element])
        /\ AlertNormalizer.string_member "status" element = Some (py "firing")
        /\ AlertNormalizer.member "labels" element = Some labels
        /\ AlertNormalizer.string_member "alertname" labels
           = Some (py "HighCPU")
        /\ AlertNormalizer.string_member "severity" labels
           = Some (py "warning"))
  /\ (exists alert,
        AlertNormalizer.normalize TestExternalAlert.test3_payload
          = AlertNormalizer.Ok [alert]
        /\ AlertNormalizer.title alert = py "HighCPU"
        /\ AlertNormalizer.severity alert = AlertNormalizer.warning
        /\ AlertNormalizer.source alert = py "alertmanager").
Proof.
  split; [reflexivity|split].
  - do 2 eexists; repeat split.
  - eexists; repeat split.
Qed.

(* ================================================================= *)
(** ** The alert test harness *)

Section AlertHarness.
Import TestExternalAlert.

Variable argv : list pystr.
Variable net : Network.

Lemma total_ret {A} (a : A) : total (ret a).
Proof. intros s; eexists; reflexivity. Qed.

Lemma total_print (l : line) : line_encodable l = true -> total (print l).
Proof. intros H s; unfold print; rewrite H; eexists; reflexivity. Qed.


Lemma total_if {A} (b : bool) (m1 m2 : M State A) :
  total m1 -> total m2 -> total (if b then m1 else m2).
Proof. destruct b; auto. Qed.

(** Whatever the network does, [send_alert] returns: transport errors and
    undecodable bodies are handled inside. *)
Lemma send_alert_total name payload : total (send_alert argv net name payload).
Proof.
  intros s. unfold send_alert, call, bind, try_except, requests_post,
    print, modify, assign_response, read_response, json; simpl.
  destruct (net (List.length (sent s))) as [[| |]|r]; simpl;
    try (eexists; reflexivity).
  destruct (body r) as [j|[|]]; simpl; try (eexists; reflexivity).
  destruct (status_code r =? 200); simpl; eexists; reflexivity.
Qed.

Lemma send_alert_posts name payload :
  posts [alert_request argv payload] (send_alert argv net name payload).
Proof.
  unfold send_alert. apply posts_call.
  apply (posts_bind_total [] [alert_request argv payload]);
    [apply posts_print|now apply total_print|intros _].
  apply (posts_bind_total [] [alert_request argv payload]);
    [apply posts_print|now apply total_print|intros _].
  posts_auto.
Qed.


Lemma main_posts : posts (map (fun t => alert_request argv (snd t)) tests)
                         (main argv net).
Proof.
  unfold main.
  repeat
    match goal with
    | |- posts _ (bind (send_alert _ _ _ ?p) _) =>
        apply (posts_bind_total [alert_request argv p]);
        [apply send_alert_posts|apply send_alert_total|intros _]
    | |- posts ?l (bind _ _) =>
        apply (posts_bind_total [] l);
        [posts_auto
        |repeat first [now apply total_print | apply total_if]
        |intros _]
    end.
  posts_auto.
Qed.

End AlertHarness.


(** ** The credential on alert requests *)

Lemma API_KEY_nth_error argv :
  TestExternalAlert.API_KEY argv = nth_error argv 2.
Proof.
  unfold TestExternalAlert.API_KEY.
  destruct argv as [|a0 [|a1 [|a2 argv]]]; reflexivity.
Qed.

(** Against C5 as stated: with an empty third word on the command line a
    key was supplied, yet the requests carry no [Authorization] header. *)
Lemma empty_key_sends_no_authorization :
  ~ (forall argv net rq,
       In rq (sent (snd (TestExternalAlert.main argv net initial))) ->
       (has_authorization rq <-> key_supplied argv)).
Proof.
  intros H.
  pose (argv := [py "test-external-alert.py";
                 py "https://your-worker.workers.dev"; py ""]).
  specialize (H argv (fun _ => NetFail NetTimeout)
                (alert_request argv TestExternalAlert.test1_payload)).
  rewrite main_posts in H.
  destruct (H (or_introl eq_refl)) as [_ H2].
  apply H2; [unfold key_supplied; simpl; lia|reflexivity].
Qed.

(** C5, as the code has it. Every request of the alert test client goes to
    [<worker-url>/api/alert] and carries an [Authorization] header iff a
    non-empty API key was supplied on the command line; the header is then
    [Bearer <key>] for that key. With no key, or an empty one, no request
    carries the header. *)
Theorem alert_authorization_iff_nonempty_key
    (argv : list pystr) (net : Network) (rq : Request)
    (Hrq : In rq (sent (snd (TestExternalAlert.main argv net initial)))) :
  url rq = TestExternalAlert.WORKER_URL argv ++ py "/api/alert"
  /\ (has_authorization rq <-> nonempty_key_supplied argv)
  /\ match dict_get "Authorization" (headers rq) with
     | Some v => exists key, nth_error argv 2 = Some key
                             /\ v = py "Bearer " ++ key
     | None => nth_error argv 2 = None \/ nth_error argv 2 = Some []
     end.
Proof.
  rewrite main_posts in Hrq. simpl in Hrq.
  assert (E : headers rq = TestExternalAlert.request_headers argv
              /\ url rq = TestExternalAlert.ENDPOINT argv).
  { repeat (destruct Hrq as [<-|Hrq]; [split; reflexivity|]).
    destruct Hrq. }
  destruct E as [Eh Eu]. unfold has_authorization.
  rewrite Eh, Eu. clear rq Hrq Eh Eu.
  unfold nonempty_key_supplied,
    TestExternalAlert.request_headers, TestExternalAlert.API_KEY_truthy,
    TestExternalAlert.bearer.
  rewrite API_KEY_nth_error.
  split; [reflexivity|].
  destruct (nth_error argv 2) as [[|c key]|]; simpl.
  - split; [split; [congruence|intros (k & [= <-] & Hk); congruence]|].
    now right.
  - split; [split; [intros _; eexists; split; [reflexivity|discriminate]
                   |discriminate]|].
    eexists; split; reflexivity.
  - split; [split; [congruence|intros (k & [=] & _)]|]. now left.
Qed.

Lemma alert_authorization_iff_nonempty_key_witness :
  let argv := [py "test-external-alert.py";
               py "https://your-worker.workers.dev"; py "my-secret-key"] in
  let rq := alert_request argv TestExternalAlert.test1_payload in
  url rq = py "https://your-worker.workers.dev/api/alert"
  /\ (has_authorization rq <-> nonempty_key_supplied argv)
  /\ exists key, nth_error argv 2 = Some key
                 /\ py "Bearer my-secret-key" = py "Bearer " ++ key.
Proof.
  exact (alert_authorization_iff_nonempty_key
           [py "test-external-alert.py";
            py "https://your-worker.workers.dev"; py "my-secret-key"]
           (fun _ => NetFail NetConnectionError)
           (alert_request
              [py "test-external-alert.py";
               py "https://your-worker.workers.dev"; py "my-secret-key"]
              TestExternalAlert.test1_payload)
           (or_introl eq_refl)).
Defined.

(* ================================================================= *)
(** ** Exit status of the heartbeat clients *)

(** A line that can be encoded is printed, and [print] raises on any
    other. *)
Lemma print_encodable (l : line) (s : State) :
  line_encodable l = true -> print l s = (Ret tt, with_out s [l]).
Proof. intros H. unfold print. rewrite H. reflexivity. Qed.


Lemma for_each_report_result items s :
  forallb result_item_ok items = true ->
  forallb result_item_printable items = true ->
  for_each items HeartbeatClient.report_result s
  = (Ret tt, with_out s (map full_success_line items)).
Proof.
  revert s; induction items as [|x items IH]; intros s H P; simpl.
  - unfold ret, with_out; rewrite app_nil_r; now destruct s.
  - apply andb_prop in H as [Hx Hl]. apply andb_prop in P as [Px Pl].
    destruct x as [| | | | | |o]; try discriminate Hx. simpl in Hx.
    unfold result_item_printable, member_or in Px.
    apply andb_prop in Px as [Pw _].
    unfold bind at 1. unfold HeartbeatClient.report_result, getitem, bind.
    destruct (dict_get (py "success") o) as [v|] eqn:Ev; [|discriminate].
    destruct (dict_get (py "serviceId") o) as [w|] eqn:Ew; [|discriminate].
    unfold ret. rewrite print_encodable
      by (destruct (truthy v); simpl; now rewrite Pw).
    rewrite IH by assumption.
    unfold with_out, full_success_line, member_or; simpl.
    rewrite Ev, Ew, <- app_assoc; reflexivity.
Qed.

Lemma for_each_report_partial_result items s :
  forallb result_item_ok items = true ->
  forallb result_item_printable items = true ->
  for_each items HeartbeatClient.report_partial_result s
  = (Ret tt, with_out s (map partial_success_line items)).
Proof.
  revert s; induction items as [|x items IH]; intros s H P; simpl.
  - unfold ret, with_out; rewrite app_nil_r; now destruct s.
  - apply andb_prop in H as [Hx Hl]. apply andb_prop in P as [Px Pl].
    destruct x as [| | | | | |o]; try discriminate Hx. simpl in Hx.
    unfold result_item_printable, member_or in Px.
    apply andb_prop in Px as [Pw Pe].
    unfold bind at 1.
    unfold HeartbeatClient.report_partial_result, getitem, get_method, bind.
    destruct (dict_get (py "success") o) as [v|] eqn:Ev; [|discriminate].
    destruct (dict_get (py "serviceId") o) as [w|] eqn:Ew; [|discriminate].
    unfold ret.
    destruct (truthy v) eqn:Tv.
    + rewrite print_encodable by (simpl; now rewrite Pw).
      rewrite IH by assumption.
      unfold with_out, partial_success_line, member_or; simpl.
      rewrite Ev, Ew, Tv, <- app_assoc; reflexivity.
    + rewrite print_encodable by (simpl; now rewrite Pw, Pe).
      rewrite IH by assumption.
      unfold with_out, partial_success_line, member_or; simpl.
      rewrite Ev, Ew, Tv, <- app_assoc; reflexivity.
Qed.

Ltac run_client :=
  unfold bind, try_except, requests_post, print, modify, json, ret, raise,
    get_method; simpl.



Lemma batch_announce_encodable cfg :
  line_encodable (HeartbeatClient.batch_announce cfg) = true.
Proof.
  unfold HeartbeatClient.batch_announce.
  destruct (HeartbeatClient.BATCH_SHARED_KEY cfg); reflexivity.
Qed.

(** The start of a run of [send_heartbeat_batch]: the announcement is
    printed and the request posted. *)
Lemma send_heartbeat_batch_start cfg net :
  HeartbeatClient.send_heartbeat_batch cfg net initial
  = try_except
      (response <- requests_post net
          {| url := HeartbeatClient.WORKER_URL cfg;
             headers := HeartbeatClient.batch_headers cfg;
             json_body := HeartbeatClient.batch_payload cfg;
             timeout := 10 |} ;;
       if status_code response =? 200 then
         result <- json response ;;
         message <- get_method result "message" JNull ;;
         print [Lit "["; Now; Lit "] ✓ Batch heartbeat sent: ";
                Val message] ;;
         results <- get_method result "results" JNull ;;
         (if truthy results then
            results <- getitem result "results" ;;
            items <- iter results ;;
            for_each items HeartbeatClient.report_result
          else ret tt) ;;
         ret 0
       else if status_code response =? 207 then
         result <- json response ;;
         message <- get_method result "message" JNull ;;
         print [Lit "["; Now; Lit "] ⚠ Partial success: "; Val message] ;;
         results <- get_method result "results" (JArr []) ;;
         items <- iter results ;;
         for_each items HeartbeatClient.report_partial_result ;;
         ret 0
       else
         print [Lit "["; Now; Lit "] ✗ Batch failed: ";
                Num (status_code response); Lit " - ";
                Str (text response)] ;;
         ret 1)
      [(C_RequestException,
        fun e => print [Lit "["; Now; Lit "] ✗ Error: "; Err e] ;; ret 1)]
      (with_out initial [HeartbeatClient.batch_announce cfg]).
Proof.
  unfold HeartbeatClient.send_heartbeat_batch.
  unfold bind at 1.
  rewrite print_encodable by apply batch_announce_encodable.
  reflexivity.
Qed.






(* ================================================================= *)
(** ** The notification test client *)






(* ================================================================= *)
(** ** The codecs of the key-generation utility *)

Ltac Zify.zify_post_hook ::= Z.to_euclidean_division_equations.

(** A property checked on every number below [k] holds below [k]. *)
Lemma forall_below (P : N -> bool) (k : nat) :
  forallb P (map N.of_nat (seq 0 k)) = true ->
  forall n, (n < N.of_nat k)%N -> P n = true.
Proof.
  intros H n Hn. rewrite forallb_forall in H. apply H.
  apply in_map_iff. exists (N.to_nat n). split; [apply N2Nat.id|].
  apply in_seq. lia.
Qed.

Lemma lor_shiftl_small (a b n : N) :
  (b < 2 ^ n)%N -> N.lor (N.shiftl a n) b = (a * 2 ^ n + b)%N.
Proof.
  intros Hb.
  assert (H0 : N.land (N.shiftl a n) b = 0%N).
  { apply N.bits_inj_0; intros m. rewrite N.land_spec.
    destruct (N.lt_ge_cases m n) as [Hm|Hm].
    - now rewrite N.shiftl_spec_low.
    - rewrite <- (N.mod_small b (2 ^ n)) by assumption.
      rewrite N.mod_pow2_bits_high by assumption. apply andb_false_r. }
  rewrite <- N.lxor_lor, <- N.add_nocarry_lxor, N.shiftl_mul_pow2 by assumption.
  reflexivity.
Qed.

Section JsonRoundTrip.
Import JsonText.

Lemma hex_val_hex_digit (d : N) : (d < 16)%N -> hex_val (hex_digit d) = Some d.
Proof.
  intros Hd.
  pose proof (forall_below
    (fun d => match hex_val (hex_digit d) with
              | Some d' => (d' =? d)%N
              | None => false
              end) 16 eq_refl d Hd) as H.
  simpl in H. destruct (hex_val (hex_digit d)); [|discriminate].
  apply N.eqb_eq in H. now subst.
Qed.

Lemma decode_hex4_hex4 (n : N) :
  (n < 65536)%N ->
  match hex4 n with
  | [h1; h2; h3; h4] => decode_hex4 h1 h2 h3 h4 = Some n
  | _ => False
  end.
Proof.
  intros Hn. unfold hex4, decode_hex4.
  rewrite !hex_val_hex_digit by (apply N.mod_lt; discriminate).
  f_equal. lia.
Qed.


Lemma escape_char_shape (c : N) :
  (c < 1114112)%N -> esc_shape c (escape_char c).
Proof.
  intros Hc. unfold escape_char.
  repeat match goal with
  | |- esc_shape _ (if (?a =? ?b)%N then _ else _) =>
      destruct (N.eqb_spec a b) as [->|?];
      [apply esc_short; [reflexivity|discriminate]|]
  end.
  destruct ((32 <=? c) && (c <=? 126))%N eqn:Hp.
  { apply andb_prop in Hp as [H1 H2]. apply N.leb_le in H1.
    now apply esc_plain. }
  destruct (N.ltb_spec c 65536) as [Hlt|Hge]; [now apply esc_u|].
  cbv zeta.
  change 1023%N with (N.ones 10).
  rewrite !N.land_ones, N.shiftr_div_pow2.
  change 55296%N with (N.shiftl 54 10). change 56320%N with (N.shiftl 55 10).
  rewrite !lor_shiftl_small by (apply N.mod_lt; discriminate).
  change (2 ^ 10)%N with 1024%N.
  apply esc_pair.
  - lia.
  - lia.
  - unfold is_high_surrogate. apply andb_true_intro; split;
      apply N.leb_le; lia.
  - unfold is_low_surrogate. apply andb_true_intro; split;
      apply N.leb_le; lia.
  - unfold join_surrogates.
    rewrite lor_shiftl_small by (change (2 ^ 10)%N with 1024%N; lia).
    change (2 ^ 10)%N with 1024%N. lia.
Qed.

Lemma scanstring_u_plain h1 h2 h3 h4 uni r2 :
  decode_hex4 h1 h2 h3 h4 = Some uni ->
  is_high_surrogate uni = false ->
  scanstring (92 :: 117 :: h1 :: h2 :: h3 :: h4 :: r2)%N
  = push uni (scanstring r2).
Proof. intros Hd Hh. simpl. now rewrite Hd, Hh. Qed.

Lemma scanstring_u_alone h1 h2 h3 h4 uni r2 :
  decode_hex4 h1 h2 h3 h4 = Some uni ->
  not_low_escape r2 ->
  scanstring (92 :: 117 :: h1 :: h2 :: h3 :: h4 :: r2)%N
  = push uni (scanstring r2).
Proof.
  intros Hd Hr.
  destruct (is_high_surrogate uni) eqn:Hh;
    [|now apply scanstring_u_plain].
  change (scanstring (92 :: 117 :: h1 :: h2 :: h3 :: h4 :: r2)%N)
    with (match decode_hex4 h1 h2 h3 h4 with
          | None => None
          | Some uni =>
            if is_high_surrogate uni then
              match r2 with
              | b :: u :: l1 :: l2 :: l3 :: l4 :: r3 =>
                if ((b =? 92) && (u =? 117))%N then
                  match decode_hex4 l1 l2 l3 l4 with
                  | None => None
                  | Some uni2 =>
                    if is_low_surrogate uni2
                    then push (join_surrogates uni uni2) (scanstring r3)
                    else push uni (scanstring r2)
                  end
                else push uni (scanstring r2)
              | _ => push uni (scanstring r2)
              end
            else push uni (scanstring r2)
          end).
  rewrite Hd, Hh.
  destruct r2 as [|b [|u [|l1 [|l2 [|l3 [|l4 r3]]]]]]; try reflexivity.
  destruct ((b =? 92) && (u =? 117))%N eqn:C; [|reflexivity].
  destruct (Hr _ _ _ _ _ _ _ eq_refl C) as (uni2 & -> & ->). reflexivity.
Qed.

Lemma scanstring_u_pair h1 h2 h3 h4 l1 l2 l3 l4 uni uni2 r3 :
  decode_hex4 h1 h2 h3 h4 = Some uni ->
  is_high_surrogate uni = true ->
  decode_hex4 l1 l2 l3 l4 = Some uni2 ->
  is_low_surrogate uni2 = true ->
  scanstring
    (92 :: 117 :: h1 :: h2 :: h3 :: h4 :: 92 :: 117 :: l1 :: l2 :: l3 :: l4
        :: r3)%N
  = push (join_surrogates uni uni2) (scanstring r3).
Proof. intros Hd Hh Hd2 Hl. simpl. now rewrite Hd, Hh, Hd2, Hl. Qed.

Lemma u_escape_cons (n : N) (X : pystr) :
  (n < 65536)%N ->
  exists h1 h2 h3 h4,
    u_escape n ++ X = (92 :: 117 :: h1 :: h2 :: h3 :: h4 :: X)%N
    /\ decode_hex4 h1 h2 h3 h4 = Some n.
Proof.
  intros Hn. pose proof (decode_hex4_hex4 n Hn) as H.
  unfold u_escape. destruct (hex4 n) as [|h1 [|h2 [|h3 [|h4 [|]]]]];
    try contradiction.
  now exists h1, h2, h3, h4.
Qed.

Lemma high_not_low (u : N) :
  is_high_surrogate u = true -> is_low_surrogate u = false.
Proof.
  unfold is_high_surrogate, is_low_surrogate. intros H.
  apply andb_prop in H as [_ H]. apply N.leb_le in H.
  apply andb_false_intro1. apply N.leb_gt. lia.
Qed.

(** One escaped code point is read back, when a high surrogate is not
    followed by the escape of a low one. *)
Lemma scanstring_escaped c e X :
  esc_shape c e ->
  (is_high_surrogate c = true -> not_low_escape X) ->
  scanstring (e ++ X) = push c (scanstring X).
Proof.
  intros He HX. destruct He as [e Hu Hne| H34 H92 H32|Hlt|s1 s2 H1 H2 Hh Hl Hj].
  - simpl. apply N.eqb_neq in Hne. now rewrite Hne, Hu.
  - simpl. apply N.eqb_neq in H34, H92. rewrite H34, H92.
    assert (E : (c <? 32)%N = false) by (apply N.ltb_ge; assumption).
    now rewrite E.
  - destruct (u_escape_cons c X Hlt) as (h1 & h2 & h3 & h4 & -> & Hd).
    destruct (is_high_surrogate c) eqn:Hh.
    + apply scanstring_u_alone; auto.
    + now apply scanstring_u_plain.
  - rewrite <- app_assoc.
    destruct (u_escape_cons s2 X H2) as (l1 & l2 & l3 & l4 & -> & Hd2).
    destruct (u_escape_cons s1 (92 :: 117 :: l1 :: l2 :: l3 :: l4 :: X)%N H1)
      as (h1 & h2 & h3 & h4 & -> & Hd1).
    rewrite (scanstring_u_pair _ _ _ _ _ _ _ _ _ _ _ Hd1 Hh Hd2 Hl).
    now rewrite Hj.
Qed.

Lemma not_low_escape_escaped c e X :
  esc_shape c e -> is_low_surrogate c = false -> not_low_escape (e ++ X).
Proof.
  intros He Hc b u l1 l2 l3 l4 r3 E C.
  apply andb_prop in C as [Cb Cu].
  apply N.eqb_eq in Cb, Cu. subst b u.
  destruct He as [e Hu Hne| H34 H92 H32|Hlt|s1 s2 H1 H2 Hh Hl Hj].
  - simpl in E. injection E as E1 _. congruence.
  - simpl in E. injection E as E1 _. congruence.
  - destruct (u_escape_cons c X Hlt) as (h1 & h2 & h3 & h4 & E' & Hd).
    rewrite E' in E. injection E as <- <- <- <- _.
    now exists c.
  - rewrite <- app_assoc in E.
    destruct (u_escape_cons s1 (u_escape s2 ++ X) H1)
      as (h1 & h2 & h3 & h4 & E' & Hd).
    rewrite E' in E. injection E as <- <- <- <- _.
    exists s1. split; [assumption|now apply high_not_low].
Qed.

Lemma not_low_escape_quote rest : not_low_escape (34%N :: rest).
Proof.
  intros b u l1 l2 l3 l4 r3 E C. injection E as <- _. discriminate C.
Qed.

(** [scanstring] reads back what [encode_basestring_ascii] wrote. *)
Lemma scanstring_encoded (s rest : pystr) :
  well_formed s = true ->
  scanstring (flat_map escape_char s ++ 34%N :: rest) = Some (s, rest).
Proof.
  induction s as [|c s IH]; intros Hwf.
  - reflexivity.
  - simpl in Hwf. apply andb_prop in Hwf as [Hwf Hs].
    apply andb_prop in Hwf as [Hc Hpair].
    apply N.ltb_lt in Hc. apply negb_true_iff in Hpair.
    simpl flat_map. rewrite <- app_assoc.
    rewrite (scanstring_escaped c).
    + now rewrite IH.
    + now apply escape_char_shape.
    + intros Hh. rewrite Hh in Hpair. simpl in Hpair.
      destruct s as [|c' s'].
      * apply not_low_escape_quote.
      * simpl flat_map. rewrite <- app_assoc.
        apply (not_low_escape_escaped c'); [|assumption].
        apply escape_char_shape.
        simpl in Hs. apply andb_prop in Hs as [Hs _].
        apply andb_prop in Hs as [Hs _]. now apply N.ltb_lt.
Qed.


Lemma dict_set_fresh {V} (k : pystr) (v : V) (acc : list (pystr * V)) :
  ~ In k (dict_keys acc) -> dict_set k v acc = acc ++ [(k, v)].
Proof.
  induction acc as [|[k' v'] acc IH]; simpl; intros H; [reflexivity|].
  destruct (str_eqb k k') eqn:E.
  - apply str_eqb_eq in E. subst. exfalso; apply H; now left.
  - rewrite IH; [reflexivity|]. intros Hin; apply H; now right.
Qed.

Lemma dumps_item_app (k v tail : pystr) :
  dumps_item (k, v) ++ tail
  = (34 :: flat_map escape_char k
        ++ 34 :: 58 :: 34 :: flat_map escape_char v ++ 34 :: tail)%N.
Proof.
  unfold dumps_item, encode_basestring_ascii. simpl.
  rewrite <- !app_assoc. simpl. rewrite <- !app_assoc. reflexivity.
Qed.

Lemma skip_ws_nonws (c : N) (r : pystr) :
  is_ws c = false -> skip_ws (c :: r) = c :: r.
Proof. intros H. simpl. now rewrite H. Qed.

(** One member written by [dumps_compact] is read back. *)
Lemma members_step fuel k v acc tail :
  well_formed k = true -> well_formed v = true ->
  members (S fuel) (dumps_item (k, v) ++ tail) acc
  = match skip_ws tail with
    | d :: r5 =>
        if (d =? 125)%N then Some (dict_set k v acc, r5)
        else if (d =? 44)%N
             then members fuel (skip_ws r5) (dict_set k v acc)
             else None
    | [] => None
    end.
Proof.
  intros Hk Hv. rewrite dumps_item_app.
  cbn [members]. rewrite N.eqb_refl.
  rewrite (scanstring_encoded k _ Hk).
  rewrite (skip_ws_nonws 58) by reflexivity. rewrite N.eqb_refl.
  rewrite (skip_ws_nonws 34) by reflexivity. rewrite N.eqb_refl.
  rewrite (scanstring_encoded v _ Hv). reflexivity.
Qed.

Lemma skip_ws_item (kv : pystr * pystr) (tail : pystr) :
  skip_ws (dumps_item kv ++ tail) = dumps_item kv ++ tail.
Proof. destruct kv as [k v]. rewrite dumps_item_app. reflexivity. Qed.

Lemma members_encoded (d : list (pystr * pystr)) :
  forall acc fuel rest,
    (List.length d <= fuel)%nat ->
    d <> [] ->
    Forall (fun kv => well_formed (fst kv) = true
                      /\ well_formed (snd kv) = true) d ->
    NoDup (dict_keys acc ++ dict_keys d) ->
    members fuel (join [44%N] (map dumps_item d) ++ 125%N :: rest) acc
    = Some (acc ++ d, rest).
Proof.
  induction d as [|[k v] d IH]; intros acc fuel rest Hfuel Hne Hwf Hnd;
    [contradiction|].
  destruct fuel as [|fuel]; [simpl in Hfuel; lia|].
  inversion Hwf as [|? ? [Hk Hv] Hwf']; subst. simpl in Hk, Hv.
  assert (Hfresh : ~ In k (dict_keys acc)).
  { intros Hin. apply NoDup_remove_2 in Hnd. apply Hnd.
    apply in_or_app; now left. }
  assert (Hnd' : NoDup (dict_keys (acc ++ [(k, v)]) ++ dict_keys d)).
  { unfold dict_keys in *. rewrite map_app. simpl.
    rewrite <- app_assoc. exact Hnd. }
  destruct d as [|kv' d'].
  - simpl join. rewrite (members_step _ _ _ _ _ Hk Hv).
    simpl. now rewrite (dict_set_fresh _ _ _ Hfresh).
  - change (join [44%N] (map dumps_item ((k, v) :: kv' :: d')))
      with (dumps_item (k, v)
            ++ [44%N] ++ join [44%N] (map dumps_item (kv' :: d'))).
    rewrite <- !app_assoc.
    rewrite (members_step _ _ _ _ _ Hk Hv).
    cbn [app]. rewrite (skip_ws_nonws 44) by reflexivity.
    change ((44 =? 125)%N) with false. change ((44 =? 44)%N) with true.
    cbv iota.
    rewrite (dict_set_fresh _ _ _ Hfresh).
    assert (Hskip : skip_ws (join [44%N] (map dumps_item (kv' :: d'))
                             ++ 125%N :: rest)
                    = join [44%N] (map dumps_item (kv' :: d'))
                      ++ 125%N :: rest).
    { destruct d' as [|kv'' d''].
      - simpl join. apply skip_ws_item.
      - change (join [44%N] (map dumps_item (kv' :: kv'' :: d'')))
          with (dumps_item kv'
                ++ [44%N] ++ join [44%N] (map dumps_item (kv'' :: d''))).
        rewrite <- !app_assoc. apply skip_ws_item. }
    rewrite Hskip.
    rewrite IH; [|simpl in *; lia|discriminate|assumption|assumption].
    now rewrite <- app_assoc.
Qed.

Lemma length_join_items (d : list (pystr * pystr)) :
  (List.length d <= List.length (join [44%N] (map dumps_item d)))%nat.
Proof.
  induction d as [|[k v] d IH]; [simpl; lia|].
  destruct d as [|kv' d'].
  - simpl join. unfold dumps_item. simpl. lia.
  - change (join [44%N] (map dumps_item ((k, v) :: kv' :: d')))
      with (dumps_item (k, v)
            ++ [44%N] ++ join [44%N] (map dumps_item (kv' :: d'))).
    rewrite !length_app. simpl in *. lia.
Qed.

(** [json.loads] recovers the mapping [json.dumps] wrote. *)
Lemma loads_dumps_compact (d : list (pystr * pystr)) :
  NoDup (dict_keys d) ->
  Forall (fun kv => well_formed (fst kv) = true
                    /\ well_formed (snd kv) = true) d ->
  loads (dumps_compact d) = Some d.
Proof.
  intros Hnd Hwf. unfold loads, dumps_compact.
  rewrite (skip_ws_nonws 123) by reflexivity. rewrite N.eqb_refl.
  destruct d as [|kv d]; [reflexivity|].
  assert (Hitem : exists tail,
            join [44%N] (map dumps_item (kv :: d)) ++ [125%N]
            = 34%N :: tail).
  { destruct kv as [k v]. destruct d as [|kv' d'].
    - simpl join. rewrite dumps_item_app. eexists; reflexivity.
    - change (join [44%N] (map dumps_item ((k, v) :: kv' :: d')))
        with (dumps_item (k, v)
              ++ [44%N] ++ join [44%N] (map dumps_item (kv' :: d'))).
      rewrite <- !app_assoc, dumps_item_app. eexists; reflexivity. }
  destruct Hitem as [tail Et]. rewrite Et.
  rewrite (skip_ws_nonws 34) by reflexivity.
  change ((34 =? 125)%N) with false. cbv iota.
  rewrite <- Et.
  rewrite (members_encoded (kv :: d) [] _ []); try assumption.
  - reflexivity.
  - pose proof (length_join_items (kv :: d)). simpl List.length in *.
    rewrite length_app. simpl. lia.
  - discriminate.
Qed.

End JsonRoundTrip.

Section Base64RoundTrip.
Import Base64.

Lemma table_inv_table (i : N) : (i < 64)%N -> table_inv (table i) = Some i.
Proof.
  intros Hi.
  pose proof (forall_below
    (fun i => match table_inv (table i) with
              | Some j => (j =? i)%N
              | None => false
              end) 64 eq_refl i Hi) as H.
  simpl in H. destruct (table_inv (table i)); [|discriminate].
  apply N.eqb_eq in H. now subst.
Qed.

Lemma table_not_pad (i : N) : (i < 64)%N -> (table i =? 61)%N = false.
Proof.
  intros Hi.
  apply negb_true_iff.
  exact (forall_below (fun i => negb (table i =? 61)%N) 64 eq_refl i Hi).
Qed.


Lemma table_ascii (i : N) : (i < 64)%N -> (table i <? 128)%N = true.
Proof.
  intros Hi.
  exact (forall_below (fun i => (table i <? 128)%N) 64 eq_refl i Hi).
Qed.

(** One character of the alphabet moves the decoder one place on. *)
Lemma a2b_base64_data (v : N) (r : list N) (q lc p : N) :
  (v < 64)%N ->
  a2b_base64 (table v :: r) q lc p
  = if (q =? 0)%N then a2b_base64 r 1%N v 0%N
    else if (q =? 1)%N then
      cons_opt (lc * 4 + v / 16)%N (a2b_base64 r 2%N (v mod 16)%N 0%N)
    else if (q =? 2)%N then
      cons_opt (lc * 16 + v / 4)%N (a2b_base64 r 3%N (v mod 4)%N 0%N)
    else cons_opt (lc * 64 + v)%N (a2b_base64 r 0%N 0%N 0%N).
Proof.
  intros Hv. cbn [a2b_base64].
  now rewrite (table_not_pad v Hv), (table_inv_table v Hv).
Qed.

Lemma a2b_base64_quad (x y z : N) (r : list N) :
  is_byte x -> is_byte y -> is_byte z ->
  a2b_base64
    (table (x / 4) :: table (x mod 4 * 16 + y / 16)
       :: table (y mod 16 * 4 + z / 64) :: table (z mod 64) :: r)%N
    0%N 0%N 0%N
  = cons_opt x (cons_opt y (cons_opt z (a2b_base64 r 0%N 0%N 0%N))).
Proof.
  unfold is_byte. intros Hx Hy Hz.
  rewrite !a2b_base64_data by lia. simpl N.eqb. cbv iota.
  replace (x / 4 * 4 + (x mod 4 * 16 + y / 16) / 16)%N with x by lia.
  replace ((x mod 4 * 16 + y / 16) mod 16 * 16
           + (y mod 16 * 4 + z / 64) / 4)%N with y by lia.
  replace ((y mod 16 * 4 + z / 64) mod 4 * 64 + z mod 64)%N with z by lia.
  reflexivity.
Qed.

Lemma a2b_base64_tail1 (x : N) :
  is_byte x ->
  a2b_base64 [table (x / 4); table (x mod 4 * 16); 61; 61]%N 0%N 0%N 0%N
  = Some [x].
Proof.
  unfold is_byte. intros Hx.
  rewrite !a2b_base64_data by lia. simpl.
  replace (x / 4 * 4 + x mod 4 * 16 / 16)%N with x by lia.
  reflexivity.
Qed.

Lemma a2b_base64_tail2 (x y : N) :
  is_byte x -> is_byte y ->
  a2b_base64
    [table (x / 4); table (x mod 4 * 16 + y / 16); table (y mod 16 * 4); 61]%N
    0%N 0%N 0%N
  = Some [x; y].
Proof.
  unfold is_byte. intros Hx Hy.
  rewrite !a2b_base64_data by lia. simpl.
  replace (x / 4 * 4 + (x mod 4 * 16 + y / 16) / 16)%N with x by lia.
  replace ((x mod 4 * 16 + y / 16) mod 16 * 16 + y mod 16 * 4 / 4)%N
    with y by lia.
  reflexivity.
Qed.

(** The decoder recovers the bytes the encoder was given. *)
Lemma a2b_base64_b64encode (b : list N) :
  Forall is_byte b -> a2b_base64 (b64encode b) 0%N 0%N 0%N = Some b.
Proof.
  assert (H : forall n b, (List.length b <= n)%nat -> Forall is_byte b ->
                          a2b_base64 (b64encode b) 0%N 0%N 0%N = Some b).
  { clear b. induction n as [|n IH]; intros b Hlen Hb.
    - destruct b; [reflexivity|simpl in Hlen; lia].
    - destruct b as [|x [|y [|z r]]]; [reflexivity| | |].
      + inversion Hb; subst. now apply a2b_base64_tail1.
      + inversion Hb as [|? ? Hx Hb']; subst. inversion Hb'; subst.
        now apply a2b_base64_tail2.
      + inversion Hb as [|? ? Hx Hb1]; subst.
        inversion Hb1 as [|? ? Hy Hb2]; subst.
        inversion Hb2 as [|? ? Hz Hb3]; subst.
        cbn [b64encode].
        rewrite a2b_base64_quad by assumption.
        rewrite IH; [reflexivity|simpl in Hlen; lia|assumption]. }
  intros Hb. now apply (H (List.length b)).
Qed.

Lemma b64encode_ascii (b : list N) :
  Forall is_byte b -> forallb (fun c => (c <? 128)%N) (b64encode b) = true.
Proof.
  assert (H : forall n b, (List.length b <= n)%nat -> Forall is_byte b ->
               forallb (fun c => (c <? 128)%N) (b64encode b) = true).
  { clear b. unfold is_byte.
    induction n as [|n IH]; intros b Hlen Hb.
    - destruct b; [reflexivity|simpl in Hlen; lia].
    - destruct b as [|x [|y [|z r]]]; [reflexivity| | |].
      + inversion Hb; subst. cbn [b64encode forallb].
        rewrite !table_ascii by lia. reflexivity.
      + inversion Hb as [|? ? Hx Hb']; subst. inversion Hb'; subst.
        cbn [b64encode forallb]. rewrite !table_ascii by lia. reflexivity.
      + inversion Hb as [|? ? Hx Hb1]; subst.
        inversion Hb1 as [|? ? Hy Hb2]; subst.
        inversion Hb2 as [|? ? Hz Hb3]; subst.
        cbn [b64encode forallb]. rewrite !table_ascii by lia.
        rewrite IH; [reflexivity|simpl in Hlen; lia|assumption]. }
  intros Hb. now apply (H (List.length b)).
Qed.

End Base64RoundTrip.

(** ** ASCII text *)

Lemma is_ascii_app (a b : pystr) :
  is_ascii (a ++ b) = is_ascii a && is_ascii b.
Proof. apply forallb_app. Qed.

Lemma utf8_encode_ascii (s : pystr) :
  is_ascii s = true -> Utf8.encode s = Some s.
Proof.
  induction s as [|c s IH]; simpl; [reflexivity|].
  intros H. apply andb_prop in H as [Hc Hs].
  unfold Utf8.encode_char. rewrite Hc, (IH Hs). reflexivity.
Qed.

Lemma utf8_decode_ascii (b : list N) :
  is_ascii b = true -> Utf8.decode b = Some b.
Proof.
  induction b as [|c b IH]; simpl; [reflexivity|].
  intros H. apply andb_prop in H as [Hc Hb].
  rewrite Hc, (IH Hb). reflexivity.
Qed.

Lemma is_ascii_bytes (s : pystr) : is_ascii s = true -> Forall is_byte s.
Proof.
  unfold is_ascii. rewrite forallb_forall, Forall_forall.
  intros H x Hx. apply H in Hx. apply N.ltb_lt in Hx. unfold is_byte. lia.
Qed.

Lemma hex_digit_ascii (d : N) :
  (JsonText.hex_digit (d mod 16) <? 128)%N = true.
Proof.
  unfold JsonText.hex_digit. apply N.ltb_lt.
  destruct (N.ltb_spec (d mod 16) 10); lia.
Qed.

Lemma u_escape_ascii (n : N) : is_ascii (JsonText.u_escape n) = true.
Proof.
  unfold JsonText.u_escape, JsonText.hex4, is_ascii. cbn [forallb].
  now rewrite !hex_digit_ascii.
Qed.

Lemma escape_char_ascii (c : N) : is_ascii (JsonText.escape_char c) = true.
Proof.
  unfold JsonText.escape_char.
  repeat match goal with
  | |- is_ascii (if (?a =? ?b)%N then _ else _) = true =>
      destruct (a =? b)%N; [reflexivity|]
  end.
  destruct ((32 <=? c) && (c <=? 126))%N eqn:Hp.
  { apply andb_prop in Hp as [_ H2]. apply N.leb_le in H2.
    unfold is_ascii; simpl. rewrite andb_true_r. apply N.ltb_lt. lia. }
  destruct (c <? 65536)%N; [apply u_escape_ascii|].
  cbv zeta. rewrite is_ascii_app, !u_escape_ascii. reflexivity.
Qed.

Lemma encode_basestring_ascii_ascii (s : pystr) :
  is_ascii (JsonText.encode_basestring_ascii s) = true.
Proof.
  unfold JsonText.encode_basestring_ascii.
  change (34%N :: flat_map JsonText.escape_char s ++ [34%N])
    with ([34%N] ++ flat_map JsonText.escape_char s ++ [34%N]).
  rewrite !is_ascii_app. simpl. rewrite andb_true_r.
  induction s as [|c s IH]; [reflexivity|].
  simpl flat_map. now rewrite is_ascii_app, escape_char_ascii.
Qed.

Lemma dumps_compact_ascii (d : list (pystr * pystr)) :
  is_ascii (JsonText.dumps_compact d) = true.
Proof.
  unfold JsonText.dumps_compact.
  change (123%N :: JsonText.join [44%N] (map JsonText.dumps_item d) ++ [125%N])
    with ([123%N] ++ JsonText.join [44%N] (map JsonText.dumps_item d)
          ++ [125%N]).
  rewrite !is_ascii_app. simpl. rewrite andb_true_r.
  assert (Hitem : forall kv, is_ascii (JsonText.dumps_item kv) = true).
  { intros kv. unfold JsonText.dumps_item.
    change (JsonText.encode_basestring_ascii (fst kv)
            ++ 58%N :: JsonText.encode_basestring_ascii (snd kv))
      with (JsonText.encode_basestring_ascii (fst kv)
            ++ [58%N] ++ JsonText.encode_basestring_ascii (snd kv)).
    now rewrite !is_ascii_app, !encode_basestring_ascii_ascii. }
  induction d as [|kv d IH]; [reflexivity|].
  destruct d as [|kv' d']; [apply Hitem|].
  change (JsonText.join [44%N] (map JsonText.dumps_item (kv :: kv' :: d')))
    with (JsonText.dumps_item kv ++ [44%N]
          ++ JsonText.join [44%N] (map JsonText.dumps_item (kv' :: d'))).
  now rewrite !is_ascii_app, Hitem, IH.
Qed.

(** ** Stripping keeps a string well formed *)

Lemma well_formed_lstrip (s : pystr) :
  well_formed s = true -> well_formed (Str.lstrip s) = true.
Proof.
  induction s as [|c s IH]; [reflexivity|]. intros H.
  cbn [Str.lstrip]. destruct (Str.isspace c); [|assumption].
  apply IH. simpl in H. apply andb_prop in H as [_ H]. exact H.
Qed.

Lemma well_formed_prefix (a b : pystr) :
  well_formed (a ++ b) = true -> well_formed a = true.
Proof.
  induction a as [|c a IH]; [reflexivity|]. intros H.
  simpl in H. apply andb_prop in H as [H Hr].
  apply andb_prop in H as [Hc Hp].
  simpl. rewrite Hc, (IH Hr), andb_true_r. simpl.
  destruct a as [|c' a']; [|exact Hp].
  now rewrite andb_false_r.
Qed.

Lemma lstrip_suffix (l : pystr) : exists p, l = p ++ Str.lstrip l.
Proof.
  induction l as [|c l [p IH]]; [now exists []|].
  cbn [Str.lstrip]. destruct (Str.isspace c).
  - exists (c :: p). simpl. now rewrite <- IH.
  - now exists [].
Qed.

Lemma well_formed_strip (s : pystr) :
  well_formed s = true -> well_formed (Str.strip s) = true.
Proof.
  intros H. unfold Str.strip, Str.rstrip.
  apply well_formed_lstrip in H.
  destruct (lstrip_suffix (rev (Str.lstrip s))) as [p Hp].
  apply (well_formed_prefix _ (rev p)).
  rewrite <- rev_app_distr, <- Hp, rev_involutive. exact H.
Qed.

(** ** The mapping built by the key-generation loop *)

Lemma dict_set_keys {V} (k : pystr) (v : V) (d : list (pystr * V)) (k' : pystr) :
  In k' (dict_keys (dict_set k v d)) <-> k' = k \/ In k' (dict_keys d).
Proof.
  induction d as [|[k0 v0] d IH]; simpl.
  - intuition.
  - destruct (str_eqb k k0) eqn:E; simpl.
    + apply str_eqb_eq in E. subst. intuition.
    + rewrite IH. intuition.
Qed.

Lemma dict_set_NoDup {V} (k : pystr) (v : V) (d : list (pystr * V)) :
  NoDup (dict_keys d) -> NoDup (dict_keys (dict_set k v d)).
Proof.
  induction d as [|[k0 v0] d IH]; simpl; intros H.
  - constructor; [easy|constructor].
  - inversion H as [|? ? Hn Hd]; subst.
    destruct (str_eqb k k0) eqn:E; simpl.
    + constructor; assumption.
    + constructor; [|now apply IH].
      intros Hin. apply dict_set_keys in Hin as [->|Hin]; [|contradiction].
      now rewrite str_eqb_refl in E.
Qed.

Lemma dict_set_entries {V} (k : pystr) (v : V) (d : list (pystr * V)) k' v' :
  In (k', v') (dict_set k v d) -> (k' = k /\ v' = v) \/ In (k', v') d.
Proof.
  induction d as [|[k0 v0] d IH]; simpl.
  - intros [[= <- <-]|[]]. now left.
  - destruct (str_eqb k k0) eqn:E; simpl.
    + apply str_eqb_eq in E. subst.
      intros [[= <- <-]|H]; [now left|right; now right].
    + intros [H|H]; [right; now left|].
      apply IH in H as [H|H]; [now left|right; now right].
Qed.

Section KeyGeneration.
Import GenerateApiKeys.

Variable openssl_stdout : nat -> pystr.

Lemma generate_keys_run services : forall api_keys s,
  Forall (fun service => encodable (id service) = true) services ->
  generate_keys openssl_stdout services api_keys s
  = (Ret (keys_after openssl_stdout (openssl_runs s) services api_keys),
     {| out := out s
               ++ map (fun service =>
                         [Lit "✅ Generated key for: ";
                          Val (JStr (id service))]) services;
        openssl_runs := (openssl_runs s + List.length services)%nat;
        api_keys_generated_txt := api_keys_generated_txt s |}).
Proof.
  induction services as [|sv rest IH]; intros api_keys s Henc.
  - simpl. unfold ret. rewrite app_nil_r, Nat.add_0_r. now destruct s.
  - inversion Henc as [|? ? Hsv Hrest]; subst.
    cbn [generate_keys]. unfold bind at 1, generate_key.
    unfold bind at 1, print. cbn [line_encodable forallb piece_encodable
                                  encodable_value].
    rewrite Hsv. unfold modify. cbn [andb fst snd].
    rewrite (IH _ _ Hrest).
    cbn [out openssl_runs api_keys_generated_txt keys_after List.length map].
    rewrite <- app_assoc, Nat.add_succ_r. reflexivity.
Qed.

(** The loop stops at the first service whose id cannot be encoded:
    [openssl] has run for it, and the [print] that follows raises. *)
Lemma generate_keys_abort good bad rest : forall api_keys s,
  Forall (fun service => encodable (id service) = true) good ->
  encodable (id bad) = false ->
  generate_keys openssl_stdout (good ++ bad :: rest) api_keys s
  = (Raise UnicodeEncodeError,
     {| out := out s
               ++ map (fun service =>
                         [Lit "✅ Generated key for: ";
                          Val (JStr (id service))]) good;
        openssl_runs := S (openssl_runs s + List.length good)%nat;
        api_keys_generated_txt := api_keys_generated_txt s |}).
Proof.
  induction good as [|sv good IH]; intros api_keys s Henc Hbad.
  - cbn [app generate_keys]. unfold bind at 1, generate_key.
    unfold bind at 1, print. cbn [line_encodable forallb piece_encodable
                                  encodable_value].
    rewrite Hbad. unfold raise. cbn [andb fst snd map List.length].
    rewrite app_nil_r, Nat.add_0_r. reflexivity.
  - inversion Henc as [|? ? Hsv Hgood]; subst.
    cbn [app generate_keys]. unfold bind at 1, generate_key.
    unfold bind at 1, print. cbn [line_encodable forallb piece_encodable
                                  encodable_value].
    rewrite Hsv. unfold modify. cbn [andb fst snd].
    rewrite (IH _ _ Hgood Hbad).
    cbn [out openssl_runs api_keys_generated_txt List.length map].
    rewrite <- app_assoc, Nat.add_succ_r. reflexivity.
Qed.

Lemma keys_after_keys services : forall n api_keys k,
  In k (dict_keys (keys_after openssl_stdout n services api_keys))
  <-> In k (dict_keys api_keys) \/ In k (map id services).
Proof.
  induction services as [|sv rest IH]; intros n api_keys k; simpl.
  - intuition.
  - rewrite IH, dict_set_keys. intuition.
Qed.

Lemma keys_after_NoDup services : forall n api_keys,
  NoDup (dict_keys api_keys) ->
  NoDup (dict_keys (keys_after openssl_stdout n services api_keys)).
Proof.
  induction services as [|sv rest IH]; intros n api_keys H; simpl;
    [assumption|].
  apply IH. now apply dict_set_NoDup.
Qed.

Lemma keys_after_entries services : forall n api_keys k v,
  In (k, v) (keys_after openssl_stdout n services api_keys) ->
  In (k, v) api_keys
  \/ exists i service,
       nth_error services i = Some service
       /\ id service = k
       /\ v = Str.strip (openssl_stdout (n + i)).
Proof.
  induction services as [|sv rest IH]; intros n api_keys k v H; simpl in *.
  - now left.
  - apply IH in H as [H|(i & service & Hi & Hid & Hv)].
    + apply dict_set_entries in H as [[-> ->]|H]; [|now left].
      right. exists 0%nat, sv. now rewrite Nat.add_0_r.
    + right. exists (S i), service. repeat split; try assumption.
      now rewrite Nat.add_succ_r.
Qed.

End KeyGeneration.

Section KeyGenerationRun.
Import GenerateApiKeys.

Variable openssl_stdout : nat -> pystr.

Lemma encodable_app (a b : pystr) :
  encodable (a ++ b) = encodable a && encodable b.
Proof. apply forallb_app. Qed.

Lemma is_ascii_encodable (s : pystr) : is_ascii s = true -> encodable s = true.
Proof.
  unfold is_ascii, encodable. rewrite !forallb_forall.
  intros H c Hc. apply H in Hc. apply N.ltb_lt in Hc.
  apply negb_true_iff, andb_false_iff. left. apply N.leb_gt. lia.
Qed.

Lemma encodable_lstrip (s : pystr) :
  encodable s = true -> encodable (Str.lstrip s) = true.
Proof.
  induction s as [|c s IH]; [reflexivity|]. intros H.
  cbn [Str.lstrip]. destruct (Str.isspace c); [|assumption].
  apply IH. simpl in H. now apply andb_prop in H as [_ H].
Qed.

Lemma encodable_strip (s : pystr) :
  encodable s = true -> encodable (Str.strip s) = true.
Proof.
  intros H. unfold Str.strip, Str.rstrip.
  apply encodable_lstrip in H.
  assert (Hrev : forall l, encodable l = true -> encodable (rev l) = true).
  { intros l Hl. unfold encodable in *. rewrite forallb_forall in *.
    intros c Hc. apply Hl. now apply in_rev. }
  apply Hrev, encodable_lstrip, Hrev, H.
Qed.

Lemma for_each_print (f : pystr * pystr -> line) items : forall s,
  Forall (fun item => line_encodable (f item) = true) items ->
  for_each items (fun item => print (f item)) s
  = (Ret tt, {| out := out s ++ map f items;
                openssl_runs := openssl_runs s;
                api_keys_generated_txt := api_keys_generated_txt s |}).
Proof.
  induction items as [|x items IH]; intros s Henc; simpl.
  - unfold ret. rewrite app_nil_r. now destruct s.
  - inversion Henc as [|? ? Hx Hitems]; subst.
    unfold bind, print. rewrite Hx. unfold modify.
    rewrite (IH _ Hitems). simpl.
    now rewrite <- app_assoc.
Qed.

Lemma for_each_f_write (f : pystr * pystr -> pystr) items : forall s c,
  Forall (fun item => encodable (f item) = true) items ->
  api_keys_generated_txt s = Some c ->
  for_each items (fun item => f_write (f item)) s
  = (Ret tt, {| out := out s;
                openssl_runs := openssl_runs s;
                api_keys_generated_txt :=
                  Some (c ++ List.concat (map f items)) |}).
Proof.
  induction items as [|x items IH]; intros s c Henc Hc; simpl.
  - unfold ret. destruct s; simpl in *. subst.
    now rewrite app_nil_r.
  - inversion Henc as [|? ? Hx Hitems]; subst.
    unfold bind, f_write. rewrite Hx. unfold modify. rewrite Hc.
    rewrite (IH _ (c ++ f x) Hitems) by reflexivity. simpl.
    now rewrite <- app_assoc.
Qed.

Lemma base64_string_of_ascii (json_string : pystr) (s : State) :
  is_ascii json_string = true ->
  base64_string_of json_string s
  = (Ret (Base64.b64encode json_string), s).
Proof.
  intros H. unfold base64_string_of.
  rewrite (utf8_encode_ascii _ H).
  rewrite utf8_decode_ascii; [reflexivity|].
  apply b64encode_ascii. now apply is_ascii_bytes.
Qed.

Lemma bind_print {B} (l : line) (k : unit -> M State B) (s : State) :
  line_encodable l = true ->
  bind (print l) k s
  = k tt {| out := out s ++ [l]; openssl_runs := openssl_runs s;
            api_keys_generated_txt := api_keys_generated_txt s |}.
Proof. intros H. unfold bind, print. rewrite H. reflexivity. Qed.

Lemma bind_f_write {B} (t : pystr) (k : unit -> M State B) (s : State) :
  encodable t = true ->
  bind (f_write t) k s
  = k tt {| out := out s; openssl_runs := openssl_runs s;
            api_keys_generated_txt :=
              Some (match api_keys_generated_txt s with
                    | Some c => c ++ t
                    | None => t
                    end) |}.
Proof. intros H. unfold bind, f_write. rewrite H. reflexivity. Qed.

Lemma bind_open_w {B} (k : unit -> M State B) (s : State) :
  bind open_w k s
  = k tt {| out := out s; openssl_runs := openssl_runs s;
            api_keys_generated_txt := Some [] |}.
Proof. reflexivity. Qed.

Lemma bind_run {A B} (m : M State A) (k : A -> M State B) s a s' :
  m s = (Ret a, s') -> bind m k s = k a s'.
Proof. intros E. unfold bind. now rewrite E. Qed.

Lemma nonempty_guard {A B S} (l : list A) (m : M S unit)
    (k : unit -> M S B) (s : S) :
  l <> [] ->
  bind (match l with [] => m | _ :: _ => ret tt end) k s = k tt s.
Proof. destruct l; [contradiction|reflexivity]. Qed.

Lemma cons_app_eq {A} (x : A) (l b r : list A) :
  l = b ++ r -> x :: l = (x :: b) ++ r.
Proof. intros ->. reflexivity. Qed.

Lemma nil_app_eq {A} (l r : list A) : l = r -> l = [] ++ r.
Proof. intros ->. reflexivity. Qed.

Ltac key_state := cbn [out openssl_runs api_keys_generated_txt].

Ltac prints :=
  repeat (rewrite bind_print by reflexivity; cbv beta; key_state).

(** The run of [main] on a document that lists services whose ids and keys
    can be encoded, when the JSON check succeeds. *)
Lemma main_run (services : list Service) (s : State) :
  services <> [] ->
  let api_keys := keys_after openssl_stdout (openssl_runs s) services [] in
  let json_string := json_string_of api_keys in
  let base64_string := Base64.b64encode json_string in
  Forall (fun service => encodable (id service) = true) services ->
  Forall (fun kv => encodable (fst kv) = true /\ encodable (snd kv) = true)
    api_keys ->
  JsonText.loads json_string = Some api_keys ->
  exists final before between after,
    main (Document (Some services)) openssl_stdout s = (Ret tt, final)
    /\ out final
       = out s
         ++ before
         ++ map (fun service =>
                   [Lit "✅ Generated key for: "; Val (JStr (id service))])
              services
         ++ between
         ++ map (fun item =>
                   [Val (JStr (fst item)); Lit ": "; Str (snd item)])
              api_keys
         ++ after
    /\ In [Str json_string] between
    /\ In [Str base64_string] between
    /\ openssl_runs final = (openssl_runs s + List.length services)%nat
    /\ api_keys_generated_txt final
       = Some (report api_keys json_string base64_string).
Proof.
  intros Hne api_keys json_string base64_string Hids Henc Hloads.
  assert (Hascii : is_ascii json_string = true)
    by apply dumps_compact_ascii.
  assert (Hj : encodable json_string = true)
    by now apply is_ascii_encodable.
  assert (Hb : encodable base64_string = true).
  { apply is_ascii_encodable, b64encode_ascii. now apply is_ascii_bytes. }
  unfold main, load_services_json.
  prints.
  erewrite bind_run; [|unfold try_except, ret; reflexivity].
  cbv beta zeta iota.
  rewrite nonempty_guard by exact Hne.
  prints.
  rewrite (bind_run _ _ _ _ _ (generate_keys_run _ _ _ _ Hids)).
  key_state.
  fold api_keys. fold json_string.
  prints.
  erewrite bind_run;
    [|unfold try_except; rewrite Hloads; unfold print, modify; reflexivity].
  key_state.
  prints.
  erewrite bind_run; [|apply base64_string_of_ascii; exact Hascii].
  fold base64_string.
  prints.
  erewrite bind_run;
    [|apply for_each_print; revert Henc; apply Forall_impl;
      intros kv [Hk _]; simpl; now rewrite Hk].
  key_state.
  prints.
  rewrite bind_open_w. key_state.
  repeat (rewrite bind_f_write
            by (rewrite ?encodable_app, ?Hj, ?Hb; reflexivity);
          key_state).
  erewrite bind_run;
    [|apply for_each_f_write;
      [revert Henc; apply Forall_impl; intros kv [Hk Hv];
       rewrite !encodable_app, Hk, Hv; reflexivity
      |reflexivity]].
  key_state.
  prints.
  unfold print, modify.
  cbn [line_encodable forallb piece_encodable andb]. key_state.
  clearbody api_keys json_string base64_string.
  rewrite <- !app_assoc. cbn [app].
  do 4 eexists. split; [reflexivity|].
  key_state.
  split; [|split; [|split; [|split]]].
  - f_equal.
    repeat apply cons_app_eq. apply nil_app_eq. f_equal.
    repeat apply cons_app_eq. apply nil_app_eq. reflexivity.
  - cbn [In]. repeat first [left; reflexivity | right].
  - cbn [In]. repeat first [left; reflexivity | right].
  - reflexivity.
  - unfold report. rewrite <- !app_assoc. reflexivity.
Qed.

(** The run of [main] on a document that lists a service whose id cannot
    be encoded: the exception raised by the [print] of that id escapes. *)
Lemma main_abort (good rest : list Service) (bad : Service) (s : State) :
  Forall (fun service => encodable (id service) = true) good ->
  encodable (id bad) = false ->
  main (Document (Some (good ++ bad :: rest))) openssl_stdout s
  = (Raise UnicodeEncodeError,
     {| out := out s
               ++ [[Lit "🔑 Generating API Keys for GitHub Secrets"];
                   [Lit (times "=" 50)]; [];
                   [Lit "Generating keys for services:"]]
               ++ map (fun service =>
                         [Lit "✅ Generated key for: ";
                          Val (JStr (id service))]) good;
        openssl_runs := S (openssl_runs s + List.length good)%nat;
        api_keys_generated_txt := api_keys_generated_txt s |}).
Proof.
  intros Hgood Hbad.
  unfold main, load_services_json.
  prints.
  erewrite bind_run; [|unfold try_except, ret; reflexivity].
  cbv beta zeta iota.
  rewrite nonempty_guard by (destruct good; discriminate).
  prints.
  unfold bind at 1.
  rewrite (generate_keys_abort _ _ _ _ _ _ Hgood Hbad).
  key_state. rewrite <- !app_assoc. reflexivity.
Qed.

Lemma keys_after_encodable n services :
  Forall (fun service => encodable (id service) = true) services ->
  (forall i, encodable (Str.strip (openssl_stdout i)) = true) ->
  Forall (fun kv => encodable (fst kv) = true /\ encodable (snd kv) = true)
    (keys_after openssl_stdout n services []).
Proof.
  intros Hids Hkeys. apply Forall_forall. intros [k v] Hin.
  apply keys_after_entries in Hin as [[]|(i & service & Hi & <- & ->)].
  split; [|apply Hkeys].
  rewrite Forall_forall in Hids. apply Hids.
  eapply nth_error_In; eassumption.
Qed.

Lemma keys_after_well_formed n services :
  Forall (fun service => well_formed (id service) = true) services ->
  (forall i, well_formed (openssl_stdout i) = true) ->
  Forall (fun kv => well_formed (fst kv) = true
                    /\ well_formed (snd kv) = true)
    (keys_after openssl_stdout n services []).
Proof.
  intros Hids Hkeys. apply Forall_forall. intros [k v] Hin.
  apply keys_after_entries in Hin as [[]|(i & service & Hi & <- & ->)].
  split; [|apply well_formed_strip, Hkeys].
  rewrite Forall_forall in Hids. apply Hids.
  eapply nth_error_In; eassumption.
Qed.

End KeyGenerationRun.

(** Against C7 as stated: [json.load] accepts a [services.json] whose one
    service id is the lone surrogate written [\ud800]; the run then stops
    at the first [print] of that id with [UnicodeEncodeError], before any
    JSON string is emitted. *)
Lemma lone_surrogate_id_aborts_generation :
  ~ (forall services openssl_stdout s,
       services <> [] ->
       Forall (fun service =>
                 well_formed (GenerateApiKeys.id service) = true) services ->
       (forall n, well_formed (openssl_stdout n) = true) ->
       exists api_keys json_string final,
         GenerateApiKeys.main (GenerateApiKeys.Document (Some services))
           openssl_stdout s = (Ret tt, final)
         /\ In [Str json_string] (GenerateApiKeys.out final)
         /\ JsonText.loads json_string = Some api_keys).
Proof.
  intros H.
  destruct (H [{| GenerateApiKeys.id := [55296%N] |}]
              (fun _ => py "q83vASNFZ4mrze8BI0VniavN7wEjRWeJq83vASNFZ4k="
                        ++ py nl)
              {| GenerateApiKeys.out := [];
                 GenerateApiKeys.openssl_runs := 0%nat;
                 GenerateApiKeys.api_keys_generated_txt := None |})
    as (api_keys & json_string & final & Hrun & _).
  - discriminate.
  - repeat constructor.
  - intros n. vm_compute. reflexivity.
  - rewrite (main_abort _ [] [] {| GenerateApiKeys.id := [55296%N] |})
      in Hrun by (constructor || reflexivity).
    discriminate Hrun.
Qed.

(** C7, as the code has it. For every [services.json] that lists a
    non-empty set of services whose ids can be encoded (they, and what
    [openssl] prints, being well-formed strings without a lone surrogate),
    the utility runs to its end and builds a mapping with exactly one entry
    per service id, whose value is a key generated for that id. The
    single-line JSON string it prints and saves parses back to exactly that
    mapping, and base64-decoding the Base64 alternative it prints and saves
    gives back exactly the JSON string. *)
Theorem generated_keys_round_trip
    (services : list GenerateApiKeys.Service)
    (openssl_stdout : nat -> pystr) (s : GenerateApiKeys.State)
    (Hne : services <> [])
    (Hids : Forall (fun service =>
                      well_formed (GenerateApiKeys.id service) = true)
              services)
    (Hkeys : forall n, well_formed (openssl_stdout n) = true)
    (Hprintable : Forall (fun service =>
                            encodable (GenerateApiKeys.id service) = true)
                    services)
    (Hwritable : forall n, encodable (openssl_stdout n) = true) :
  exists api_keys json_string base64_string final,
    GenerateApiKeys.main (GenerateApiKeys.Document (Some services))
      openssl_stdout s = (Ret tt, final)
    /\ NoDup (dict_keys api_keys)
    /\ (forall k, In k (dict_keys api_keys)
                  <-> In k (map GenerateApiKeys.id services))
    /\ (forall k v,
          In (k, v) api_keys ->
          exists i service,
            nth_error services i = Some service
            /\ GenerateApiKeys.id service = k
            /\ v = Str.strip
                     (openssl_stdout (GenerateApiKeys.openssl_runs s + i)%nat))
    /\ json_string = JsonText.dumps_compact api_keys
    /\ In [Str json_string] (GenerateApiKeys.out final)
    /\ In [Str base64_string] (GenerateApiKeys.out final)
    /\ GenerateApiKeys.api_keys_generated_txt final
       = Some (report api_keys json_string base64_string)
    /\ JsonText.loads json_string = Some api_keys
    /\ exists bytes,
         Base64.b64decode base64_string = Some bytes
         /\ Utf8.decode bytes = Some json_string.
Proof.
  set (api_keys := keys_after openssl_stdout
                     (GenerateApiKeys.openssl_runs s) services []).
  assert (Hnd : NoDup (dict_keys api_keys))
    by (apply keys_after_NoDup; constructor).
  assert (Hentries : forall k v, In (k, v) api_keys ->
            exists i service,
              nth_error services i = Some service
              /\ GenerateApiKeys.id service = k
              /\ v = Str.strip
                       (openssl_stdout (GenerateApiKeys.openssl_runs s + i)%nat)).
  { intros k v H. apply keys_after_entries in H as [[]|H]. exact H. }
  pose proof (keys_after_well_formed openssl_stdout
                (GenerateApiKeys.openssl_runs s) services Hids Hkeys) as Hwf.
  pose proof (keys_after_encodable openssl_stdout
                (GenerateApiKeys.openssl_runs s) services Hprintable
                (fun i => encodable_strip _ (Hwritable i))) as Henc.
  pose proof (loads_dumps_compact api_keys Hnd Hwf) as Hloads.
  destruct (main_run openssl_stdout services s Hne Hprintable Henc Hloads)
    as (final & before & between & after
        & Hrun & Hout & Hjson & Hb64 & _ & Hfile).
  pose proof (dumps_compact_ascii api_keys) as Hascii.
  exists api_keys, (JsonText.dumps_compact api_keys),
    (Base64.b64encode (JsonText.dumps_compact api_keys)), final.
  repeat match goal with |- _ /\ _ => split end; try assumption.
  - intros k. unfold api_keys. rewrite keys_after_keys. simpl. tauto.
  - reflexivity.
  - rewrite Hout. apply in_or_app; right. apply in_or_app; right.
    apply in_or_app; right. apply in_or_app; left. exact Hjson.
  - rewrite Hout. apply in_or_app; right. apply in_or_app; right.
    apply in_or_app; right. apply in_or_app; left. exact Hb64.
  - exists (JsonText.dumps_compact api_keys). split.
    + unfold Base64.b64decode.
      pose proof (b64encode_ascii _ (is_ascii_bytes _ Hascii)) as H.
      rewrite H. apply a2b_base64_b64encode. now apply is_ascii_bytes.
    + now apply utf8_decode_ascii.
Qed.

Lemma generated_keys_round_trip_witness :
  exists api_keys json_string base64_string final,
    GenerateApiKeys.main
      (GenerateApiKeys.Document
         (Some [{| GenerateApiKeys.id := py "service-1" |};
                {| GenerateApiKeys.id := py "service-2" |}]))
      (fun _ => py "q83vASNFZ4mrze8BI0VniavN7wEjRWeJq83vASNFZ4k=" ++ py nl)
      {| GenerateApiKeys.out := [];
         GenerateApiKeys.openssl_runs := 0%nat;
         GenerateApiKeys.api_keys_generated_txt := None |}
    = (Ret tt, final)
    /\ (forall k, In k (dict_keys api_keys)
                  <-> In k [py "service-1"; py "service-2"])
    /\ JsonText.loads json_string = Some api_keys
    /\ GenerateApiKeys.api_keys_generated_txt final
       = Some (report api_keys json_string base64_string)
    /\ exists bytes,
         Base64.b64decode base64_string = Some bytes
         /\ Utf8.decode bytes = Some json_string.
Proof.
  destruct (generated_keys_round_trip
              [{| GenerateApiKeys.id := py "service-1" |};
               {| GenerateApiKeys.id := py "service-2" |}]
              (fun _ => py "q83vASNFZ4mrze8BI0VniavN7wEjRWeJq83vASNFZ4k="
                        ++ py nl)
              {| GenerateApiKeys.out := [];
                 GenerateApiKeys.openssl_runs := 0%nat;
                 GenerateApiKeys.api_keys_generated_txt := None |})
    as (api_keys & json_string & base64_string & final
        & Hrun & Hnd & Hk & He & Hj & _ & _ & Hfile & Hloads & Hb).
  - discriminate.
  - repeat constructor.
  - intros n. vm_compute. reflexivity.
  - repeat constructor.
  - intros n. vm_compute. reflexivity.
  - exists api_keys, json_string, base64_string, final.
    repeat split; try assumption; apply Hk.
Defined.

(** C10. When [services.json] does not exist, or its services list is
    absent or empty, the utility exits with status 1; [openssl] has not
    been run and [.api_keys_generated.txt] is as it was. *)
Theorem no_services_exits_before_generating
    (doc : GenerateApiKeys.ServicesJson) (openssl_stdout : nat -> pystr)
    (s : GenerateApiKeys.State) (Hdoc : no_services doc) :
  fst (GenerateApiKeys.main doc openssl_stdout s) = Raise (SystemExit 1)
  /\ GenerateApiKeys.exit_status doc openssl_stdout s = 1
  /\ GenerateApiKeys.openssl_runs
       (snd (GenerateApiKeys.main doc openssl_stdout s))
     = GenerateApiKeys.openssl_runs s
  /\ GenerateApiKeys.api_keys_generated_txt
       (snd (GenerateApiKeys.main doc openssl_stdout s))
     = GenerateApiKeys.api_keys_generated_txt s.
Proof.
  unfold GenerateApiKeys.exit_status.
  destruct Hdoc as [->|[->| ->]]; repeat split.
Qed.

Lemma no_services_exits_before_generating_witness :
  GenerateApiKeys.exit_status GenerateApiKeys.Missing
    (fun _ => py "q83vASNFZ4mrze8BI0VniavN7wEjRWeJq83vASNFZ4k=")
    {| GenerateApiKeys.out := [];
       GenerateApiKeys.openssl_runs := 0%nat;
       GenerateApiKeys.api_keys_generated_txt := None |} = 1
  /\ GenerateApiKeys.exit_status (GenerateApiKeys.Document (Some []))
       (fun _ => py "q83vASNFZ4mrze8BI0VniavN7wEjRWeJq83vASNFZ4k=")
       {| GenerateApiKeys.out := [];
          GenerateApiKeys.openssl_runs := 0%nat;
          GenerateApiKeys.api_keys_generated_txt := None |} = 1.
Proof.
  split.
  - exact (proj1 (proj2 (no_services_exits_before_generating
                           GenerateApiKeys.Missing _ _ (or_introl eq_refl)))).
  - exact (proj1 (proj2 (no_services_exits_before_generating
                           (GenerateApiKeys.Document (Some [])) _ _
                           (or_intror (or_intror eq_refl))))).
Defined.

(* ================================================================= *)
(** ** Printing does not influence a client *)

Section OutBlind.

Lemma blind_ret {A} (a : A) : out_blind (@ret State A a).
Proof. intros s1 s2 H; split; [reflexivity|exact H]. Qed.

Lemma blind_raise {A} (e : exn) : out_blind (@raise State A e).
Proof. intros s1 s2 H; split; [reflexivity|exact H]. Qed.

Lemma blind_print (l : line) : out_blind (print l).
Proof.
  unfold print. destruct (line_encodable l);
    intros s1 s2 H; split; [reflexivity|exact H|reflexivity|exact H].
Qed.

Lemma blind_json (r : Response) : out_blind (json r).
Proof.
  unfold json; destruct (body r) as [j|[|]];
    auto using @blind_ret, @blind_raise.
Qed.

Lemma blind_get_method obj k d : out_blind (@get_method State obj k d).
Proof. destruct obj; simpl; auto using @blind_ret, @blind_raise. Qed.

Lemma blind_getitem obj k : out_blind (@getitem State obj k).
Proof.
  destruct obj; simpl; auto using @blind_raise.
  destruct (dict_get k o); auto using @blind_ret, @blind_raise.
Qed.

Lemma blind_iter obj : out_blind (@iter State obj).
Proof. destruct obj; simpl; auto using @blind_ret, @blind_raise. Qed.

Lemma blind_requests_post net rq : out_blind (requests_post net rq).
Proof.
  intros s1 s2 [Hs Hr]. unfold requests_post. rewrite Hs.
  destruct (net _); simpl; split; try reflexivity;
    split; simpl; congruence.
Qed.

Lemma blind_bind {A B} (m : M State A) (k : A -> M State B) :
  out_blind m -> (forall a, out_blind (k a)) -> out_blind (bind m k).
Proof.
  intros Hm Hk s1 s2 H. unfold bind.
  destruct (Hm s1 s2 H) as [Hr Hw].
  destruct (m s1) as [[a1|e1] t1], (m s2) as [[a2|e2] t2]; simpl in *;
    try discriminate.
  - injection Hr as <-. now apply Hk.
  - injection Hr as <-. split; [reflexivity|assumption].
Qed.

Lemma blind_try {A} (m : M State A) hs :
  out_blind m -> Forall (fun h => forall e, out_blind (snd h e)) hs ->
  out_blind (try_except m hs).
Proof.
  intros Hm Hh s1 s2 H. unfold try_except.
  destruct (Hm s1 s2 H) as [Hr Hw].
  destruct (m s1) as [[a1|e1] t1], (m s2) as [[a2|e2] t2]; simpl in *;
    try discriminate.
  - split; assumption.
  - injection Hr as <-.
    destruct (select_handler e1 hs) as [h|] eqn:E; [|split; auto].
    assert (Hin : forall e', out_blind (h e')).
    { revert E; induction Hh as [|[c h'] hs' H1 H2 IH]; simpl; [easy|].
      destruct (isinstance e1 c); [intros [= <-]; exact H1|exact IH]. }
    now apply Hin.
Qed.

Lemma blind_for_each {A} (l : list A) (f : A -> M State unit) :
  (forall x, out_blind (f x)) -> out_blind (for_each l f).
Proof.
  intros Hf; induction l as [|x l IH]; simpl.
  - apply blind_ret.
  - apply blind_bind; auto.
Qed.

Lemma blind_if {A} (b : bool) (m1 m2 : M State A) :
  out_blind m1 -> out_blind m2 -> out_blind (if b then m1 else m2).
Proof. destruct b; auto. Qed.

End OutBlind.

Ltac blind_step :=
  match goal with
  | |- out_blind (bind _ _) => apply blind_bind; [|intros ?]
  | |- out_blind (try_except _ _) =>
      apply blind_try;
      [|repeat (apply Forall_cons; [intros ?|]); try apply Forall_nil]
  | |- out_blind (if _ then _ else _) => apply blind_if
  | |- out_blind (for_each _ _) => apply blind_for_each; intros ?
  | |- out_blind _ =>
      first [ apply blind_ret | apply blind_raise | apply blind_print
            | apply blind_json | apply blind_get_method | apply blind_getitem
            | apply blind_iter | apply blind_requests_post ]
  end.

Ltac blind_auto := repeat (simpl; blind_step).

Lemma blind_send_heartbeat_single cfg net :
  out_blind (HeartbeatClient.send_heartbeat_single cfg net).
Proof. unfold HeartbeatClient.send_heartbeat_single. blind_auto. Qed.

Lemma blind_send_heartbeat_batch cfg net :
  out_blind (HeartbeatClient.send_heartbeat_batch cfg net).
Proof.
  unfold HeartbeatClient.send_heartbeat_batch.
  blind_auto;
    unfold HeartbeatClient.report_result, HeartbeatClient.report_partial_result;
    blind_auto.
Qed.

(** X1. Whatever the network does, a run of [main] of the heartbeat client
    posts exactly one request, to [WORKER_URL] with a timeout of 10 seconds
    and the body of the selected mode (it never retries), and returns what
    the selected sender returns. *)
Theorem heartbeat_main_posts_once
    (cfg : HeartbeatClient.Config) (net : Network) :
  (exists rq,
     sent (snd (HeartbeatClient.main cfg net initial)) = [rq]
     /\ url rq = HeartbeatClient.WORKER_URL cfg
     /\ timeout rq = 10
     /\ json_body rq
        = if HeartbeatClient.BATCH_MODE cfg
          then HeartbeatClient.batch_payload cfg
          else HeartbeatClient.single_payload cfg)
  /\ fst (HeartbeatClient.main cfg net initial)
     = fst ((if HeartbeatClient.BATCH_MODE cfg
             then HeartbeatClient.send_heartbeat_batch cfg net
             else HeartbeatClient.send_heartbeat_single cfg net) initial).
Proof.
  unfold HeartbeatClient.main.
  destruct (HeartbeatClient.BATCH_MODE cfg); split.
  - eexists. split.
    { match goal with
      | |- sent (snd (bind ?p ?k initial)) = _ =>
          change (bind p k initial) with (k tt (snd (p initial)))
      end.
      rewrite send_heartbeat_batch_posts. reflexivity. }
    repeat split.
  - unfold bind, print, modify. simpl.
    apply blind_send_heartbeat_batch. split; reflexivity.
  - eexists. split.
    { match goal with
      | |- sent (snd (bind ?p ?k initial)) = _ =>
          change (bind p k initial) with (k tt (snd (p initial)))
      end.
      rewrite send_heartbeat_single_posts. reflexivity. }
    repeat split.
  - unfold bind, print, modify. simpl.
    apply blind_send_heartbeat_single. split; reflexivity.
Qed.

(* ================================================================= *)
(** ** Exit status of the single-service senders, for every outcome *)



(* ================================================================= *)
(** ** examples/heartbeat-client.py *)



(* ================================================================= *)
(** ** Edge cases of the batch client's [results] handling *)

(** X4. The two branches of the batch client read [results] differently.
    On a body whose [message] can be encoded: after a 200, a [results] that
    is falsy (null, false, 0, empty) is skipped: the client prints no
    per-service line and returns 0. After a 207 the value is iterated
    without a test, so a [results] that is present but not iterable (null,
    a boolean, a number) raises [TypeError], which no handler catches. *)
Theorem batch_results_edge_cases
    (cfg : HeartbeatClient.Config) (net : Network) (r : Response)
    (o : list (pystr * JSON)) (v : JSON)
    (Hnet : net 0%nat = Responded r)
    (Hbody : body r = Parsed (JObj o))
    (Hmsg : encodable_value (member_or "message" JNull (JObj o)) = true)
    (Hres : dict_get (py "results") o = Some v) :
  let run := HeartbeatClient.send_heartbeat_batch cfg net initial in
  (status_code r = 200 -> truthy v = false ->
   fst run = Ret 0
   /\ out (snd run)
      = [HeartbeatClient.batch_announce cfg;
         [Lit "["; Now; Lit "] ✓ Batch heartbeat sent: ";
          Val (member_or "message" JNull (JObj o))]])
  /\ (status_code r = 207 -> iterable v = false ->
      fst run = Raise TypeError
      /\ HeartbeatClient.exit_status
           (HeartbeatClient.send_heartbeat_batch cfg net) = 1).
Proof.
  intros run. unfold run, HeartbeatClient.exit_status.
  rewrite send_heartbeat_batch_start. unfold member_or in *.
  split; intros Hst Hv; run_client; rewrite Hnet; simpl; rewrite Hst; simpl;
    rewrite Hbody; simpl; simpl in Hmsg; rewrite Hmsg; simpl;
    simpl in Hres; rewrite Hres; simpl.
  - rewrite Hv. simpl. split; reflexivity.
  - unfold iter, bind. destruct v; try discriminate Hv; split; reflexivity.
Qed.

Lemma batch_results_edge_cases_witness :
  let ok := {| status_code := 200; text := py "";
               body := Parsed (JObj [(py "message", JStr "ok");
                                     (py "results", JNull)]) |} in
  let partial := {| status_code := 207; text := py "";
                    body := Parsed (JObj [(py "message", JStr "partial");
                                          (py "results", JNull)]) |} in
  let cfg := HeartbeatClient.heartbeat_clients_config in
  fst (HeartbeatClient.send_heartbeat_batch cfg (fun _ => Responded ok)
         initial) = Ret 0
  /\ fst (HeartbeatClient.send_heartbeat_batch cfg
            (fun _ => Responded partial) initial) = Raise TypeError.
Proof.
  intros ok partial cfg. split.
  - exact (proj1 (proj1 (batch_results_edge_cases cfg
                           (fun _ => Responded ok) ok _ JNull
                           eq_refl eq_refl eq_refl eq_refl)
                    eq_refl eq_refl)).
  - exact (proj1 (proj2 (batch_results_edge_cases cfg
                           (fun _ => Responded partial) partial _ JNull
                           eq_refl eq_refl eq_refl eq_refl)
                    eq_refl eq_refl)).
Defined.

(** The loop stops at the first entry without [success]; the lines of the
    entries before it are printed. *)
Lemma for_each_stops_at_missing_success
    (f : JSON -> M State unit) (line_of : JSON -> line)
    (ok : JSON -> bool)
    (good : list JSON) (b : list (pystr * JSON)) (rest : list JSON) :
  (forall items s,
     forallb ok items = true ->
     for_each items f s = (Ret tt, with_out s (map line_of items))) ->
  (forall s, f (JObj b) s = (Raise KeyError, s)) ->
  forallb ok good = true ->
  forall s,
    for_each (good ++ JObj b :: rest) f s
    = (Raise KeyError, with_out s (map line_of good)).
Proof.
  intros Hgood Hbad. induction good as [|x good IH]; intros Hok s.
  - simpl. unfold bind. rewrite Hbad. unfold with_out. simpl.
    rewrite app_nil_r. now destruct s.
  - simpl in Hok. apply andb_prop in Hok as [Hx Hl].
    simpl. unfold bind.
    pose proof (Hgood [x] s) as H1. simpl in H1. unfold bind in H1.
    rewrite Hx in H1. specialize (H1 eq_refl).
    destruct (f x s) as [[[]|e] s1] eqn:E; simpl in H1.
    + injection H1 as ->. rewrite (IH Hl).
      unfold with_out. simpl. now rewrite <- app_assoc.
    + discriminate H1.
Qed.

Lemma report_partial_result_missing_success b s :
  dict_get (py "success") b = None ->
  HeartbeatClient.report_partial_result (JObj b) s = (Raise KeyError, s).
Proof.
  intros H. unfold HeartbeatClient.report_partial_result, getitem, bind.
  simpl in *. now rewrite H.
Qed.

Lemma report_result_missing_success b s :
  dict_get (py "success") b = None ->
  HeartbeatClient.report_result (JObj b) s = (Raise KeyError, s).
Proof.
  intros H. unfold HeartbeatClient.report_result, getitem, bind.
  simpl in *. now rewrite H.
Qed.

Lemma forallb_both {A} (p q : A -> bool) (l : list A) :
  forallb (fun x => p x && q x) l = true ->
  forallb p l = true /\ forallb q l = true.
Proof.
  induction l as [|x l IH]; simpl; [now split|].
  intros H. apply andb_prop in H as [Hx Hl].
  apply andb_prop in Hx as [Hp Hq]. destruct (IH Hl) as [H1 H2].
  now rewrite Hp, Hq, H1, H2.
Qed.

(** X5. Reporting is not all-or-nothing. When an entry of [results] is an
    object without [success], the batch client, after a 200 as after a 207,
    has already printed the lines of the entries before it when [KeyError]
    escapes; the process then ends with status 1 although the service
    answered 200 or 207. (The [message] and the strings of the entries
    before the malformed one are taken to be encodable, so that it is not
    [print] that stops the run.) *)
Theorem batch_malformed_entry
    (cfg : HeartbeatClient.Config) (net : Network) (r : Response)
    (o : list (pystr * JSON)) (good rest : list JSON)
    (b : list (pystr * JSON))
    (Hnet : net 0%nat = Responded r)
    (Hbody : body r = Parsed (JObj o))
    (Hres : dict_get (py "results") o = Some (JArr (good ++ JObj b :: rest)))
    (Hgood : forallb result_item_ok good = true)
    (Hmsg : encodable_value (member_or "message" JNull (JObj o)) = true)
    (Hprintable : forallb result_item_printable good = true)
    (Hbad : dict_get (py "success") b = None) :
  let run := HeartbeatClient.send_heartbeat_batch cfg net initial in
  (status_code r = 200 ->
   fst run = Raise KeyError
   /\ out (snd run)
      = [HeartbeatClient.batch_announce cfg;
         [Lit "["; Now; Lit "] ✓ Batch heartbeat sent: ";
          Val (member_or "message" JNull (JObj o))]]
        ++ map full_success_line good)
  /\ (status_code r = 207 ->
      fst run = Raise KeyError
      /\ out (snd run)
         = [HeartbeatClient.batch_announce cfg;
            [Lit "["; Now; Lit "] ⚠ Partial success: ";
             Val (member_or "message" JNull (JObj o))]]
           ++ map partial_success_line good)
  /\ (status_code r = 200 \/ status_code r = 207 ->
      HeartbeatClient.exit_status
        (HeartbeatClient.send_heartbeat_batch cfg net) = 1).
Proof.
  intros run.
  assert (Hboth : forallb (fun x => result_item_ok x
                                    && result_item_printable x) good = true).
  { clear - Hgood Hprintable. induction good as [|x good IH]; [reflexivity|].
    simpl in *. apply andb_prop in Hgood as [H1 H2].
    apply andb_prop in Hprintable as [H3 H4].
    now rewrite H1, H3, IH. }
  assert (H200 : status_code r = 200 ->
            run = (Raise KeyError,
                   {| sent := [{| url := HeartbeatClient.WORKER_URL cfg;
                                  headers := HeartbeatClient.batch_headers cfg;
                                  json_body := HeartbeatClient.batch_payload cfg;
                                  timeout := 10 |}];
                      out := [HeartbeatClient.batch_announce cfg;
                              [Lit "["; Now; Lit "] ✓ Batch heartbeat sent: ";
                               Val (member_or "message" JNull (JObj o))]]
                             ++ map full_success_line good;
                      response_var := None |})).
  { intros Hst. unfold run. rewrite send_heartbeat_batch_start.
    unfold member_or in *.
    run_client; rewrite Hnet; simpl; rewrite Hst; simpl;
      rewrite Hbody; simpl; simpl in Hmsg; rewrite Hmsg; simpl;
      simpl in Hres; rewrite Hres.
    assert (Ht : truthy (JArr (good ++ JObj b :: rest)) = true)
      by (destruct good; reflexivity).
    rewrite Ht. unfold getitem, iter, bind. simpl.
    rewrite (for_each_stops_at_missing_success _ full_success_line
               (fun x => result_item_ok x && result_item_printable x));
      [reflexivity
      |intros items s H; apply forallb_both in H as [H1 H2];
       now apply for_each_report_result
      |intros s; now apply report_result_missing_success|assumption]. }
  assert (H207 : status_code r = 207 ->
            run = (Raise KeyError,
                   {| sent := [{| url := HeartbeatClient.WORKER_URL cfg;
                                  headers := HeartbeatClient.batch_headers cfg;
                                  json_body := HeartbeatClient.batch_payload cfg;
                                  timeout := 10 |}];
                      out := [HeartbeatClient.batch_announce cfg;
                              [Lit "["; Now; Lit "] ⚠ Partial success: ";
                               Val (member_or "message" JNull (JObj o))]]
                             ++ map partial_success_line good;
                      response_var := None |})).
  { intros Hst. unfold run. rewrite send_heartbeat_batch_start.
    unfold member_or in *.
    run_client; rewrite Hnet; simpl; rewrite Hst; simpl;
      rewrite Hbody; simpl; simpl in Hmsg; rewrite Hmsg; simpl;
      simpl in Hres; rewrite Hres.
    unfold iter, bind. simpl.
    rewrite (for_each_stops_at_missing_success _ partial_success_line
               (fun x => result_item_ok x && result_item_printable x));
      [reflexivity
      |intros items s H; apply forallb_both in H as [H1 H2];
       now apply for_each_report_partial_result
      |intros s; now apply report_partial_result_missing_success
      |assumption]. }
  split; [|split].
  - intros Hst. rewrite (H200 Hst). split; reflexivity.
  - intros Hst. rewrite (H207 Hst). split; reflexivity.
  - unfold HeartbeatClient.exit_status. fold run.
    intros [Hst|Hst]; [rewrite (H200 Hst)|rewrite (H207 Hst)]; reflexivity.
Qed.

Lemma batch_malformed_entry_witness :
  let r := {| status_code := 207; text := py "";
              body := Parsed
                (JObj [(py "message", JStr "partial");
                       (py "results",
                        JArr [JObj [(py "serviceId", JStr "service-1");
                                    (py "success", JBool true)];
                              JObj [(py "serviceId", JStr "service-2")]])])
           |} in
  let run := HeartbeatClient.send_heartbeat_batch
               HeartbeatClient.heartbeat_clients_config
               (fun _ => Responded r) initial in
  fst run = Raise KeyError
  /\ out (snd run)
     = [[Lit "Using shared API key for "; Num 3; Lit " services..."];
        [Lit "["; Now; Lit "] ⚠ Partial success: "; Val (JStr "partial")];
        [Lit "  ✓ "; Val (JStr "service-1")]].
Proof.
  intros r run.
  exact (proj1 (proj2 (batch_malformed_entry
                         HeartbeatClient.heartbeat_clients_config
                         (fun _ => Responded r) r _
                         [JObj [(py "serviceId", JStr "service-1");
                                (py "success", JBool true)]]
                         [] [(py "serviceId", JStr "service-2")]
                         eq_refl eq_refl eq_refl eq_refl eq_refl eq_refl
                         eq_refl))
           eq_refl).
Defined.

(* ================================================================= *)
(** ** What the alert test harness reports *)









(* ================================================================= *)
(** ** The notification test client, for every outcome *)

(** Unpacks statements about the outcome of the post. *)
Ltac outcome_facts :=
  intros;
  repeat match goal with
         | H : exists _, _ |- _ => destruct H
         | H : _ /\ _ |- _ => destruct H
         | H : _ \/ _ |- _ => destruct H
         | H : Responded _ = Responded _ |- _ => injection H as <-
         | H : NetFail _ = NetFail _ |- _ => injection H as <-
         | H : NetFail _ = Responded _ |- _ => discriminate H
         | H : Responded _ = NetFail _ |- _ => discriminate H
         | H : @Raise _ _ = Ret _ |- _ => discriminate H
         | H : @Ret _ _ = Raise _ |- _ => discriminate H
         | H1 : body ?r = _, H2 : body ?r = _ |- _ =>
             rewrite H1 in H2; try discriminate H2; injection H2 as <-
         end;
  try congruence.



Ltac not_in_lines :=
  let H := fresh in
  intros H; exfalso; simpl in H;
  repeat match goal with
         | H : _ \/ _ |- _ => destruct H
         | H : False |- _ => destruct H
         | H : _ = _ |- _ => discriminate H
         end.

(** Closes one direction of a statement on what was printed. *)
Ltac diagnosis :=
  first
    [ solve [not_in_lines]
    | solve [outcome_facts]
    | intros _;
      first
        [ reflexivity
        | now left
        | right; now left
        | right; right; eexists; split; [reflexivity|eassumption]
        | eexists; split; [reflexivity|eassumption]
        | do 6 right; left; reflexivity ] ].

(** X9. Which diagnosis the notification test client prints. [Request timed
    out] appears exactly after a timeout. [Invalid JSON response] appears
    exactly when the body fails to decode with the plain
    [json.JSONDecodeError]; a decode error that derives from
    [RequestException] (requests 2.27 and later) is taken by the handler
    before it and reported as [Connection error], like every transport
    error other than a timeout. *)
Theorem test_notification_diagnosis
    (cfg : TestNotification.Config) (net : Network) :
  let printed :=
    out (snd (TestNotification.test_notification cfg net initial)) in
  let RED := TestNotification.RED in
  let NC := TestNotification.NC in
  (In [Lit RED; Lit "❌ Request timed out"; Lit NC] printed
   <-> net 0%nat = NetFail NetTimeout)
  /\ (In [Lit RED; Lit "❌ Connection error"; Lit NC] printed
      <-> net 0%nat = NetFail NetConnectionError
          \/ net 0%nat = NetFail NetOther
          \/ exists r, net 0%nat = Responded r /\ body r = Undecodable true)
  /\ (In [Lit RED; Lit "❌ Invalid JSON response"; Lit NC] printed
      <-> exists r, net 0%nat = Responded r /\ body r = Undecodable false).
Proof.
  intros printed RED NC. unfold printed, RED, NC.
  unfold TestNotification.test_notification, call. run_client.
  unfold assign_response, read_response, modify; simpl.
  destruct (net 0%nat) as [[| |]|r] eqn:En; simpl.
  - split; [|split]; split; diagnosis.
  - split; [|split]; split; diagnosis.
  - split; [|split]; split; diagnosis.
  - destruct (body r) as [j|[|]] eqn:Eb; simpl.
    + destruct (status_code r =? 200); simpl;
        destruct j as [| | | | | |o]; simpl;
        repeat match goal with
               | |- context [dict_get ?k o] =>
                   destruct (dict_get k o) as [?v|]; simpl
               | |- context [truthy ?v] => destruct (truthy v); simpl
               | |- context [encodable_value ?m] =>
                   destruct (encodable_value m); simpl
               end;
        (split; [|split]); split; diagnosis.
    + split; [|split]; split; diagnosis.
    + split; [|split]; split; diagnosis.
Qed.

(* ================================================================= *)
(** ** More on the key-generation utility *)

(** X10. Only a missing [services.json] is handled. When the file exists
    but is not valid JSON, [json.load] raises [JSONDecodeError] out of
    [main]: the process ends with status 1 by a traceback, having printed
    the banner only (neither of the two error messages), run [openssl] not
    once, and left [.api_keys_generated.txt] as it was. *)
Theorem unparsable_services_json_escapes
    (openssl_stdout : nat -> pystr) (s : GenerateApiKeys.State) :
  let run := GenerateApiKeys.main GenerateApiKeys.Unparsable
               openssl_stdout s in
  fst run = Raise JSONDecodeError
  /\ GenerateApiKeys.exit_status GenerateApiKeys.Unparsable
       openssl_stdout s = 1
  /\ GenerateApiKeys.out (snd run)
     = GenerateApiKeys.out s
       ++ [[Lit "🔑 Generating API Keys for GitHub Secrets"];
           [Lit (times "=" 50)]; []]
  /\ GenerateApiKeys.openssl_runs (snd run)
     = GenerateApiKeys.openssl_runs s
  /\ GenerateApiKeys.api_keys_generated_txt (snd run)
     = GenerateApiKeys.api_keys_generated_txt s.
Proof.
  unfold GenerateApiKeys.exit_status, GenerateApiKeys.main.
  cbn -[times]. rewrite <- !app_assoc. repeat split.
Qed.

Lemma dict_get_set_same {V} (k : pystr) (v : V) (d : list (pystr * V)) :
  dict_get k (dict_set k v d) = Some v.
Proof.
  induction d as [|[k0 v0] d IH]; simpl.
  - now rewrite str_eqb_refl.
  - destruct (str_eqb k k0) eqn:E; simpl; rewrite E; [reflexivity|exact IH].
Qed.

Lemma dict_get_set_other {V} (k k' : pystr) (v : V) (d : list (pystr * V)) :
  k' <> k -> dict_get k' (dict_set k v d) = dict_get k' d.
Proof.
  intros Hne. induction d as [|[k0 v0] d IH]; simpl.
  - apply str_eqb_neq in Hne. now rewrite Hne.
  - destruct (str_eqb k k0) eqn:E; simpl.
    + apply str_eqb_eq in E. subst k0.
      apply str_eqb_neq in Hne. now rewrite Hne.
    + destruct (str_eqb k' k0); [reflexivity|exact IH].
Qed.

Lemma keys_after_get_other openssl_stdout services : forall n api_keys k,
  ~ In k (map GenerateApiKeys.id services) ->
  dict_get k (keys_after openssl_stdout n services api_keys)
  = dict_get k api_keys.
Proof.
  induction services as [|sv rest IH]; intros n api_keys k Hk; simpl;
    [reflexivity|].
  rewrite IH by (intros H; apply Hk; now right).
  apply dict_get_set_other. intros ->. apply Hk. now left.
Qed.

Lemma keys_after_get_last openssl_stdout services :
  forall n api_keys i service,
    nth_error services i = Some service ->
    (forall j service',
       (i < j)%nat -> nth_error services j = Some service' ->
       GenerateApiKeys.id service' <> GenerateApiKeys.id service) ->
    dict_get (GenerateApiKeys.id service)
      (keys_after openssl_stdout n services api_keys)
    = Some (Str.strip (openssl_stdout (n + i)%nat)).
Proof.
  induction services as [|sv rest IH]; intros n api_keys i service Hi Hlast.
  - destruct i; discriminate Hi.
  - destruct i as [|i]; simpl in Hi.
    + injection Hi as ->. simpl.
      rewrite keys_after_get_other.
      * rewrite Nat.add_0_r. apply dict_get_set_same.
      * intros Hin. apply in_map_iff in Hin as (sv' & Hid & Hin).
        apply In_nth_error in Hin as [j Hj].
        apply (Hlast (S j) sv'); [lia|exact Hj|exact Hid].
    + simpl. rewrite (IH (S n) _ i service Hi).
      * f_equal. f_equal. f_equal. lia.
      * intros j sv' Hij Hj. apply (Hlast (S j) sv'); [lia|exact Hj].
Qed.

(** X11. When the ids of the listed services can be encoded, one
    [openssl] run is made per listed service, in order, also for an id
    listed more than once; the mapping then holds, for each id, the key
    generated at the last place the id is listed. *)
Theorem duplicate_id_keeps_last_key
    (openssl_stdout : nat -> pystr)
    (services : list GenerateApiKeys.Service)
    (i : nat) (service : GenerateApiKeys.Service)
    (s : GenerateApiKeys.State)
    (Hprintable : Forall (fun service =>
                            encodable (GenerateApiKeys.id service) = true)
                    services)
    (Hi : nth_error services i = Some service)
    (Hlast : forall j service',
        (i < j)%nat -> nth_error services j = Some service' ->
        GenerateApiKeys.id service' <> GenerateApiKeys.id service) :
  exists api_keys final,
    GenerateApiKeys.generate_keys openssl_stdout services [] s
    = (Ret api_keys, final)
    /\ dict_get (GenerateApiKeys.id service) api_keys
       = Some (Str.strip
                 (openssl_stdout (GenerateApiKeys.openssl_runs s + i)%nat))
    /\ GenerateApiKeys.openssl_runs final
       = (GenerateApiKeys.openssl_runs s + List.length services)%nat.
Proof.
  rewrite (generate_keys_run openssl_stdout services [] s Hprintable).
  do 2 eexists. split; [reflexivity|]. split; [|reflexivity].
  now apply keys_after_get_last.
Qed.

Lemma duplicate_id_keeps_last_key_witness :
  let openssl := fun n : nat =>
    match n with
    | O => py "first" ++ py nl
    | _ => py "second" ++ py nl
    end in
  exists api_keys final,
    GenerateApiKeys.generate_keys openssl
      [{| GenerateApiKeys.id := py "service-1" |};
       {| GenerateApiKeys.id := py "service-1" |}] []
      {| GenerateApiKeys.out := [];
         GenerateApiKeys.openssl_runs := 0%nat;
         GenerateApiKeys.api_keys_generated_txt := None |}
    = (Ret api_keys, final)
    /\ dict_get (py "service-1") api_keys = Some (py "second")
    /\ GenerateApiKeys.openssl_runs final = 2%nat.
Proof.
  intros openssl.
  refine (duplicate_id_keeps_last_key openssl
            [{| GenerateApiKeys.id := py "service-1" |};
             {| GenerateApiKeys.id := py "service-1" |}]
            1%nat {| GenerateApiKeys.id := py "service-1" |}
            {| GenerateApiKeys.out := [];
               GenerateApiKeys.openssl_runs := 0%nat;
               GenerateApiKeys.api_keys_generated_txt := None |}
            _ eq_refl _).
  - repeat constructor.
  - intros [|[|[|j]]] service' Hj Hn; try lia; discriminate Hn.
Defined.


(** *** What [strip] removes *)

Lemma lstrip_spec (s : pystr) :
  exists a, s = a ++ Str.lstrip s
            /\ forallb Str.isspace a = true
            /\ match Str.lstrip s with
               | c :: _ => Str.isspace c = false
               | [] => True
               end.
Proof.
  induction s as [|c s (a & Hs & Ha & Hh)].
  - exists []. repeat split.
  - cbn [Str.lstrip]. destruct (Str.isspace c) eqn:E.
    + exists (c :: a). simpl. rewrite E, Ha. repeat split; [|exact Hh].
      now rewrite <- Hs.
    + exists []. repeat split. exact E.
Qed.

Lemma lstrip_all_space (s : pystr) :
  forallb Str.isspace s = true -> Str.lstrip s = [].
Proof.
  induction s as [|c s IH]; [reflexivity|]. simpl.
  intros H. apply andb_prop in H as [Hc Hs]. rewrite Hc. now apply IH.
Qed.

Lemma strip_all_space (s : pystr) :
  forallb Str.isspace s = true -> Str.strip s = [].
Proof.
  intros H. unfold Str.strip, Str.rstrip.
  now rewrite (lstrip_all_space s H).
Qed.

(** X12. A generated key is what [openssl] printed without the white space
    around it: the output is white space, the key, white space, and the key
    neither starts nor ends with a white-space character (so the newline
    [openssl] ends its output with is never part of a key). Each call runs
    [openssl] once. *)
Theorem generated_key_is_stripped
    (openssl_stdout : nat -> pystr) (s : GenerateApiKeys.State) :
  exists key a b,
    GenerateApiKeys.generate_key openssl_stdout s
    = (Ret key,
       {| GenerateApiKeys.out := GenerateApiKeys.out s;
          GenerateApiKeys.openssl_runs := S (GenerateApiKeys.openssl_runs s);
          GenerateApiKeys.api_keys_generated_txt :=
            GenerateApiKeys.api_keys_generated_txt s |})
    /\ openssl_stdout (GenerateApiKeys.openssl_runs s) = a ++ key ++ b
    /\ forallb Str.isspace a = true
    /\ forallb Str.isspace b = true
    /\ (forall c r, key = c :: r -> Str.isspace c = false)
    /\ (forall r c, key = r ++ [c] -> Str.isspace c = false).
Proof.
  set (raw := openssl_stdout (GenerateApiKeys.openssl_runs s)).
  destruct (lstrip_spec raw) as (a & Ha & Hsa & Hhead).
  destruct (lstrip_spec (rev (Str.lstrip raw))) as (b & Hb & Hsb & Hlast).
  exists (Str.strip raw), a, (rev b).
  split; [reflexivity|].
  assert (Hl : Str.lstrip raw = Str.strip raw ++ rev b).
  { unfold Str.strip, Str.rstrip.
    rewrite <- rev_app_distr, <- Hb. now rewrite rev_involutive. }
  split; [now rewrite <- Hl|].
  split; [exact Hsa|].
  split.
  { rewrite forallb_forall in *. intros x Hx. apply Hsb.
    now apply in_rev. }
  split.
  - intros c r Hk. rewrite Hk in Hl. rewrite Hl in Hhead. exact Hhead.
  - intros r c Hk. unfold Str.strip, Str.rstrip in Hk.
    apply (f_equal (@rev N)) in Hk.
    rewrite rev_involutive, rev_app_distr in Hk. simpl in Hk.
    rewrite Hk in Hlast. exact Hlast.
Qed.

(** X13. A failing [openssl] goes unnoticed. When [openssl] prints nothing
    but white space (nothing at all when it fails: its exit code is not
    looked at), the utility, run on services whose ids can be encoded,
    still runs to its end, maps every service id to the empty key, and
    saves that mapping. *)
Theorem silent_openssl_failure
    (services : list GenerateApiKeys.Service)
    (openssl_stdout : nat -> pystr) (s : GenerateApiKeys.State)
    (Hne : services <> [])
    (Hids : Forall (fun service =>
                      well_formed (GenerateApiKeys.id service) = true)
              services)
    (Hprintable : Forall (fun service =>
                            encodable (GenerateApiKeys.id service) = true)
                    services)
    (Hblank : forall n, forallb Str.isspace (openssl_stdout n) = true) :
  exists api_keys final,
    GenerateApiKeys.main (GenerateApiKeys.Document (Some services))
      openssl_stdout s = (Ret tt, final)
    /\ (forall k, In k (dict_keys api_keys)
                  <-> In k (map GenerateApiKeys.id services))
    /\ (forall k v : pystr, In (k, v) api_keys -> v = [])
    /\ GenerateApiKeys.api_keys_generated_txt final
       = Some (report api_keys (GenerateApiKeys.json_string_of api_keys)
                 (Base64.b64encode
                    (GenerateApiKeys.json_string_of api_keys))).
Proof.
  set (api_keys := keys_after openssl_stdout
                     (GenerateApiKeys.openssl_runs s) services []).
  assert (Hentries : forall k v, In (k, v) api_keys ->
            v = [] /\ In k (map GenerateApiKeys.id services)).
  { intros k v H.
    apply keys_after_entries in H as [[]|(i & sv & Hi & <- & ->)].
    split; [apply strip_all_space, Hblank|].
    apply in_map. eapply nth_error_In; eassumption. }
  assert (Hwf : Forall (fun kv => well_formed (fst kv) = true
                                  /\ well_formed (snd kv) = true) api_keys).
  { apply Forall_forall. intros [k v] Hin.
    destruct (Hentries k v Hin) as [-> Hk]. split; [|reflexivity].
    apply in_map_iff in Hk as (sv & <- & Hsv).
    rewrite Forall_forall in Hids. now apply Hids. }
  assert (Hnd : NoDup (dict_keys api_keys))
    by (apply keys_after_NoDup; constructor).
  pose proof (loads_dumps_compact api_keys Hnd Hwf) as Hloads.
  assert (Henc : Forall (fun kv => encodable (fst kv) = true
                                   /\ encodable (snd kv) = true) api_keys).
  { apply Forall_forall. intros [k v] Hin.
    destruct (Hentries k v Hin) as [-> Hk]. split; [|reflexivity].
    apply in_map_iff in Hk as (sv & <- & Hsv).
    rewrite Forall_forall in Hprintable. now apply Hprintable. }
  destruct (main_run openssl_stdout services s Hne Hprintable Henc Hloads)
    as (final & before & between & after & Hrun & _ & _ & _ & _ & Hfile).
  exists api_keys, final. repeat split; try assumption.
  - intros H. apply (keys_after_keys openssl_stdout) in H as [[]|H]. exact H.
  - intros H. apply keys_after_keys. now right.
  - intros k v H. now destruct (Hentries k v H).
Qed.

Lemma silent_openssl_failure_witness :
  exists api_keys final,
    GenerateApiKeys.main
      (GenerateApiKeys.Document
         (Some [{| GenerateApiKeys.id := py "service-1" |}]))
      (fun _ => [])
      {| GenerateApiKeys.out := [];
         GenerateApiKeys.openssl_runs := 0%nat;
         GenerateApiKeys.api_keys_generated_txt := None |}
    = (Ret tt, final)
    /\ (forall k v : pystr, In (k, v) api_keys -> v = []).
Proof.
  destruct (silent_openssl_failure
              [{| GenerateApiKeys.id := py "service-1" |}]
              (fun _ => [])
              {| GenerateApiKeys.out := [];
                 GenerateApiKeys.openssl_runs := 0%nat;
                 GenerateApiKeys.api_keys_generated_txt := None |})
    as (api_keys & final & Hrun & _ & Hv & _).
  - discriminate.
  - repeat constructor.
  - repeat constructor.
  - intros n. reflexivity.
  - now exists api_keys, final.
Defined.

(** *** The emitted JSON string *)

Lemma hex_digit_printable (d : N) :
  is_printable (JsonText.hex_digit (d mod 16)) = true
  /\ (32 =? JsonText.hex_digit (d mod 16))%N = false.
Proof.
  unfold JsonText.hex_digit, is_printable.
  pose proof (N.mod_lt d 16 ltac:(discriminate)) as H.
  destruct (N.ltb_spec (d mod 16) 10); split;
    try (apply andb_true_intro; split; apply N.leb_le; lia);
    apply N.eqb_neq; lia.
Qed.

Lemma u_escape_printable (n : N) :
  forallb is_printable (JsonText.u_escape n) = true
  /\ has_space (JsonText.u_escape n) = false.
Proof.
  unfold JsonText.u_escape, JsonText.hex4, has_space.
  cbn [forallb existsb].
  destruct (hex_digit_printable (n / 4096)) as [-> ->].
  destruct (hex_digit_printable (n / 256)) as [-> ->].
  destruct (hex_digit_printable (n / 16)) as [-> ->].
  destruct (hex_digit_printable n) as [-> ->].
  split; reflexivity.
Qed.

Lemma escape_char_printable (c : N) :
  forallb is_printable (JsonText.escape_char c) = true
  /\ has_space (JsonText.escape_char c) = (32 =? c)%N.
Proof.
  unfold JsonText.escape_char.
  repeat match goal with
  | |- context [if (?a =? ?b)%N then _ else _] =>
      destruct (N.eqb_spec a b) as [->|?]; [split; reflexivity|]
  end.
  destruct ((32 <=? c) && (c <=? 126))%N eqn:Hp.
  { unfold is_printable, has_space. simpl. rewrite Hp.
    split; [reflexivity|apply orb_false_r]. }
  assert (Hc : (32 =? c)%N = false).
  { apply N.eqb_neq. intros <-. discriminate Hp. }
  rewrite Hc.
  destruct (c <? 65536)%N; [apply u_escape_printable|].
  cbv zeta. unfold has_space. rewrite forallb_app, existsb_app.
  fold (has_space (JsonText.u_escape
          (N.lor 55296 (N.land (N.shiftr (c - 65536) 10) 1023)))).
  fold (has_space (JsonText.u_escape
          (N.lor 56320 (N.land (c - 65536) 1023)))).
  destruct (u_escape_printable
              (N.lor 55296 (N.land (N.shiftr (c - 65536) 10) 1023)))
    as [-> ->].
  destruct (u_escape_printable (N.lor 56320 (N.land (c - 65536) 1023)))
    as [-> ->].
  split; reflexivity.
Qed.

Lemma encode_basestring_printable (s : pystr) :
  forallb is_printable (JsonText.encode_basestring_ascii s) = true
  /\ has_space (JsonText.encode_basestring_ascii s) = has_space s.
Proof.
  unfold JsonText.encode_basestring_ascii, has_space.
  change (34%N :: flat_map JsonText.escape_char s ++ [34%N])
    with ([34%N] ++ flat_map JsonText.escape_char s ++ [34%N]).
  rewrite !forallb_app, !existsb_app. simpl.
  rewrite andb_true_r, !orb_false_r.
  induction s as [|c s [IH1 IH2]]; [split; reflexivity|].
  simpl flat_map. rewrite forallb_app, existsb_app.
  destruct (escape_char_printable c) as [H1 H2].
  unfold has_space in H2. rewrite H1, H2, IH1, IH2. split; reflexivity.
Qed.

Lemma dumps_item_printable (kv : pystr * pystr) :
  forallb is_printable (JsonText.dumps_item kv) = true
  /\ has_space (JsonText.dumps_item kv)
     = has_space (fst kv) || has_space (snd kv).
Proof.
  unfold JsonText.dumps_item, has_space.
  change (JsonText.encode_basestring_ascii (fst kv)
          ++ 58%N :: JsonText.encode_basestring_ascii (snd kv))
    with (JsonText.encode_basestring_ascii (fst kv)
          ++ [58%N] ++ JsonText.encode_basestring_ascii (snd kv)).
  rewrite !forallb_app, !existsb_app.
  destruct (encode_basestring_printable (fst kv)) as [H1 H2].
  destruct (encode_basestring_printable (snd kv)) as [H3 H4].
  unfold has_space in *. rewrite H1, H2, H3, H4. split; reflexivity.
Qed.

(** X14. The JSON string the utility emits is a single line of printable
    ASCII for every mapping: each of its characters lies between the space
    and the tilde, so it has no newline, no control character and nothing
    outside ASCII. It contains a space exactly when a service id or a key
    does. *)
Theorem json_string_single_line (api_keys : list (pystr * pystr)) :
  forallb is_printable (GenerateApiKeys.json_string_of api_keys) = true
  /\ has_space (GenerateApiKeys.json_string_of api_keys)
     = existsb (fun kv => has_space (fst kv) || has_space (snd kv)) api_keys.
Proof.
  unfold GenerateApiKeys.json_string_of, JsonText.dumps_compact.
  change (123%N :: JsonText.join [44%N] (map JsonText.dumps_item api_keys)
                   ++ [125%N])
    with ([123%N] ++ JsonText.join [44%N] (map JsonText.dumps_item api_keys)
          ++ [125%N]).
  unfold has_space at 1. rewrite !forallb_app, !existsb_app. simpl.
  rewrite andb_true_r, orb_false_r.
  induction api_keys as [|kv d [IH1 IH2]]; [split; reflexivity|].
  destruct (dumps_item_printable kv) as [H1 H2]. unfold has_space in H2.
  destruct d as [|kv' d'].
  - simpl. rewrite orb_false_r. split; assumption.
  - change (JsonText.join [44%N] (map JsonText.dumps_item (kv :: kv' :: d')))
      with (JsonText.dumps_item kv ++ [44%N]
            ++ JsonText.join [44%N] (map JsonText.dumps_item (kv' :: d'))).
    rewrite !forallb_app, !existsb_app, H1, H2, IH1, IH2.
    split; reflexivity.
Qed.

(* ================================================================= *)
(** ** What the heartbeat requests depend on *)

(** X15. Whatever the network does, the single-service heartbeat client
    posts one request, to [WORKER_URL] with a timeout of 10 seconds, whose
    body is [{"serviceId": SERVICE_ID}] and whose headers are exactly
    [Content-Type: application/json] and [Authorization: Bearer <API_KEY>]:
    the key travels in the header only. *)
Theorem single_request_shape
    (cfg : HeartbeatClient.Config) (net : Network) (s : State) :
  exists rq,
    sent (snd (HeartbeatClient.send_heartbeat_single cfg net s))
      = sent s ++ [rq]
    /\ url rq = HeartbeatClient.WORKER_URL cfg
    /\ timeout rq = 10
    /\ json_body rq
       = JObj [(py "serviceId", JStr (HeartbeatClient.SERVICE_ID cfg))]
    /\ headers rq
       = [(py "Content-Type", py "application/json");
          (py "Authorization",
           py "Bearer " ++ HeartbeatClient.API_KEY cfg)].
Proof.
  eexists. split; [apply send_heartbeat_single_posts|]. repeat split.
Qed.

(** X16. What the batch request does not depend on. In per-service-key
    mode the shared [API_KEY] and [SERVICE_IDS] have no influence on the
    request posted; in shared-key mode [SERVICES_WITH_KEYS] has none, so no
    per-service token is sent. In both modes [SERVICE_ID] has none. *)
Theorem batch_request_independence
    (cfg : HeartbeatClient.Config) (net : Network) (s : State)
    (service_id api_key : pystr) (service_ids : list pystr)
    (services_with_keys : list HeartbeatClient.ServiceWithKey) :
  (HeartbeatClient.BATCH_SHARED_KEY cfg = false ->
   sent (snd (HeartbeatClient.send_heartbeat_batch
                {| HeartbeatClient.WORKER_URL := HeartbeatClient.WORKER_URL cfg;
                   HeartbeatClient.SERVICE_ID := service_id;
                   HeartbeatClient.API_KEY := api_key;
                   HeartbeatClient.BATCH_MODE := HeartbeatClient.BATCH_MODE cfg;
                   HeartbeatClient.BATCH_SHARED_KEY := false;
                   HeartbeatClient.SERVICE_IDS := service_ids;
                   HeartbeatClient.SERVICES_WITH_KEYS :=
                     HeartbeatClient.SERVICES_WITH_KEYS cfg |} net s))
   = sent (snd (HeartbeatClient.send_heartbeat_batch cfg net s)))
  /\
  (HeartbeatClient.BATCH_SHARED_KEY cfg = true ->
   sent (snd (HeartbeatClient.send_heartbeat_batch
                {| HeartbeatClient.WORKER_URL := HeartbeatClient.WORKER_URL cfg;
                   HeartbeatClient.SERVICE_ID := service_id;
                   HeartbeatClient.API_KEY := HeartbeatClient.API_KEY cfg;
                   HeartbeatClient.BATCH_MODE := HeartbeatClient.BATCH_MODE cfg;
                   HeartbeatClient.BATCH_SHARED_KEY := true;
                   HeartbeatClient.SERVICE_IDS :=
                     HeartbeatClient.SERVICE_IDS cfg;
                   HeartbeatClient.SERVICES_WITH_KEYS := services_with_keys |}
                net s))
   = sent (snd (HeartbeatClient.send_heartbeat_batch cfg net s))).
Proof.
  split; intros Hmode; rewrite !send_heartbeat_batch_posts;
    unfold HeartbeatClient.batch_headers, HeartbeatClient.batch_payload;
    simpl; rewrite Hmode; reflexivity.
Qed.

Lemma batch_request_independence_witness :
  let cfg := {| HeartbeatClient.WORKER_URL := "http://worker.url/here";
                HeartbeatClient.SERVICE_ID := "service-1";
                HeartbeatClient.API_KEY := "your-secret-key-1";
                HeartbeatClient.BATCH_MODE := true;
                HeartbeatClient.BATCH_SHARED_KEY := false;
                HeartbeatClient.SERVICE_IDS := [];
                HeartbeatClient.SERVICES_WITH_KEYS :=
                  HeartbeatClient.default_services_with_keys |} in
  sent (snd (HeartbeatClient.send_heartbeat_batch
               {| HeartbeatClient.WORKER_URL := "http://worker.url/here";
                  HeartbeatClient.SERVICE_ID := "service-9";
                  HeartbeatClient.API_KEY := "another-key";
                  HeartbeatClient.BATCH_MODE := true;
                  HeartbeatClient.BATCH_SHARED_KEY := false;
                  HeartbeatClient.SERVICE_IDS := [py "service-9"];
                  HeartbeatClient.SERVICES_WITH_KEYS :=
                    HeartbeatClient.default_services_with_keys |}
               (fun _ => NetFail NetTimeout) initial))
  = sent (snd (HeartbeatClient.send_heartbeat_batch cfg
                 (fun _ => NetFail NetTimeout) initial)).
Proof.
  intros cfg.
  exact (proj1 (batch_request_independence cfg
                  (fun _ => NetFail NetTimeout) initial
                  (py "service-9") (py "another-key") [py "service-9"] [])
           eq_refl).
Defined.

(* ================================================================= *)
(** ** The console transcript of the key-generation utility *)

(** X17. On a run over a non-empty list of services (ids and [openssl]
    outputs being well-formed strings that can be encoded) the console
    shows, in this order, one line [Generated key for: <id>] per listed
    service, duplicates included, and later one line [<id>: <key>] per
    entry of the final mapping: every generated key is echoed to standard
    output in clear, besides being saved to the file. *)
Theorem generated_keys_echoed
    (services : list GenerateApiKeys.Service)
    (openssl_stdout : nat -> pystr) (s : GenerateApiKeys.State)
    (Hne : services <> [])
    (Hids : Forall (fun service =>
                      well_formed (GenerateApiKeys.id service) = true)
              services)
    (Hkeys : forall n, well_formed (openssl_stdout n) = true)
    (Hprintable : Forall (fun service =>
                            encodable (GenerateApiKeys.id service) = true)
                    services)
    (Hwritable : forall n, encodable (openssl_stdout n) = true) :
  exists before between after,
    GenerateApiKeys.out
      (snd (GenerateApiKeys.main (GenerateApiKeys.Document (Some services))
              openssl_stdout s))
    = GenerateApiKeys.out s
      ++ before
      ++ map (fun service =>
                [Lit "✅ Generated key for: ";
                 Val (JStr (GenerateApiKeys.id service))]) services
      ++ between
      ++ map (fun item =>
                [Val (JStr (fst item)); Lit ": "; Str (snd item)])
           (keys_after openssl_stdout (GenerateApiKeys.openssl_runs s)
              services [])
      ++ after.
Proof.
  set (api_keys := keys_after openssl_stdout
                     (GenerateApiKeys.openssl_runs s) services []).
  assert (Hloads : JsonText.loads (GenerateApiKeys.json_string_of api_keys)
                   = Some api_keys).
  { apply loads_dumps_compact.
    - apply keys_after_NoDup. constructor.
    - now apply keys_after_well_formed. }
  pose proof (keys_after_encodable openssl_stdout
                (GenerateApiKeys.openssl_runs s) services Hprintable
                (fun i => encodable_strip _ (Hwritable i))) as Henc.
  destruct (main_run openssl_stdout services s Hne Hprintable Henc Hloads)
    as (final & before & between & after & Hrun & Hout & _).
  exists before, between, after. rewrite Hrun. exact Hout.
Qed.

Lemma generated_keys_echoed_witness :
  exists before between after,
    GenerateApiKeys.out
      (snd (GenerateApiKeys.main
              (GenerateApiKeys.Document
                 (Some [{| GenerateApiKeys.id := py "service-1" |};
                        {| GenerateApiKeys.id := py "service-1" |}]))
              (fun n => py (if Nat.eqb n 0 then "AAAA" else "BBBB") ++ py nl)
              {| GenerateApiKeys.out := [];
                 GenerateApiKeys.openssl_runs := 0%nat;
                 GenerateApiKeys.api_keys_generated_txt := None |}))
    = before
      ++ [[Lit "✅ Generated key for: "; Val (JStr (py "service-1"))];
          [Lit "✅ Generated key for: "; Val (JStr (py "service-1"))]]
      ++ between
      ++ [[Val (JStr (py "service-1")); Lit ": "; Str (py "BBBB")]]
      ++ after.
Proof.
  exact (generated_keys_echoed
           [{| GenerateApiKeys.id := py "service-1" |};
            {| GenerateApiKeys.id := py "service-1" |}]
           (fun n => py (if Nat.eqb n 0 then "AAAA" else "BBBB") ++ py nl)
           {| GenerateApiKeys.out := [];
              GenerateApiKeys.openssl_runs := 0%nat;
              GenerateApiKeys.api_keys_generated_txt := None |}
           ltac:(discriminate)
           ltac:(repeat constructor)
           ltac:(intros [|n]; vm_compute; reflexivity)
           ltac:(repeat constructor)
           ltac:(intros [|n]; vm_compute; reflexivity)).
Defined.


